(** * nodejs-rag-module: input validation, error taxonomy and orchestration

    A shallow embedding of the TypeScript sources
    - [src/errors/index.ts]          (RAGError, ErrorCodes),
    - [src/utils/validation.ts]      (InputValidator),
    - [src/services/database.ts]     (SQLiteVectorDatabase.initialize),
    - [src/services/mysqlDatabase.ts] (the field selection of updateDocument),
    - [src/index.ts]                 (RAGModule),
    - the HybridRAGModule class of the services directory,
    followed by the properties of the specification that were checked on it. *)

From Stdlib Require Import List ZArith NArith Bool String Ascii Lia DecimalString.
Import ListNotations.

Set Implicit Arguments.
Set Warnings "-register-all".

(* ===================================================================== *)
(** * JavaScript data *)
(* ===================================================================== *)

Module JS.

(** A JavaScript string is a sequence of UTF-16 code units; [length],
    [trim] and the regular expressions of the validators all work on code
    units. *)
Definition jsstring := list N.

(** An ASCII literal of the source as a JavaScript string. *)
Definition lit (s : string) : jsstring :=
  map N_of_ascii (list_ascii_of_string s).

(** [String.prototype.length]. *)
Definition str_length (s : jsstring) : Z := Z.of_nat (List.length s).

(** The code units removed by [String.prototype.trim]: WhiteSpace and
    LineTerminator of ECMA-262 (all of them in the basic plane). *)
Definition isWhiteSpace (c : N) : bool :=
  ((9 <=? c) && (c <=? 13) || (c =? 32) || (c =? 160) || (c =? 5760)
   || (8192 <=? c) && (c <=? 8202) || (c =? 8232) || (c =? 8233)
   || (c =? 8239) || (c =? 8287) || (c =? 12288) || (c =? 65279))%N.

Fixpoint trimStart (s : jsstring) : jsstring :=
  match s with
  | c :: s' => if isWhiteSpace c then trimStart s' else s
  | [] => []
  end.

Definition trimEnd (s : jsstring) : jsstring := rev (trimStart (rev s)).

Definition trim (s : jsstring) : jsstring := trimEnd (trimStart s).

Definition isUpper (c : N) : bool := ((65 <=? c) && (c <=? 90))%N.
Definition isLower (c : N) : bool := ((97 <=? c) && (c <=? 122))%N.
Definition isDigit (c : N) : bool := ((48 <=? c) && (c <=? 57))%N.

(** [String.prototype.toUpperCase] on the ASCII range.  Its only call site
    ([validateTableName]) runs after TABLE_NAME_REGEX has accepted the
    string, so every code unit it sees is ASCII. *)
Definition toUpperCase (s : jsstring) : jsstring :=
  map (fun c => if isLower c then (c - 32)%N else c) s.

Fixpoint str_eqb (a b : jsstring) : bool :=
  match a, b with
  | [], [] => true
  | x :: a', y :: b' => (x =? y)%N && str_eqb a' b'
  | _, _ => false
  end.

(** [String.prototype.startsWith] and [String.prototype.endsWith]. *)
Fixpoint startsWith (s prefix : jsstring) : bool :=
  match prefix, s with
  | [], _ => true
  | p :: prefix', c :: s' => (p =? c)%N && startsWith s' prefix'
  | _ :: _, [] => false
  end.

Definition endsWith (s suffix : jsstring) : bool :=
  startsWith (rev s) (rev suffix).

(** [Array.prototype.includes] on an array of strings. *)
Definition includes (l : list jsstring) (s : jsstring) : bool :=
  existsb (str_eqb s) l.

(** A JavaScript number.  [NumInt z] is the double whose value is the
    integer [z] (the doubles [Number.isInteger] accepts); [NumOther bits] is
    any other double (a fraction, NaN, an infinity), named by its IEEE-754
    bit pattern. *)
Inductive jsnumber : Type :=
| NumInt (z : Z)
| NumOther (bits : N).

(** NaN: exponent all ones, mantissa not zero. *)
Definition isNaN (bits : N) : bool :=
  (N.land (N.shiftr bits 52) 2047 =? 2047)%N
  && negb (N.land bits 4503599627370495 =? 0)%N.

(** JavaScript values that can sit in a request field. *)
Inductive jsvalue : Type :=
| JUndefined
| JNull
| JBool (b : bool)
| JNumber (n : jsnumber)
| JString (s : jsstring)
| JObject (props : list (jsstring * jsvalue)).

(** ToBoolean, used by [if (x)], [x && y] and [!x]. *)
Definition truthy (v : jsvalue) : bool :=
  match v with
  | JUndefined | JNull => false
  | JBool b => b
  | JNumber (NumInt z) => negb (z =? 0)%Z
  | JNumber (NumOther bits) => negb (isNaN bits)
  | JString s => negb (str_length s =? 0)%Z
  | JObject _ => true
  end.

End JS.
Import JS.

(* ===================================================================== *)
(** * src/errors/index.ts *)
(* ===================================================================== *)

(** [enum ErrorCodes]. *)
Inductive ErrorCodes : Type :=
| MODEL_LOAD_FAILED
| DATABASE_CONNECTION_FAILED
| TABLE_CREATION_FAILED
| EMBEDDING_FAILED
| VECTOR_SAVE_FAILED
| SEARCH_FAILED
| INVALID_INPUT.

(** What a [throw] can carry.  [RAGError] is the class of
    src/errors/index.ts (every construction site of the repository passes a
    member of [ErrorCodes] as its code); [NativeError] is an [Error] that is
    not a [RAGError] (a TypeError, a driver error); [ThrownValue] is a thrown
    value that is not an [Error] at all. *)
Inductive JSError : Type :=
| RAGError (message : jsstring) (code : ErrorCodes) (cause : option JSError)
| NativeError (message : jsstring)
| ThrownValue (v : jsvalue).

(** [error instanceof RAGError]. *)
Definition instanceof_RAGError (e : JSError) : bool :=
  match e with RAGError _ _ _ => true | _ => false end.

(** [error instanceof Error]. *)
Definition instanceof_Error (e : JSError) : bool :=
  match e with ThrownValue _ => false | _ => true end.

(** [error instanceof Error ? error.message : 'Unknown error']. *)
Definition message_or_unknown (e : JSError) : jsstring :=
  match e with
  | RAGError m _ _ => m
  | NativeError m => m
  | ThrownValue _ => lit "Unknown error"
  end.

(** [new RAGError(`${prefix}${...}`, code, error instanceof Error ? error : undefined)],
    the wrapping expression every catch block of the repository uses. *)
Definition wrap (prefix : jsstring) (code : ErrorCodes) (e : JSError) : JSError :=
  RAGError (prefix ++ message_or_unknown e) code
           (if instanceof_Error e then Some e else None).

Definition error_code (e : JSError) : option ErrorCodes :=
  match e with RAGError _ c _ => Some c | _ => None end.

(** The outcome of evaluating a piece of JavaScript: a value or a throw. *)
Inductive completion (A : Type) : Type :=
| Return (a : A)
| Throw (e : JSError).
Arguments Return {A} a.
Arguments Throw {A} e.

(* ===================================================================== *)
(** * src/utils/validation.ts *)
(* ===================================================================== *)

Module InputValidator.

Definition MAX_TABLE_NAME_LENGTH : Z := 64.
Definition MAX_TEXT_LENGTH : Z := 1000000.
Definition MAX_SEARCH_QUANTITY : Z := 1000.
Definition MIN_SEARCH_QUANTITY : Z := 1.
Definition MAX_SAFE_INTEGER : Z := 9007199254740991.

Definition isLetter (c : N) : bool := isLower c || isUpper c.

(** The class [[a-zA-Z0-9_-]]. *)
Definition isNameChar (c : N) : bool :=
  isLetter c || isDigit c || (c =? 95)%N || (c =? 45)%N.

(** [TABLE_NAME_REGEX.test(s)] for [/^[a-zA-Z][a-zA-Z0-9_-]*$/]. *)
Definition TABLE_NAME_REGEX_test (s : jsstring) : bool :=
  match s with
  | c :: rest => isLetter c && forallb isNameChar rest
  | [] => false
  end.

Definition reservedWords : list jsstring :=
  map lit
    ["SELECT"; "INSERT"; "UPDATE"; "DELETE"; "DROP"; "CREATE"; "ALTER"; "INDEX";
     "TABLE"; "DATABASE"; "SCHEMA"; "VIEW"; "TRIGGER"; "PROCEDURE"; "FUNCTION";
     "UNION"; "JOIN"; "WHERE"; "ORDER"; "GROUP"; "HAVING"; "LIMIT"]%string.

Definition invalid (msg : jsstring) : JSError := RAGError msg INVALID_INPUT None.

Definition validateText (text : jsvalue) (fieldName : jsstring) : completion jsstring :=
  match text with
  | JString text =>
      if (str_length text =? 0)%Z then
        Throw (invalid (fieldName ++ lit " cannot be empty"))
      else
        let trimmedText := trim text in
        if (str_length trimmedText =? 0)%Z then
          Throw (invalid (fieldName ++ lit " cannot be empty"))
        else if (str_length trimmedText >? MAX_TEXT_LENGTH)%Z then
          Throw (invalid (fieldName ++ lit " exceeds maximum length of 1000000 characters"))
        else Return trimmedText
  | _ => Throw (invalid (fieldName ++ lit " must be a string"))
  end.

Definition validateTableName (tablename : jsvalue) : completion jsstring :=
  match tablename with
  | JString tablename =>
      if (str_length tablename =? 0)%Z then
        Throw (invalid (lit "Table name cannot be empty"))
      else
        let trimmedTableName := trim tablename in
        if (str_length trimmedTableName =? 0)%Z then
          Throw (invalid (lit "Table name cannot be empty or whitespace only"))
        else if (str_length trimmedTableName >? MAX_TABLE_NAME_LENGTH)%Z then
          Throw (invalid (lit "Invalid table name format"))
        else if negb (TABLE_NAME_REGEX_test trimmedTableName) then
          Throw (invalid (lit "Invalid table name format"))
        else if includes reservedWords (toUpperCase trimmedTableName) then
          Throw (invalid (lit "Table name '" ++ trimmedTableName
                          ++ lit "' is a reserved SQL keyword"))
        else Return trimmedTableName
  | _ => Throw (invalid (lit "Table name must be a string"))
  end.

Definition validateId (id : jsvalue) : completion jsvalue :=
  match id with
  | JNumber (NumOther _) => Throw (invalid (lit "ID must be a non-negative integer"))
  | JNumber (NumInt z) =>
      if (z <? 0)%Z then Throw (invalid (lit "ID must be a non-negative integer"))
      else if (z >? MAX_SAFE_INTEGER)%Z then
        Throw (invalid (lit "ID exceeds maximum safe integer value"))
      else Return id
  | _ => Throw (invalid (lit "ID must be a number"))
  end.

Definition validateSearchQuantity (qty : jsvalue) : completion jsvalue :=
  match qty with
  | JNumber (NumOther _) => Throw (invalid (lit "Quantity must be a positive integer"))
  | JNumber (NumInt z) =>
      if (z <? MIN_SEARCH_QUANTITY)%Z then
        Throw (invalid (lit "Quantity must be a positive integer"))
      else if (z >? MAX_SEARCH_QUANTITY)%Z then
        Throw (invalid (lit "Quantity cannot exceed 1000 results"))
      else Return qty
  | _ => Throw (invalid (lit "Quantity must be a number"))
  end.

(** The class [[\x00-\x08\x0B\x0C\x0E-\x1F\x7F]]. *)
Definition isControl (c : N) : bool :=
  ((c <=? 8) || (c =? 11) || (c =? 12) || (14 <=? c) && (c <=? 31) || (c =? 127))%N.

Definition sanitizeText (text : jsstring) : jsstring :=
  filter (fun c => negb (isControl c)) text.

End InputValidator.
Import InputValidator.

(* ===================================================================== *)
(** * Evaluation with state and exceptions *)
(* ===================================================================== *)

(** A method body: it reads and updates a state [S] and either returns or
    throws.  The state reached is kept on a throw, as in JavaScript. *)
Definition M (S A : Type) : Type := S -> completion A * S.

Definition ret {S A} (a : A) : M S A := fun s => (Return a, s).

Definition throw {S A} (e : JSError) : M S A := fun s => (Throw e, s).

Definition bind {S A B} (c : M S A) (k : A -> M S B) : M S B :=
  fun s =>
    match c s with
    | (Return a, s') => k a s'
    | (Throw e, s') => (Throw e, s')
    end.

(** [try { body } catch (error) { handler }]. *)
Definition try_catch {S A} (body : M S A) (handler : JSError -> M S A) : M S A :=
  fun s =>
    match body s with
    | (Return a, s') => (Return a, s')
    | (Throw e, s') => handler e s'
    end.

(** A pure computation that may throw, run inside a method. *)
Definition lift {S A} (c : completion A) : M S A := fun s => (c, s).

Declare Scope js_scope.
Delimit Scope js_scope with js.
Notation "x <- c ;; k" := (bind c (fun x => k))
  (at level 61, c at next level, right associativity) : js_scope.
Notation "c ;;; k" := (bind c (fun _ => k))
  (at level 61, right associativity) : js_scope.
Open Scope js_scope.

(** The catch block shared by the orchestrators:
    [if (error instanceof RAGError) throw error; throw new RAGError(...)]. *)
Definition rethrow_or_wrap {S A} (prefix : string) (code : ErrorCodes)
  (error : JSError) : M S A :=
  if instanceof_RAGError error then throw error
  else throw (wrap (lit prefix) code error).

(** The catch block that wraps whatever was thrown. *)
Definition always_wrap {S A} (prefix : string) (code : ErrorCodes)
  (error : JSError) : M S A :=
  throw (wrap (lit prefix) code error).

(** Reading [v.length], as the logging lines in front of the try blocks do.
    Only [undefined] and [null] make the property access throw (the wording
    of the TypeError is Node's). *)
Definition read_length (v : jsvalue) : completion unit :=
  match v with
  | JUndefined =>
      Throw (NativeError (lit "Cannot read properties of undefined (reading 'length')"))
  | JNull =>
      Throw (NativeError (lit "Cannot read properties of null (reading 'length')"))
  | _ => Return tt
  end.

(* ===================================================================== *)
(** * Collaborators *)
(* ===================================================================== *)

Definition vector := list jsnumber.

(** [Omit<DocumentRecord, 'id' | 'created_at' | 'updated_at'>], also used as
    the [Partial] update set; an absent field is [JUndefined]. *)
Record DocumentFields : Type := {
  f_title : jsvalue;
  f_content : jsvalue;
  f_metadata : jsvalue
}.

Record DocumentRecord : Type := {
  doc_id : jsvalue;
  doc_title : jsvalue;
  doc_content : jsvalue;
  doc_metadata : jsvalue;
  doc_created_at : jsvalue;
  doc_updated_at : jsvalue
}.

(** The interface of the embedding service, over the state [E] of the
    engine behind it. *)
Class EmbeddingService (E : Type) : Type := {
  es_initialize : jsstring -> E -> completion unit * E;
  es_embed : jsvalue -> E -> completion vector * E;
  es_close : E -> completion unit * E
}.

(** The interface [DatabaseService] of the vector store, over its state [V]. *)
Class DatabaseService (V : Type) : Type := {
  db_initialize : jsstring -> V -> completion unit * V;
  db_createTableIfNotExists : jsvalue -> V -> completion unit * V;
  db_insertVector : jsvalue -> jsvalue -> vector -> V -> completion bool * V;
  db_searchSimilar : jsvalue -> vector -> jsvalue -> V -> completion (list jsvalue) * V;
  db_close : V -> completion unit * V
}.

(** The interface [VectorSearchService]: [search(tablename, queryVector,
    limit, dbService)] works on the database service it is handed. *)
Class VectorSearchService (V : Type) : Type := {
  vs_search : jsvalue -> vector -> jsvalue -> V -> completion (list jsvalue) * V
}.

(** The methods of the relational document store, over its state [D]. *)
Class DocumentStore (D : Type) : Type := {
  ds_initialize : D -> completion unit * D;
  ds_createDocumentsTable : jsvalue -> D -> completion unit * D;
  ds_insertDocument : jsvalue -> DocumentFields -> D -> completion jsvalue * D;
  ds_getDocumentsByIds : jsvalue -> list jsvalue -> D -> completion (list DocumentRecord) * D;
  ds_updateDocument : jsvalue -> jsvalue -> DocumentFields -> D -> completion bool * D;
  ds_deleteDocument : jsvalue -> jsvalue -> D -> completion bool * D;
  ds_close : D -> completion unit * D
}.

(** One entry per method call an orchestrator makes on a collaborator. *)
Inductive Call : Type :=
| EmbeddingInitialize (modelPath : jsstring)
| EmbeddingEmbed (text : jsvalue)
| EmbeddingClose
| DatabaseInitialize (databasePath : jsstring)
| CreateTableIfNotExists (tablename : jsvalue)
| InsertVector (tablename id : jsvalue) (v : vector)
| VectorSearch (tablename : jsvalue) (queryVector : vector) (limit : jsvalue)
| DatabaseClose
| MySQLInitialize
| CreateDocumentsTable (tablename : jsvalue)
| InsertDocument (tablename : jsvalue) (document : DocumentFields)
| GetDocumentsByIds (tablename : jsvalue) (ids : list jsvalue)
| UpdateDocument (tablename id : jsvalue) (updates : DocumentFields)
| DeleteDocument (tablename id : jsvalue)
| MySQLClose.

Definition is_embedding_call (c : Call) : bool :=
  match c with
  | EmbeddingInitialize _ | EmbeddingEmbed _ | EmbeddingClose => true
  | _ => false
  end.

Definition is_vector_store_call (c : Call) : bool :=
  match c with
  | DatabaseInitialize _ | CreateTableIfNotExists _ | InsertVector _ _ _
  | VectorSearch _ _ _ | DatabaseClose => true
  | _ => false
  end.

Definition is_initialize_call (c : Call) : bool :=
  match c with
  | EmbeddingInitialize _ | DatabaseInitialize _ | MySQLInitialize => true
  | _ => false
  end.

Definition is_close_call (c : Call) : bool :=
  match c with
  | EmbeddingClose | DatabaseClose | MySQLClose => true
  | _ => false
  end.

(* ===================================================================== *)
(** * src/index.ts: RAGModule *)
(* ===================================================================== *)

Record RAGModuleConfig : Type := {
  modelPath : jsstring;
  databasePath : jsstring
}.

Record EmbedRequest : Type := { er_text : jsvalue }.

Record SaveRequest : Type := {
  sr_id : jsvalue;
  sr_text : jsvalue;
  sr_tablename : jsvalue
}.

Record SearchRequest : Type := {
  qr_text : jsvalue;
  qr_tablename : jsvalue;
  qr_qty : jsvalue
}.

Module RAGModule.

(** The fields of an instance, the states of its collaborators, and the
    log of the calls made on them.  The logger is left out: [Logger.log]
    only prints and never throws. *)
Record t (E V : Type) : Type := {
  config : RAGModuleConfig;
  initialized : bool;
  embeddingService : E;
  databaseService : V;
  calls : list Call
}.

Section Methods.
Context {E V : Type} `{EmbeddingService E} `{DatabaseService V} `{VectorSearchService V}.

Local Abbreviation this := (t E V).

Definition with_initialized (b : bool) (s : this) : this :=
  {| config := config s; initialized := b;
     embeddingService := embeddingService s;
     databaseService := databaseService s; calls := calls s |}.

(** A call on the embedding service: its state advances, the call is logged. *)
Definition on_embedding {A} (c : Call) (op : E -> completion A * E) : M this A :=
  fun s =>
    let (r, e') := op (embeddingService s) in
    (r, {| config := config s; initialized := initialized s;
           embeddingService := e'; databaseService := databaseService s;
           calls := calls s ++ [c] |}).

(** A call on the database service (directly or through the search service). *)
Definition on_database {A} (c : Call) (op : V -> completion A * V) : M this A :=
  fun s =>
    let (r, v') := op (databaseService s) in
    (r, {| config := config s; initialized := initialized s;
           embeddingService := embeddingService s; databaseService := v';
           calls := calls s ++ [c] |}).

Definition not_initialized : JSError :=
  RAGError (lit "RAG module not initialized") INVALID_INPUT None.

(** The private validators.  They assign the validated fields to the request
    object; the request below is the object after those assignments. *)
Definition validateEmbedRequest (request : EmbedRequest) : completion EmbedRequest :=
  match validateText (er_text request) (lit "text") with
  | Throw e => Throw e
  | Return text => Return {| er_text := JString (sanitizeText text) |}
  end.

Definition validateSaveRequest (request : SaveRequest) : completion SaveRequest :=
  match validateText (sr_text request) (lit "text") with
  | Throw e => Throw e
  | Return text =>
      match validateId (sr_id request) with
      | Throw e => Throw e
      | Return id =>
          match validateTableName (sr_tablename request) with
          | Throw e => Throw e
          | Return tablename =>
              Return {| sr_id := id; sr_text := JString (sanitizeText text);
                        sr_tablename := JString tablename |}
          end
      end
  end.

Definition validateSearchRequest (request : SearchRequest) : completion SearchRequest :=
  match validateText (qr_text request) (lit "Search text") with
  | Throw e => Throw e
  | Return text =>
      match validateTableName (qr_tablename request) with
      | Throw e => Throw e
      | Return tablename =>
          match validateSearchQuantity (qr_qty request) with
          | Throw e => Throw e
          | Return qty =>
              Return {| qr_text := JString (sanitizeText text);
                        qr_tablename := JString tablename; qr_qty := qty |}
          end
      end
  end.

Definition embed (request : EmbedRequest) : M this vector :=
  fun s =>
    if negb (initialized s) then throw not_initialized s
    else
      (lift (read_length (er_text request)) ;;;
       try_catch
         (request <- lift (validateEmbedRequest request) ;;
          vector <- on_embedding (EmbeddingEmbed (er_text request))
                      (es_embed (er_text request)) ;;
          ret vector)
         (rethrow_or_wrap "Failed to generate embedding: " EMBEDDING_FAILED)) s.

Definition save (request : SaveRequest) : M this bool :=
  fun s =>
    if negb (initialized s) then throw not_initialized s
    else
      (lift (read_length (sr_text request)) ;;;
       try_catch
         (request <- lift (validateSaveRequest request) ;;
          vector <- on_embedding (EmbeddingEmbed (sr_text request))
                      (es_embed (sr_text request)) ;;
          on_database (CreateTableIfNotExists (sr_tablename request))
            (db_createTableIfNotExists (sr_tablename request)) ;;;
          success <- on_database
                       (InsertVector (sr_tablename request) (sr_id request) vector)
                       (db_insertVector (sr_tablename request) (sr_id request) vector) ;;
          ret success)
         (rethrow_or_wrap "Failed to save vector: " VECTOR_SAVE_FAILED)) s.

Definition search (request : SearchRequest) : M this (list jsvalue) :=
  fun s =>
    if negb (initialized s) then throw not_initialized s
    else
      (lift (read_length (qr_text request)) ;;;
       try_catch
         (request <- lift (validateSearchRequest request) ;;
          queryVector <- on_embedding (EmbeddingEmbed (qr_text request))
                           (es_embed (qr_text request)) ;;
          results <- on_database
                       (VectorSearch (qr_tablename request) queryVector (qr_qty request))
                       (vs_search (qr_tablename request) queryVector (qr_qty request)) ;;
          ret results)
         (rethrow_or_wrap "Failed to search vectors: " SEARCH_FAILED)) s.

Definition initialize : M this unit :=
  fun s =>
    if initialized s then ret tt s
    else
      try_catch
        (on_embedding (EmbeddingInitialize (modelPath (config s)))
           (es_initialize (modelPath (config s))) ;;;
         on_database (DatabaseInitialize (databasePath (config s)))
           (db_initialize (databasePath (config s))) ;;;
         fun s' => (Return tt, with_initialized true s'))
        (rethrow_or_wrap "Failed to initialize RAG module: " MODEL_LOAD_FAILED) s.

Definition close : M this unit :=
  fun s =>
    if negb (initialized s) then ret tt s
    else
      try_catch
        (on_embedding EmbeddingClose es_close ;;;
         on_database DatabaseClose db_close ;;;
         fun s' => (Return tt, with_initialized false s'))
        (rethrow_or_wrap "Failed to close RAG module: " MODEL_LOAD_FAILED) s.

End Methods.
End RAGModule.

(* ===================================================================== *)
(** * HybridRAGModule *)
(* ===================================================================== *)

Record SaveDocumentRequest : Type := {
  dr_title : jsvalue;
  dr_content : jsvalue;
  dr_metadata : jsvalue;
  dr_tablename : jsvalue
}.

Record HybridSearchRequest : Type := {
  hr_text : jsvalue;
  hr_tablename : jsvalue;
  hr_qty : jsvalue;
  hr_includeContent : jsvalue;
  hr_includeMetadata : jsvalue
}.

Record SearchResult : Type := {
  res_id : jsvalue;
  res_title : jsvalue;
  res_content : jsvalue;
  res_metadata : jsvalue;
  res_created_at : jsvalue;
  res_updated_at : jsvalue;
  res_similarity_score : nat
}.

Module HybridRAGModule.

Record t (E V D : Type) : Type := {
  config : RAGModuleConfig;
  initialized : bool;
  embeddingService : E;
  vectorDatabase : V;
  mysqlDatabase : D;
  calls : list Call
}.

Section Methods.
Context {E V D : Type} `{EmbeddingService E} `{DatabaseService V}
  `{VectorSearchService V} `{DocumentStore D}.

Local Abbreviation this := (t E V D).

Definition with_initialized (b : bool) (s : this) : this :=
  {| config := config s; initialized := b;
     embeddingService := embeddingService s; vectorDatabase := vectorDatabase s;
     mysqlDatabase := mysqlDatabase s; calls := calls s |}.

Definition on_embedding {A} (c : Call) (op : E -> completion A * E) : M this A :=
  fun s =>
    let (r, e') := op (embeddingService s) in
    (r, {| config := config s; initialized := initialized s;
           embeddingService := e'; vectorDatabase := vectorDatabase s;
           mysqlDatabase := mysqlDatabase s; calls := calls s ++ [c] |}).

Definition on_vectors {A} (c : Call) (op : V -> completion A * V) : M this A :=
  fun s =>
    let (r, v') := op (vectorDatabase s) in
    (r, {| config := config s; initialized := initialized s;
           embeddingService := embeddingService s; vectorDatabase := v';
           mysqlDatabase := mysqlDatabase s; calls := calls s ++ [c] |}).

Definition on_mysql {A} (c : Call) (op : D -> completion A * D) : M this A :=
  fun s =>
    let (r, d') := op (mysqlDatabase s) in
    (r, {| config := config s; initialized := initialized s;
           embeddingService := embeddingService s; vectorDatabase := vectorDatabase s;
           mysqlDatabase := d'; calls := calls s ++ [c] |}).

Definition not_initialized : JSError :=
  RAGError (lit "Hybrid RAG module not initialized") INVALID_INPUT None.

(** [InputValidator.sanitizeText(request.title)] on whatever truthy value
    the title holds: [text.replace] exists on strings only. *)
Definition sanitizeTitle (title : jsvalue) : completion jsvalue :=
  match title with
  | JString s => Return (JString (sanitizeText s))
  | _ => Throw (NativeError (lit "text.replace is not a function"))
  end.

Definition validateSaveDocumentRequest (request : SaveDocumentRequest)
  : completion SaveDocumentRequest :=
  match validateText (dr_content request) (lit "document content") with
  | Throw e => Throw e
  | Return content =>
      match validateTableName (dr_tablename request) with
      | Throw e => Throw e
      | Return tablename =>
          if truthy (dr_title request) then
            match sanitizeTitle (dr_title request) with
            | Throw e => Throw e
            | Return title =>
                Return {| dr_title := title; dr_content := JString (sanitizeText content);
                          dr_metadata := dr_metadata request;
                          dr_tablename := JString tablename |}
            end
          else
            Return {| dr_title := dr_title request;
                      dr_content := JString (sanitizeText content);
                      dr_metadata := dr_metadata request;
                      dr_tablename := JString tablename |}
      end
  end.

Definition validateSearchRequest (request : HybridSearchRequest)
  : completion HybridSearchRequest :=
  match validateText (hr_text request) (lit "search text") with
  | Throw e => Throw e
  | Return text =>
      match validateTableName (hr_tablename request) with
      | Throw e => Throw e
      | Return tablename =>
          match validateSearchQuantity (hr_qty request) with
          | Throw e => Throw e
          | Return qty =>
              Return {| hr_text := JString (sanitizeText text);
                        hr_tablename := JString tablename; hr_qty := qty;
                        hr_includeContent := hr_includeContent request;
                        hr_includeMetadata := hr_includeMetadata request |}
          end
      end
  end.

Definition validateEmbedRequest (request : EmbedRequest) : completion EmbedRequest :=
  match validateText (er_text request) (lit "text") with
  | Throw e => Throw e
  | Return text => Return {| er_text := JString (sanitizeText text) |}
  end.

Definition initialize : M this unit :=
  fun s =>
    if initialized s then ret tt s
    else
      try_catch
        (on_embedding (EmbeddingInitialize (modelPath (config s)))
           (es_initialize (modelPath (config s))) ;;;
         on_vectors (DatabaseInitialize (databasePath (config s)))
           (db_initialize (databasePath (config s))) ;;;
         on_mysql MySQLInitialize ds_initialize ;;;
         fun s' => (Return tt, with_initialized true s'))
        (always_wrap "Failed to initialize Hybrid RAG module: " MODEL_LOAD_FAILED) s.

Definition saveDocument (request : SaveDocumentRequest) : M this jsvalue :=
  fun s =>
    if negb (initialized s) then throw not_initialized s
    else
      (lift (read_length (dr_content request)) ;;;
       try_catch
         (request <- lift (validateSaveDocumentRequest request) ;;
          on_mysql (CreateDocumentsTable (dr_tablename request))
            (ds_createDocumentsTable (dr_tablename request)) ;;;
          let document := {| f_title := dr_title request;
                             f_content := dr_content request;
                             f_metadata := dr_metadata request |} in
          documentId <- on_mysql (InsertDocument (dr_tablename request) document)
                          (ds_insertDocument (dr_tablename request) document) ;;
          vector <- on_embedding (EmbeddingEmbed (dr_content request))
                      (es_embed (dr_content request)) ;;
          on_vectors (CreateTableIfNotExists (dr_tablename request))
            (db_createTableIfNotExists (dr_tablename request)) ;;;
          on_vectors (InsertVector (dr_tablename request) documentId vector)
            (db_insertVector (dr_tablename request) documentId vector) ;;;
          ret documentId)
         (rethrow_or_wrap "Failed to save document: " VECTOR_SAVE_FAILED)) s.

(** [x !== false]. *)
Definition not_false (v : jsvalue) : bool :=
  match v with JBool false => false | _ => true end.

(** The callback of [documents.map((doc, index) => ...)]. *)
Definition toSearchResult (request : HybridSearchRequest)
  (index : nat) (doc : DocumentRecord) : SearchResult :=
  {| res_id := doc_id doc;
     res_title := doc_title doc;
     res_content := if not_false (hr_includeContent request)
                    then doc_content doc else JString [];
     res_metadata := if not_false (hr_includeMetadata request)
                     then doc_metadata doc else JUndefined;
     res_created_at := doc_created_at doc;
     res_updated_at := doc_updated_at doc;
     res_similarity_score := index |}.

Fixpoint map_indexed {A B} (f : nat -> A -> B) (index : nat) (l : list A) : list B :=
  match l with
  | [] => []
  | x :: l' => f index x :: map_indexed f (S index) l'
  end.

Definition searchDocuments (request : HybridSearchRequest) : M this (list SearchResult) :=
  fun s =>
    if negb (initialized s) then throw not_initialized s
    else
      (lift (read_length (hr_text request)) ;;;
       try_catch
         (request <- lift (validateSearchRequest request) ;;
          queryVector <- on_embedding (EmbeddingEmbed (hr_text request))
                           (es_embed (hr_text request)) ;;
          similarIds <- on_vectors
                          (VectorSearch (hr_tablename request) queryVector (hr_qty request))
                          (vs_search (hr_tablename request) queryVector (hr_qty request)) ;;
          match similarIds with
          | [] => ret []
          | _ =>
              documents <- on_mysql (GetDocumentsByIds (hr_tablename request) similarIds)
                             (ds_getDocumentsByIds (hr_tablename request) similarIds) ;;
              ret (map_indexed (toSearchResult request) 0 documents)
          end)
         (rethrow_or_wrap "Failed to search documents: " SEARCH_FAILED)) s.

Definition updateDocument (tablename id : jsvalue) (updates : DocumentFields)
  : M this bool :=
  fun s =>
    if negb (initialized s) then throw not_initialized s
    else
      try_catch
        (updated <- on_mysql (UpdateDocument tablename id updates)
                      (ds_updateDocument tablename id updates) ;;
         (if updated && truthy (f_content updates) then
            vector <- on_embedding (EmbeddingEmbed (f_content updates))
                        (es_embed (f_content updates)) ;;
            on_vectors (InsertVector tablename id vector)
              (db_insertVector tablename id vector) ;;;
            ret tt
          else ret tt) ;;;
         ret updated)
        (rethrow_or_wrap "Failed to update document: " VECTOR_SAVE_FAILED) s.

Definition deleteDocument (tablename id : jsvalue) : M this bool :=
  fun s =>
    if negb (initialized s) then throw not_initialized s
    else
      try_catch
        (mysqlDeleted <- on_mysql (DeleteDocument tablename id)
                           (ds_deleteDocument tablename id) ;;
         ret mysqlDeleted)
        (rethrow_or_wrap "Failed to delete document: " VECTOR_SAVE_FAILED) s.

Definition getDocument (tablename id : jsvalue) : M this (option DocumentRecord) :=
  fun s =>
    if negb (initialized s) then throw not_initialized s
    else
      try_catch
        (documents <- on_mysql (GetDocumentsByIds tablename [id])
                        (ds_getDocumentsByIds tablename [id]) ;;
         ret (match documents with doc :: _ => Some doc | [] => None end))
        (rethrow_or_wrap "Failed to get document: " SEARCH_FAILED) s.

Definition embed (request : EmbedRequest) : M this vector :=
  fun s =>
    if negb (initialized s) then throw not_initialized s
    else
      try_catch
        (request <- lift (validateEmbedRequest request) ;;
         on_embedding (EmbeddingEmbed (er_text request)) (es_embed (er_text request)))
        (rethrow_or_wrap "Failed to generate embedding: " EMBEDDING_FAILED) s.

Definition close : M this unit :=
  fun s =>
    if negb (initialized s) then ret tt s
    else
      try_catch
        (on_embedding EmbeddingClose es_close ;;;
         on_vectors DatabaseClose db_close ;;;
         on_mysql MySQLClose ds_close ;;;
         fun s' => (Return tt, with_initialized false s'))
        (always_wrap "Failed to close Hybrid RAG module: " MODEL_LOAD_FAILED) s.

End Methods.
End HybridRAGModule.

(* ===================================================================== *)
(** * src/services/database.ts: SQLiteVectorDatabase.initialize *)
(* ===================================================================== *)

Module SQLiteVectorDatabase.

(** The two sqlite3 driver entry points [initialize] uses, over the driver's
    state [S].  Each yields what the driver hands to the callback: [None]
    for [null], [Some msg] for an [Error] with that message. *)
Class Sqlite3 (S : Type) : Type := {
  sqlite_open : jsstring -> S -> option jsstring * S;
  sqlite_loadExtension : S -> option jsstring * S
}.

Record t (S : Type) : Type := {
  db : option jsstring;
  databasePath : jsstring;
  initialized : bool;
  driver : S
}.

(** The taxonomy error the callback of [new sqlite3.Database] builds from
    the driver's error, and what the catch block of [initialize] makes of
    it. *)
Definition connection_error (msg : jsstring) : JSError :=
  RAGError (lit "Failed to connect to database: " ++ msg)
    DATABASE_CONNECTION_FAILED (Some (NativeError msg)).

Definition rewrapped_connection_error (msg : jsstring) : JSError :=
  wrap (lit "Failed to initialize database: ") DATABASE_CONNECTION_FAILED
    (connection_error msg).

Section Methods.
Context {S : Type} `{Sqlite3 S}.

(** [this.db = new sqlite3.Database(databasePath, (err) => ...)] inside the
    awaited promise: the handle is assigned whatever the callback reports. *)
Definition connect (path : jsstring) : M (t S) unit :=
  fun s =>
    let (err, d') := sqlite_open path (driver s) in
    let s' := {| db := Some path; databasePath := databasePath s;
                 initialized := initialized s; driver := d' |} in
    match err with
    | Some msg => (Throw (connection_error msg), s')
    | None => (Return tt, s')
    end.

Definition loadVectorExtension : M (t S) unit :=
  fun s =>
    match db s with
    | None => (Throw (NativeError (lit "Database not initialized")), s)
    | Some _ =>
        let (err, d') := sqlite_loadExtension (driver s) in
        let s' := {| db := db s; databasePath := databasePath s;
                     initialized := initialized s; driver := d' |} in
        match err with
        | Some msg =>
            (Throw (RAGError (lit "Failed to load sqlite-vec extension: " ++ msg)
                             DATABASE_CONNECTION_FAILED (Some (NativeError msg))), s')
        | None => (Return tt, s')
        end
    end.

Definition initialize (path : jsstring) : M (t S) unit :=
  fun s =>
    if initialized s && str_eqb (databasePath s) path then ret tt s
    else
      try_catch
        ((fun s0 => (Return tt, {| db := db s0; databasePath := path;
                                   initialized := initialized s0;
                                   driver := driver s0 |})) ;;;
         connect path ;;;
         loadVectorExtension ;;;
         fun s1 => (Return tt, {| db := db s1; databasePath := databasePath s1;
                                  initialized := true; driver := driver s1 |}))
        (always_wrap "Failed to initialize database: " DATABASE_CONNECTION_FAILED) s.

End Methods.

(** The class as a [DatabaseService]; the methods that take no part in
    initialisation are parameters. *)
Section AsDatabaseService.
Context {S : Type} `{Sqlite3 S}.
Variable createTableIfNotExists : jsvalue -> t S -> completion unit * t S.
Variable insertVector : jsvalue -> jsvalue -> vector -> t S -> completion bool * t S.
Variable searchSimilar : jsvalue -> vector -> jsvalue -> t S -> completion (list jsvalue) * t S.
Variable close : t S -> completion unit * t S.

Definition service : DatabaseService (t S) :=
  {| db_initialize := initialize;
     db_createTableIfNotExists := createTableIfNotExists;
     db_insertVector := insertVector;
     db_searchSimilar := searchSimilar;
     db_close := close |}.

End AsDatabaseService.

End SQLiteVectorDatabase.

(* ===================================================================== *)
(** * src/services/mysqlDatabase.ts: the columns updateDocument writes *)
(* ===================================================================== *)

Module MySQLDatabase.

(** [x !== undefined]. *)
Definition defined (v : jsvalue) : bool :=
  match v with JUndefined => false | _ => true end.

(** The [updateFields] array [updateDocument] builds: one assignment per
    field of the update set that is not [undefined]. *)
Definition updateFields (updates : DocumentFields) : list string :=
  (if defined (f_title updates) then ["title = ?"%string] else [])
  ++ (if defined (f_content updates) then ["content = ?"%string] else [])
  ++ (if defined (f_metadata updates) then ["metadata = ?"%string] else []).

End MySQLDatabase.

(* ===================================================================== *)
(** * In-memory collaborators *)
(* ===================================================================== *)

(** Small executable collaborators, in the manner of the mocks of the test
    suites, on which the statements below are run. *)
Module InMemory.

Definition same_string (a b : jsvalue) : bool :=
  match a, b with
  | JString x, JString y => str_eqb x y
  | _, _ => false
  end.

Definition same_id (a b : jsvalue) : bool :=
  match a, b with
  | JNumber (NumInt x), JNumber (NumInt y) => (x =? y)%Z
  | _, _ => false
  end.

(** An embedding engine that answers every text with the same vector. *)
#[export] Instance engine : EmbeddingService unit :=
  {| es_initialize := fun _ e => (Return tt, e);
     es_embed := fun _ e => (Return [NumInt 1; NumInt 0], e);
     es_close := fun e => (Return tt, e) |}.

(** A vector store: rows [(tablename, id, vector)], newest first; a search
    lists the ids of the collection in that order. *)
Definition rows := list (jsvalue * jsvalue * vector).

Definition row_is (tablename id : jsvalue) (r : jsvalue * jsvalue * vector) : bool :=
  same_string (fst (fst r)) tablename && same_id (snd (fst r)) id.

Definition ids_of (tablename : jsvalue) (v : rows) : list jsvalue :=
  map (fun r => snd (fst r))
      (filter (fun r => same_string (fst (fst r)) tablename) v).

#[export] Instance store : DatabaseService rows :=
  {| db_initialize := fun _ v => (Return tt, v);
     db_createTableIfNotExists := fun _ v => (Return tt, v);
     db_insertVector := fun tablename id x v =>
       (Return true,
        (tablename, id, x) :: filter (fun r => negb (row_is tablename id r)) v);
     db_searchSimilar := fun tablename _ _ v => (Return (ids_of tablename v), v);
     db_close := fun v => (Return tt, v) |}.

#[export] Instance searcher : VectorSearchService rows :=
  {| vs_search := fun tablename _ _ v => (Return (ids_of tablename v), v) |}.

(** A document store: rows [(tablename, record)]; ids count up from 1. *)
Definition documents := list (jsvalue * DocumentRecord).

Definition document_is (tablename id : jsvalue) (r : jsvalue * DocumentRecord) : bool :=
  same_string (fst r) tablename && same_id (doc_id (snd r)) id.

Definition apply_updates (updates : DocumentFields) (d : DocumentRecord) : DocumentRecord :=
  {| doc_id := doc_id d;
     doc_title := if MySQLDatabase.defined (f_title updates)
                  then f_title updates else doc_title d;
     doc_content := if MySQLDatabase.defined (f_content updates)
                    then f_content updates else doc_content d;
     doc_metadata := if MySQLDatabase.defined (f_metadata updates)
                     then f_metadata updates else doc_metadata d;
     doc_created_at := doc_created_at d;
     doc_updated_at := doc_updated_at d |}.

#[export] Instance library : DocumentStore documents :=
  {| ds_initialize := fun d => (Return tt, d);
     ds_createDocumentsTable := fun _ d => (Return tt, d);
     ds_insertDocument := fun tablename f d =>
       let id := JNumber (NumInt (Z.of_nat (S (List.length d)))) in
       (Return id,
        (tablename, {| doc_id := id; doc_title := f_title f;
                       doc_content := f_content f; doc_metadata := f_metadata f;
                       doc_created_at := JUndefined;
                       doc_updated_at := JUndefined |}) :: d);
     ds_getDocumentsByIds := fun tablename ids d =>
       (Return (flat_map (fun id => map snd (filter (document_is tablename id) d)) ids), d);
     ds_updateDocument := fun tablename id updates d =>
       match MySQLDatabase.updateFields updates with
       | [] => (Return false, d)
       | _ =>
           (Return (existsb (document_is tablename id) d),
            map (fun r => if document_is tablename id r
                          then (fst r, apply_updates updates (snd r)) else r) d)
       end;
     ds_deleteDocument := fun tablename id d =>
       (Return (existsb (document_is tablename id) d),
        filter (fun r => negb (document_is tablename id r)) d);
     ds_close := fun d => (Return tt, d) |}.

Definition cfg : RAGModuleConfig :=
  {| modelPath := lit "./nomic-embed-text-v1.5.Q5_K_M.gguf";
     databasePath := lit "./rag.db" |}.

(** A plain module right after construction, and after [initialize()]. *)
Definition fresh : RAGModule.t unit rows :=
  {| RAGModule.config := cfg; RAGModule.initialized := false;
     RAGModule.embeddingService := tt; RAGModule.databaseService := [];
     RAGModule.calls := [] |}.

Definition ready : RAGModule.t unit rows := RAGModule.with_initialized true fresh.

(** A hybrid module right after construction, and after [initialize()]. *)
Definition hybrid_fresh : HybridRAGModule.t unit rows documents :=
  {| HybridRAGModule.config := cfg; HybridRAGModule.initialized := false;
     HybridRAGModule.embeddingService := tt; HybridRAGModule.vectorDatabase := [];
     HybridRAGModule.mysqlDatabase := []; HybridRAGModule.calls := [] |}.

Definition hybrid_ready : HybridRAGModule.t unit rows documents :=
  HybridRAGModule.with_initialized true hybrid_fresh.

(** A sqlite3 driver whose [Database] constructor reports
    [new Error('Connection failed')] to its callback, as the mock of the
    database test suite does. *)
#[export] Instance refusing_driver : SQLiteVectorDatabase.Sqlite3 unit :=
  {| SQLiteVectorDatabase.sqlite_open := fun _ d => (Some (lit "Connection failed"), d);
     SQLiteVectorDatabase.sqlite_loadExtension := fun d => (None, d) |}.

Definition new_database : SQLiteVectorDatabase.t unit :=
  {| SQLiteVectorDatabase.db := None;
     SQLiteVectorDatabase.databasePath := [];
     SQLiteVectorDatabase.initialized := false;
     SQLiteVectorDatabase.driver := tt |}.

(** A plain module over the sqlite database whose driver refuses the
    connection. *)
Definition over_refusing_driver : RAGModule.t unit (SQLiteVectorDatabase.t unit) :=
  {| RAGModule.config := cfg; RAGModule.initialized := false;
     RAGModule.embeddingService := tt; RAGModule.databaseService := new_database;
     RAGModule.calls := [] |}.

(** A hybrid module holding one document, saved as id 1 in table "docs". *)
Definition docs : jsvalue := JString (lit "docs").

Definition one_document : HybridRAGModule.t unit rows documents :=
  snd (HybridRAGModule.saveDocument
         {| dr_title := JString (lit "Title"); dr_content := JString (lit "old content");
            dr_metadata := JUndefined; dr_tablename := docs |} hybrid_ready).

Definition blank_content : DocumentFields :=
  {| f_title := JUndefined; f_content := JString []; f_metadata := JUndefined |}.

End InMemory.

(* ===================================================================== *)
(** * src/utils/validation.ts: validateVector and validateConfig *)
(* ===================================================================== *)

Module ConfigAndVectors.

(** [Number.isFinite] and the global [isNaN] on a number. *)
Definition isFiniteNumber (n : jsnumber) : bool :=
  match n with
  | NumInt _ => true
  | NumOther bits => negb (N.land (N.shiftr bits 52) 2047 =? 2047)%N
  end.

Definition isNaNNumber (n : jsnumber) : bool :=
  match n with
  | NumInt _ => false
  | NumOther bits => isNaN bits
  end.

(** A value that is a number and finite. *)
Definition finite_number (v : jsvalue) : Prop :=
  exists n, v = JNumber n /\ isFiniteNumber n = true.

(** What [validateVector] may be handed: an array of values, or a value that
    is not an array. *)
Inductive maybe_array : Type :=
| NotArray (v : jsvalue)
| IsArray (elements : list jsvalue).

(** An array index in a template literal. *)
Definition index_text (i : nat) : jsstring :=
  lit (DecimalString.NilZero.string_of_uint (Nat.to_uint i)).

(** The loop [for (let i = 0; i < vector.length; i++)] from index [i] on:
    the error of the first element that is not a finite number. *)
Fixpoint checkElements (i : nat) (elements : list jsvalue) : option JSError :=
  match elements with
  | [] => None
  | JNumber n :: rest =>
      if isFiniteNumber n then checkElements (S i) rest
      else Some (invalid (lit "Vector element at index " ++ index_text i
                          ++ lit " must be a finite number"))
  | _ :: _ =>
      Some (invalid (lit "Vector element at index " ++ index_text i
                     ++ lit " must be a number"))
  end.

Definition validateVector (vector : maybe_array) : completion (list jsvalue) :=
  match vector with
  | NotArray _ => Throw (invalid (lit "Vector must be an array"))
  | IsArray elements =>
      if (Z.of_nat (List.length elements) =? 0)%Z then
        Throw (invalid (lit "Vector cannot be empty"))
      else if (Z.of_nat (List.length elements) >? 10000)%Z then
        Throw (invalid (lit "Vector dimensions exceed reasonable limit"))
      else
        match checkElements 0 elements with
        | Some e => Throw e
        | None => Return elements
        end
  end.

(** [object.key]: the first binding of the key, [undefined] without one. *)
Fixpoint get (props : list (jsstring * jsvalue)) (key : jsstring) : jsvalue :=
  match props with
  | [] => JUndefined
  | (k, v) :: rest => if str_eqb k key then v else get rest key
  end.

(** The part of [validateConfig] shared by [modelPath] and [databasePath]:
    nothing for an absent key, else the trimmed string under the key. *)
Definition validatePath (props : list (jsstring * jsvalue)) (key : string)
  (label : string) : completion (list (jsstring * jsvalue)) :=
  match get props (lit key) with
  | JUndefined => Return []
  | JString path =>
      if (str_length (trim path) =? 0)%Z
      then Throw (invalid (lit label ++ lit " cannot be empty"))
      else Return [(lit key, JString (trim path))]
  | _ => Throw (invalid (lit label ++ lit " must be a string"))
  end.

Definition validLogLevels : list jsstring :=
  map lit ["debug"; "info"; "warn"; "error"]%string.

Definition validateLogLevel (props : list (jsstring * jsvalue))
  : completion (list (jsstring * jsvalue)) :=
  match get props (lit "logLevel") with
  | JUndefined => Return []
  | JString level =>
      if includes validLogLevels level
      then Return [(lit "logLevel", JString level)]
      else Throw (invalid (lit "Log level must be one of: debug, info, warn, error"))
  | _ => Throw (invalid (lit "Log level must be one of: debug, info, warn, error"))
  end.

Definition validateConfig (config : jsvalue) : completion (list (jsstring * jsvalue)) :=
  match config with
  | JNull | JUndefined => Return []
  | JObject props =>
      match validatePath props "modelPath" "Model path" with
      | Throw e => Throw e
      | Return model =>
          match validatePath props "databasePath" "Database path" with
          | Throw e => Throw e
          | Return database =>
              match validateLogLevel props with
              | Throw e => Throw e
              | Return level => Return (model ++ database ++ level)
              end
          end
      end
  | _ => Throw (invalid (lit "Configuration must be an object"))
  end.

(** [x || fallback] for a property that is a string when present. *)
Definition or_default (v : jsvalue) (fallback : string) : jsstring :=
  match v with
  | JString s => if truthy v then s else lit fallback
  | _ => lit fallback
  end.

(** The constructor of [RAGModule]: the validated configuration with the
    defaults filled in, and the log level next to it. *)
Definition constructor (config : jsvalue) : completion (RAGModuleConfig * jsstring) :=
  match validateConfig config with
  | Throw e => Throw e
  | Return validatedConfig =>
      Return ({| modelPath := or_default (get validatedConfig (lit "modelPath"))
                                "./nomic-embed-text-v1.5.Q5_K_M.gguf";
                 databasePath := or_default (get validatedConfig (lit "databasePath"))
                                   "./rag.db" |},
              or_default (get validatedConfig (lit "logLevel")) "info")
  end.

End ConfigAndVectors.

(* ===================================================================== *)
(** * src/services/vectorSearch.ts: SQLiteVectorSearchService *)
(* ===================================================================== *)

Module SQLiteVectorSearchService.

(** The checks of [validateSearchInputs], in source order.  A table name
    that is truthy but not a string has no [trim] method, so the first check
    throws a TypeError. *)
Definition validateSearchInputs (tablename : jsvalue) (queryVector : vector)
  (limit : jsvalue) : completion unit :=
  let checkRest (name : jsstring) : completion unit :=
    if negb (TABLE_NAME_REGEX_test name) || (str_length name >? 64)%Z then
      Throw (invalid (lit "Invalid table name format"))
    else if (Z.of_nat (List.length queryVector) =? 0)%Z then
      Throw (invalid (lit "Query vector must be a non-empty array"))
    else if negb (forallb (fun val => negb (ConfigAndVectors.isNaNNumber val))
                    queryVector) then
      Throw (invalid (lit "Query vector must contain only valid numbers"))
    else
      match limit with
      | JNumber (NumInt z) =>
          if (z <=? 0)%Z then Throw (invalid (lit "Limit must be a positive integer"))
          else if (z >? 1000)%Z then
            Throw (invalid (lit "Limit cannot exceed 1000 results"))
          else Return tt
      | _ => Throw (invalid (lit "Limit must be a positive integer"))
      end in
  if negb (truthy tablename) then Throw (invalid (lit "Table name cannot be empty"))
  else
    match tablename with
    | JString name =>
        if (str_length (trim name) =? 0)%Z
        then Throw (invalid (lit "Table name cannot be empty"))
        else checkRest name
    | _ => Throw (NativeError (lit "tablename.trim is not a function"))
    end.

Section Methods.
Context {V : Type} `{DatabaseService V}.

Definition search (tablename : jsvalue) (queryVector : vector) (limit : jsvalue)
  : M V (list jsvalue) :=
  try_catch
    (lift (validateSearchInputs tablename queryVector limit) ;;;
     results <- db_searchSimilar tablename queryVector limit ;;
     ret results)
    (rethrow_or_wrap "Vector search failed: " SEARCH_FAILED).

(** The class as the search service of an orchestrator. *)
Definition service : VectorSearchService V := {| vs_search := search |}.

End Methods.
End SQLiteVectorSearchService.

(* ===================================================================== *)
(** * src/services/database.ts: the other methods of SQLiteVectorDatabase *)
(* ===================================================================== *)

Module SQLiteVectorDatabaseMethods.

(** The SQL a method sends is fixed but for the interpolated table name; a
    statement is named here by its kind, that table name and the bound
    parameters.  The vector parameters stand for their [JSON.stringify]
    text. *)
Inductive Statement : Type :=
| CreateVirtualTable (tablename : jsstring)
| InsertOrReplace (tablename : jsstring) (id : jsnumber) (vectorJson : vector)
| SelectNearest (tablename : jsstring) (queryVectorJson : vector) (limit : jsvalue).

(** A row of the search result: [id] and [distance]. *)
Record Row : Type := { row_id : jsvalue; row_distance : jsvalue }.

(** [db.run], [db.all] and [db.close] of the sqlite3 driver, by what they
    hand to the callback: the message of the error, or nothing ([run],
    [close]) or the rows ([all]). *)
Class Sqlite3Statements (S : Type) : Type := {
  sqlite_run : Statement -> S -> option jsstring * S;
  sqlite_all : Statement -> S -> (jsstring + list Row) * S;
  sqlite_close : S -> option jsstring * S
}.

Definition isValidTableName (tablename : jsstring) : bool :=
  TABLE_NAME_REGEX_test tablename && (str_length tablename <=? 64)%Z.

Definition not_initialized : JSError :=
  RAGError (lit "Database not initialized") DATABASE_CONNECTION_FAILED None.

Definition invalid_table_name : JSError :=
  RAGError (lit "Invalid table name") INVALID_INPUT None.

Section Methods.
Context {S : Type} `{Sqlite3Statements S}.

(** ToString of a number, which only the wording of one error message
    needs. *)
Variable numberToString : jsnumber -> jsstring.

Local Abbreviation this := (SQLiteVectorDatabase.t S).

Definition with_driver (d : S) (s : this) : this :=
  {| SQLiteVectorDatabase.db := SQLiteVectorDatabase.db s;
     SQLiteVectorDatabase.databasePath := SQLiteVectorDatabase.databasePath s;
     SQLiteVectorDatabase.initialized := SQLiteVectorDatabase.initialized s;
     SQLiteVectorDatabase.driver := d |}.

(** [!this.initialized || !this.db]. *)
Definition unusable (s : this) : bool :=
  negb (SQLiteVectorDatabase.initialized s)
  || match SQLiteVectorDatabase.db s with None => true | Some _ => false end.

Definition createTableIfNotExists (tablename : jsstring) : M this unit :=
  fun s =>
    if unusable s then throw not_initialized s
    else if negb (isValidTableName tablename) then throw invalid_table_name s
    else
      let (err, d) := sqlite_run (CreateVirtualTable tablename)
                        (SQLiteVectorDatabase.driver s) in
      match err with
      | Some msg =>
          (Throw (RAGError (lit "Failed to create table " ++ tablename ++ lit ": " ++ msg)
                    TABLE_CREATION_FAILED (Some (NativeError msg))), with_driver d s)
      | None => (Return tt, with_driver d s)
      end.

Definition insertVector (tablename : jsstring) (id : jsnumber) (x : vector)
  : M this bool :=
  fun s =>
    if unusable s then throw not_initialized s
    else if negb (isValidTableName tablename) then throw invalid_table_name s
    else
      let (err, d) := sqlite_run (InsertOrReplace tablename id x)
                        (SQLiteVectorDatabase.driver s) in
      match err with
      | Some msg =>
          (Throw (RAGError (lit "Failed to insert vector for id " ++ numberToString id
                            ++ lit " in table " ++ tablename ++ lit ": " ++ msg)
                    VECTOR_SAVE_FAILED (Some (NativeError msg))), with_driver d s)
      | None => (Return true, with_driver d s)
      end.

Definition searchSimilar (tablename : jsstring) (queryVector : vector)
  (limit : jsvalue) : M this (list jsvalue) :=
  fun s =>
    if unusable s then throw not_initialized s
    else if negb (isValidTableName tablename) then throw invalid_table_name s
    else
      let (answer, d) := sqlite_all (SelectNearest tablename queryVector limit)
                           (SQLiteVectorDatabase.driver s) in
      match answer with
      | inl msg =>
          (Throw (RAGError (lit "Failed to search similar vectors in table "
                            ++ tablename ++ lit ": " ++ msg)
                    SEARCH_FAILED (Some (NativeError msg))), with_driver d s)
      | inr rows => (Return (map row_id rows), with_driver d s)
      end.

Definition close : M this unit :=
  fun s =>
    match SQLiteVectorDatabase.db s with
    | None => (Return tt, s)
    | Some _ =>
        let (err, d) := sqlite_close (SQLiteVectorDatabase.driver s) in
        match err with
        | Some msg =>
            (Throw (RAGError (lit "Failed to close database: " ++ msg)
                      DATABASE_CONNECTION_FAILED (Some (NativeError msg))),
             with_driver d s)
        | None =>
            (Return tt,
             {| SQLiteVectorDatabase.db := None;
                SQLiteVectorDatabase.databasePath := SQLiteVectorDatabase.databasePath s;
                SQLiteVectorDatabase.initialized := false;
                SQLiteVectorDatabase.driver := d |})
        end
    end.

End Methods.
End SQLiteVectorDatabaseMethods.

(* ===================================================================== *)
(** * src/services/embedding.ts: NoMicEmbeddingService *)
(* ===================================================================== *)

Module NoMicEmbeddingService.

(** The entry points of node-llama-cpp the service uses, over the state [L]
    of that library.  [getEmbeddingFor] yields the [vector] of the embedding
    it resolves to. *)
Class Llama (L : Type) : Type := {
  getLlama : L -> completion unit * L;
  loadModel : jsstring -> L -> completion unit * L;
  createEmbeddingContext : L -> completion unit * L;
  getEmbeddingFor : jsstring -> L -> completion vector * L;
  disposeContext : L -> completion unit * L;
  disposeModel : L -> completion unit * L
}.

(** The singleton.  [model] and [embeddingContext] hold the path the handle
    was made for, or nothing for [null]. *)
Record t (L : Type) : Type := {
  model : option jsstring;
  embeddingContext : option jsstring;
  modelPath : jsstring;
  initialized : bool;
  llama : L
}.

Section Methods.
Context {L : Type} `{Llama L}.

(** [Math.fround], the rounding [new Float32Array(...)] applies to each
    element. *)
Variable fround : jsnumber -> jsnumber.

Local Abbreviation this := (t L).

(** A call into the library: its state advances. *)
Definition on_llama {A} (op : L -> completion A * L) : M this A :=
  fun s =>
    let (r, l) := op (llama s) in
    (r, {| model := model s; embeddingContext := embeddingContext s;
           modelPath := modelPath s; initialized := initialized s; llama := l |}).

Definition initialize (path : jsstring) : M this unit :=
  fun s =>
    if initialized s && str_eqb (modelPath s) path then ret tt s
    else
      try_catch
        ((fun s0 => (Return tt, {| model := model s0;
                                   embeddingContext := embeddingContext s0;
                                   modelPath := path; initialized := initialized s0;
                                   llama := llama s0 |})) ;;;
         on_llama getLlama ;;;
         on_llama (loadModel path) ;;;
         (fun s1 => (Return tt, {| model := Some path;
                                   embeddingContext := embeddingContext s1;
                                   modelPath := modelPath s1;
                                   initialized := initialized s1;
                                   llama := llama s1 |})) ;;;
         on_llama createEmbeddingContext ;;;
         fun s2 => (Return tt, {| model := model s2; embeddingContext := Some path;
                                  modelPath := modelPath s2; initialized := true;
                                  llama := llama s2 |}))
        (fun error s3 =>
           (Throw (wrap (lit "Failed to initialize embedding model: ")
                     MODEL_LOAD_FAILED error),
            {| model := None; embeddingContext := None;
               modelPath := modelPath s3; initialized := false;
               llama := llama s3 |})) s.

Definition generateEmbedding (text : jsstring) : M this vector :=
  fun s =>
    match embeddingContext s with
    | None => (Throw (NativeError (lit "Embedding context not initialized")), s)
    | Some _ =>
        (embedding <- on_llama (getEmbeddingFor text) ;;
         ret (map fround embedding)) s
    end.

(** [embed(text)].  The emptiness test comes before the try block; on a
    truthy value that is not a string, [text.trim] is not a function. *)
Definition embed (text : jsvalue) : M this vector :=
  fun s =>
    if negb (initialized s)
       || match embeddingContext s with None => true | Some _ => false end
    then throw (RAGError (lit "Embedding service not initialized")
                  MODEL_LOAD_FAILED None) s
    else if negb (truthy text) then
      throw (RAGError (lit "Text input cannot be empty") INVALID_INPUT None) s
    else
      match text with
      | JString text =>
          if (str_length (trim text) =? 0)%Z then
            throw (RAGError (lit "Text input cannot be empty") INVALID_INPUT None) s
          else
            try_catch (generateEmbedding text)
              (always_wrap "Failed to generate embedding: " EMBEDDING_FAILED) s
      | _ => throw (NativeError (lit "text.trim is not a function")) s
      end.

Definition isInitialized (s : this) : bool := initialized s.

Definition close : M this unit :=
  try_catch
    ((fun s =>
        match embeddingContext s with
        | Some _ =>
            (on_llama disposeContext ;;;
             fun s0 => (Return tt, {| model := model s0; embeddingContext := None;
                                      modelPath := modelPath s0;
                                      initialized := initialized s0;
                                      llama := llama s0 |})) s
        | None => (Return tt, s)
        end) ;;;
     (fun s =>
        match model s with
        | Some _ =>
            (on_llama disposeModel ;;;
             fun s0 => (Return tt, {| model := None;
                                      embeddingContext := embeddingContext s0;
                                      modelPath := modelPath s0;
                                      initialized := initialized s0;
                                      llama := llama s0 |})) s
        | None => (Return tt, s)
        end) ;;;
     fun s => (Return tt, {| model := model s; embeddingContext := embeddingContext s;
                             modelPath := modelPath s; initialized := false;
                             llama := llama s |}))
    (always_wrap "Failed to close embedding service: " MODEL_LOAD_FAILED).

(** The class as the embedding service of an orchestrator. *)
Definition service : EmbeddingService this :=
  {| es_initialize := initialize; es_embed := embed; es_close := close |}.

End Methods.
End NoMicEmbeddingService.

(* ===================================================================== *)
(** * src/services/mysqlDatabase.ts: MySQLDatabase *)
(* ===================================================================== *)

Module MySQLDatabaseMethods.

(** The statement handed to [pool.execute]: its kind, the interpolated
    table name (and SET clause), and the bound values. *)
Inductive Query : Type :=
| CreateTable (tableName : jsstring)
| InsertInto (tableName : jsstring) (values : list jsvalue)
| SelectByIds (tableName : jsstring) (values : list jsvalue)
| UpdateSet (tableName : jsstring) (updateFields : list string) (values : list jsvalue)
| DeleteFrom (tableName : jsstring) (values : list jsvalue).

(** The first component of what [pool.execute] resolves to: a
    [ResultSetHeader] or an array of rows. *)
Inductive ExecuteResult : Type :=
| ResultSetHeader (insertId : jsvalue) (affectedRows : Z)
| RowData (rows : list DocumentRecord).

(** The mysql2 entry points the class uses, over the state [P] of the
    driver. *)
Class MySQL (P : Type) : Type := {
  createPool : P -> completion unit * P;
  getConnection : P -> completion unit * P;
  ping : P -> completion unit * P;
  release : P -> completion unit * P;
  execute : Query -> P -> completion ExecuteResult * P;
  endPool : P -> completion unit * P
}.

Record t (P : Type) : Type := {
  pool : option unit;
  initialized : bool;
  driver : P
}.

Definition not_initialized : JSError :=
  RAGError (lit "MySQL database not initialized") DATABASE_CONNECTION_FAILED None.

(** [x || null]. *)
Definition or_null (v : jsvalue) : jsvalue := if truthy v then v else JNull.

(** The [document] or [updates] argument as it arrives at run time: an
    object, seen through the three fields the class reads (a field that is
    absent reads as [undefined]), or [undefined] or [null]. *)
Inductive FieldsArgument : Type :=
| ObjectWith (fields : DocumentFields)
| UndefinedArgument
| NullArgument.

(** The first property access on the argument, [document.title] or
    [updates.title]: it throws a TypeError on [undefined] and on [null] (the
    wording is Node's). *)
Definition read_fields (argument : FieldsArgument) : completion DocumentFields :=
  match argument with
  | ObjectWith fields => Return fields
  | UndefinedArgument =>
      Throw (NativeError (lit "Cannot read properties of undefined (reading 'title')"))
  | NullArgument =>
      Throw (NativeError (lit "Cannot read properties of null (reading 'title')"))
  end.

Section Methods.
Context {P : Type} `{MySQL P}.

(** [JSON.stringify] on metadata (it throws a TypeError on a cyclic
    structure or a BigInt), [JSON.parse] on a stored metadata column, and
    the text a table name contributes to a template literal when it is not
    a string. *)
Variable JSON_stringify : jsvalue -> completion jsvalue.
Variable JSON_parse : jsvalue -> completion jsvalue.
Variable toText : jsvalue -> jsstring.

Local Abbreviation this := (t P).

Definition interpolate (v : jsvalue) : jsstring :=
  match v with
  | JString s => s
  | _ => toText v
  end.

Definition on_driver {A} (op : P -> completion A * P) : M this A :=
  fun s =>
    let (r, p) := op (driver s) in
    (r, {| pool := pool s; initialized := initialized s; driver := p |}).

(** [!this.initialized || !this.pool]. *)
Definition unusable (s : this) : bool :=
  negb (initialized s) || match pool s with None => true | Some _ => false end.

Definition initialize : M this unit :=
  fun s =>
    if initialized s then ret tt s
    else
      try_catch
        (on_driver createPool ;;;
         (fun s0 => (Return tt, {| pool := Some tt; initialized := initialized s0;
                                   driver := driver s0 |})) ;;;
         on_driver getConnection ;;;
         on_driver ping ;;;
         on_driver release ;;;
         fun s1 => (Return tt, {| pool := pool s1; initialized := true;
                                  driver := driver s1 |}))
        (always_wrap "Failed to initialize MySQL database: "
           DATABASE_CONNECTION_FAILED) s.

(** [createDocumentsTable(tableName = 'documents')]. *)
Definition createDocumentsTable (tableName : jsvalue) : M this unit :=
  fun s =>
    let tableName := match tableName with
                     | JUndefined => JString (lit "documents")
                     | _ => tableName
                     end in
    if unusable s then throw not_initialized s
    else
      try_catch
        (on_driver (execute (CreateTable (interpolate tableName))) ;;; ret tt)
        (fun error =>
           throw (wrap (lit "Failed to create table " ++ interpolate tableName ++ lit ": ")
                    TABLE_CREATION_FAILED error)) s.

(** [metadata ? JSON.stringify(metadata) : null]. *)
Definition stringified (metadata : jsvalue) : completion jsvalue :=
  if truthy metadata then JSON_stringify metadata else Return JNull.

(** The [values] of the INSERT. *)
Definition insertValues (document : DocumentFields) : completion (list jsvalue) :=
  match stringified (f_metadata document) with
  | Throw e => Throw e
  | Return metadata => Return [or_null (f_title document); f_content document; metadata]
  end.

(** The array of values is built inside the try block. *)
Definition insertDocument (tableName : jsvalue) (document : FieldsArgument)
  : M this jsvalue :=
  fun s =>
    if unusable s then throw not_initialized s
    else
      try_catch
        (fields <- lift (read_fields document) ;;
         values <- lift (insertValues fields) ;;
         result <- on_driver (execute (InsertInto (interpolate tableName) values)) ;;
         ret (match result with
              | ResultSetHeader insertId _ => insertId
              | RowData _ => JUndefined
              end))
        (always_wrap "Failed to insert document: " VECTOR_SAVE_FAILED) s.

(** The callback of [documents.map(row => ...)]: the metadata column is
    parsed when it is truthy. *)
Definition toDocument (row : DocumentRecord) : completion DocumentRecord :=
  if truthy (doc_metadata row) then
    match JSON_parse (doc_metadata row) with
    | Throw e => Throw e
    | Return metadata =>
        Return {| doc_id := doc_id row; doc_title := doc_title row;
                  doc_content := doc_content row; doc_metadata := metadata;
                  doc_created_at := doc_created_at row;
                  doc_updated_at := doc_updated_at row |}
    end
  else
    Return {| doc_id := doc_id row; doc_title := doc_title row;
              doc_content := doc_content row; doc_metadata := JNull;
              doc_created_at := doc_created_at row;
              doc_updated_at := doc_updated_at row |}.

Fixpoint mapRows (rows : list DocumentRecord) : completion (list DocumentRecord) :=
  match rows with
  | [] => Return []
  | row :: rest =>
      match toDocument row with
      | Throw e => Throw e
      | Return document =>
          match mapRows rest with
          | Throw e => Throw e
          | Return documents => Return (document :: documents)
          end
      end
  end.

Definition getDocumentsByIds (tableName : jsvalue) (ids : list jsvalue)
  : M this (list DocumentRecord) :=
  fun s =>
    if unusable s then throw not_initialized s
    else
      match ids with
      | [] => ret [] s
      | _ =>
          try_catch
            (result <- on_driver (execute (SelectByIds (interpolate tableName)
                                             (ids ++ ids))) ;;
             match result with
             | RowData rows => lift (mapRows rows)
             | ResultSetHeader _ _ =>
                 throw (NativeError (lit "documents.map is not a function"))
             end)
            (always_wrap "Failed to get documents by IDs: " SEARCH_FAILED) s
      end.

(** The [values] array of the UPDATE, before the id is pushed. *)
Definition updateValues (updates : DocumentFields) : completion (list jsvalue) :=
  let values :=
    (if MySQLDatabase.defined (f_title updates) then [f_title updates] else [])
    ++ (if MySQLDatabase.defined (f_content updates) then [f_content updates] else []) in
  if MySQLDatabase.defined (f_metadata updates) then
    match stringified (f_metadata updates) with
    | Throw e => Throw e
    | Return metadata => Return (values ++ [metadata])
    end
  else Return values.

(** [result.affectedRows > 0]. *)
Definition affected (result : ExecuteResult) : bool :=
  match result with
  | ResultSetHeader _ affectedRows => (affectedRows >? 0)%Z
  | RowData _ => false
  end.

(** The fields are read and the metadata is stringified in front of the
    try block, which encloses [pool.execute] alone. *)
Definition updateDocument (tableName id : jsvalue) (updates : FieldsArgument)
  : M this bool :=
  fun s =>
    if unusable s then throw not_initialized s
    else
      (fields <- lift (read_fields updates) ;;
       values <- lift (updateValues fields) ;;
       match MySQLDatabase.updateFields fields with
       | [] => ret false
       | updateFields =>
           try_catch
             (result <- on_driver (execute (UpdateSet (interpolate tableName) updateFields
                                              (values ++ [id]))) ;;
              ret (affected result))
             (always_wrap "Failed to update document: " VECTOR_SAVE_FAILED)
       end) s.

Definition deleteDocument (tableName id : jsvalue) : M this bool :=
  fun s =>
    if unusable s then throw not_initialized s
    else
      try_catch
        (result <- on_driver (execute (DeleteFrom (interpolate tableName) [id])) ;;
         ret (affected result))
        (always_wrap "Failed to delete document: " VECTOR_SAVE_FAILED) s.

(** [close()] has no try block. *)
Definition close : M this unit :=
  fun s =>
    match pool s with
    | None => (Return tt, s)
    | Some _ =>
        (on_driver endPool ;;;
         fun s0 => (Return tt, {| pool := None; initialized := false;
                                  driver := driver s0 |})) s
    end.

(** The class as the document store of the hybrid module. *)
Definition service : DocumentStore this :=
  {| ds_initialize := initialize;
     ds_createDocumentsTable := createDocumentsTable;
     ds_insertDocument := fun tableName document =>
       insertDocument tableName (ObjectWith document);
     ds_getDocumentsByIds := getDocumentsByIds;
     ds_updateDocument := fun tableName id updates =>
       updateDocument tableName id (ObjectWith updates);
     ds_deleteDocument := deleteDocument;
     ds_close := close |}.

End Methods.
End MySQLDatabaseMethods.

(* ===================================================================== *)
(** * In-memory drivers *)
(* ===================================================================== *)

(** Drivers that accept everything and keep a log of what they were asked,
    on which the statements about the service classes are run. *)
Module InMemoryDrivers.

(** sqlite3: the log of statements run. *)
#[export] Instance sqlite_connects : SQLiteVectorDatabase.Sqlite3
    (list SQLiteVectorDatabaseMethods.Statement) :=
  {| SQLiteVectorDatabase.sqlite_open := fun _ d => (None, d);
     SQLiteVectorDatabase.sqlite_loadExtension := fun d => (None, d) |}.

#[export] Instance sqlite_runs : SQLiteVectorDatabaseMethods.Sqlite3Statements
    (list SQLiteVectorDatabaseMethods.Statement) :=
  {| SQLiteVectorDatabaseMethods.sqlite_run := fun st d => (None, d ++ [st]);
     SQLiteVectorDatabaseMethods.sqlite_all := fun st d =>
       (inr [{| SQLiteVectorDatabaseMethods.row_id := JNumber (NumInt 7);
                SQLiteVectorDatabaseMethods.row_distance := JNumber (NumInt 0) |}],
        d ++ [st]);
     SQLiteVectorDatabaseMethods.sqlite_close := fun d => (None, d) |}.

Definition unopened_database
  : SQLiteVectorDatabase.t (list SQLiteVectorDatabaseMethods.Statement) :=
  {| SQLiteVectorDatabase.db := None;
     SQLiteVectorDatabase.databasePath := [];
     SQLiteVectorDatabase.initialized := false;
     SQLiteVectorDatabase.driver := [] |}.

Definition opened_database
  : SQLiteVectorDatabase.t (list SQLiteVectorDatabaseMethods.Statement) :=
  snd (SQLiteVectorDatabase.initialize (lit "./rag.db") unopened_database).

(** node-llama-cpp: the number of embeddings computed. *)
#[export] Instance llama_works : NoMicEmbeddingService.Llama nat :=
  {| NoMicEmbeddingService.getLlama := fun l => (Return tt, l);
     NoMicEmbeddingService.loadModel := fun _ l => (Return tt, l);
     NoMicEmbeddingService.createEmbeddingContext := fun l => (Return tt, l);
     NoMicEmbeddingService.getEmbeddingFor := fun _ l =>
       (Return [NumInt 1; NumInt 0], S l);
     NoMicEmbeddingService.disposeContext := fun l => (Return tt, l);
     NoMicEmbeddingService.disposeModel := fun l => (Return tt, l) |}.

Definition unloaded_engine : NoMicEmbeddingService.t nat :=
  {| NoMicEmbeddingService.model := None;
     NoMicEmbeddingService.embeddingContext := None;
     NoMicEmbeddingService.modelPath := [];
     NoMicEmbeddingService.initialized := false;
     NoMicEmbeddingService.llama := 0%nat |}.

Definition loaded_engine : NoMicEmbeddingService.t nat :=
  snd (NoMicEmbeddingService.initialize (lit "./model.gguf") unloaded_engine).

(** mysql2: the log of queries executed; every query answers with a header
    reporting one affected row and insert id 1. *)
#[export] Instance mysql_answers : MySQLDatabaseMethods.MySQL
    (list MySQLDatabaseMethods.Query) :=
  {| MySQLDatabaseMethods.createPool := fun p => (Return tt, p);
     MySQLDatabaseMethods.getConnection := fun p => (Return tt, p);
     MySQLDatabaseMethods.ping := fun p => (Return tt, p);
     MySQLDatabaseMethods.release := fun p => (Return tt, p);
     MySQLDatabaseMethods.execute := fun q p =>
       (Return (MySQLDatabaseMethods.ResultSetHeader (JNumber (NumInt 1)) 1), p ++ [q]);
     MySQLDatabaseMethods.endPool := fun p => (Return tt, p) |}.

Definition unconnected_mysql : MySQLDatabaseMethods.t (list MySQLDatabaseMethods.Query) :=
  {| MySQLDatabaseMethods.pool := None;
     MySQLDatabaseMethods.initialized := false;
     MySQLDatabaseMethods.driver := [] |}.

Definition connected_mysql : MySQLDatabaseMethods.t (list MySQLDatabaseMethods.Query) :=
  snd (MySQLDatabaseMethods.initialize unconnected_mysql).

(** An in-memory store whose [insertVector] reports that nothing was
    saved. *)
Definition declining_store : DatabaseService InMemory.rows :=
  {| db_initialize := fun _ v => (Return tt, v);
     db_createTableIfNotExists := fun _ v => (Return tt, v);
     db_insertVector := fun _ _ _ v => (Return false, v);
     db_searchSimilar := fun _ _ _ v => (Return [], v);
     db_close := fun v => (Return tt, v) |}.

(** An embedding engine that fails on every text with a plain [Error]. *)
Definition broken_engine : EmbeddingService unit :=
  {| es_initialize := fun _ e => (Return tt, e);
     es_embed := fun _ e => (Throw (NativeError (lit "Model failed")), e);
     es_close := fun e => (Return tt, e) |}.

(** node-llama-cpp without the model file: [loadModel] rejects with
    [new Error('Model not found')], as the mock of the embedding test suite
    does. *)
Definition llama_without_model : NoMicEmbeddingService.Llama unit :=
  {| NoMicEmbeddingService.getLlama := fun l => (Return tt, l);
     NoMicEmbeddingService.loadModel := fun _ l =>
       (Throw (NativeError (lit "Model not found")), l);
     NoMicEmbeddingService.createEmbeddingContext := fun l => (Return tt, l);
     NoMicEmbeddingService.getEmbeddingFor := fun _ l => (Return [], l);
     NoMicEmbeddingService.disposeContext := fun l => (Return tt, l);
     NoMicEmbeddingService.disposeModel := fun l => (Return tt, l) |}.

(** An engine that had been working with another model. *)
Definition engine_on_old_model : NoMicEmbeddingService.t unit :=
  {| NoMicEmbeddingService.model := Some (lit "./old.gguf");
     NoMicEmbeddingService.embeddingContext := Some (lit "./old.gguf");
     NoMicEmbeddingService.modelPath := lit "./old.gguf";
     NoMicEmbeddingService.initialized := true;
     NoMicEmbeddingService.llama := tt |}.

(** A plain module over the real embedding service, loaded. *)
Definition over_loaded_engine : RAGModule.t (NoMicEmbeddingService.t nat) InMemory.rows :=
  {| RAGModule.config := InMemory.cfg; RAGModule.initialized := true;
     RAGModule.embeddingService := loaded_engine;
     RAGModule.databaseService := []; RAGModule.calls := [] |}.

(** mysql2 with the server gone: every statement and the closing of the
    pool reject with [new Error('Connection lost')]. *)
Definition mysql_down : MySQLDatabaseMethods.MySQL unit :=
  {| MySQLDatabaseMethods.createPool := fun p => (Return tt, p);
     MySQLDatabaseMethods.getConnection := fun p =>
       (Throw (NativeError (lit "Connection lost")), p);
     MySQLDatabaseMethods.ping := fun p => (Return tt, p);
     MySQLDatabaseMethods.release := fun p => (Return tt, p);
     MySQLDatabaseMethods.execute := fun _ p =>
       (Throw (NativeError (lit "Connection lost")), p);
     MySQLDatabaseMethods.endPool := fun p =>
       (Throw (NativeError (lit "Connection lost")), p) |}.

(** A store that was connected before the server went away. *)
Definition mysql_with_pool : MySQLDatabaseMethods.t unit :=
  {| MySQLDatabaseMethods.pool := Some tt;
     MySQLDatabaseMethods.initialized := true;
     MySQLDatabaseMethods.driver := tt |}.

(** [JSON.stringify] meeting a value it cannot serialise, and updates
    carrying such metadata. *)
Definition unserialisable (v : jsvalue) : completion jsvalue :=
  Throw (NativeError (lit "Converting circular structure to JSON")).

Definition cyclic_metadata : DocumentFields :=
  {| f_title := JUndefined; f_content := JUndefined; f_metadata := JObject [] |}.

(** A document to save and a query over its table. *)
Definition a_document : SaveDocumentRequest :=
  {| dr_title := JString (lit "Title"); dr_content := JString (lit "old content");
     dr_metadata := JUndefined; dr_tablename := InMemory.docs |}.

Definition a_query : HybridSearchRequest :=
  {| hr_text := JString (lit "content"); hr_tablename := InMemory.docs;
     hr_qty := JNumber (NumInt 5); hr_includeContent := JBool false;
     hr_includeMetadata := JUndefined |}.

End InMemoryDrivers.

(* ===================================================================== *)
(** * Vocabulary of the specification *)
(* ===================================================================== *)

(** ** The table-name grammar, in the words of the specification *)

Module Grammar.

Definition letter (c : N) : Prop :=
  ((65 <= c /\ c <= 90) \/ (97 <= c /\ c <= 122))%N.

Definition digit (c : N) : Prop := (48 <= c /\ c <= 57)%N.

(** Letters, digits, underscore, hyphen. *)
Definition name_char (c : N) : Prop :=
  letter c \/ digit c \/ c = 95%N \/ c = 45%N.

(** [^[A-Za-z][A-Za-z0-9_-]*$]: starts with a letter, followed by letters,
    digits, underscores and hyphens. *)
Definition matches (s : jsstring) : Prop :=
  exists c rest, s = c :: rest /\ letter c /\ Forall name_char rest.

(** The case-insensitive form of the name is in the reserved set. *)
Definition reserved (s : jsstring) : Prop := In (toUpperCase s) reservedWords.

(** Matches the grammar, is at most 64 long, and is not reserved. *)
Definition acceptable (s : jsstring) : Prop :=
  matches s /\ (List.length s <= 64)%nat /\ ~ reserved s.

End Grammar.

(** ** The error a save request surfaces first *)

Module SaveOrder.

Definition failure {A} (c : completion A) : option JSError :=
  match c with
  | Throw e => Some e
  | Return _ => None
  end.

(** What is wrong with the text field, if anything: [save] reads
    [request.text.length] for its first log line, which throws a TypeError on
    [undefined] and [null], and then hands the field to [validateText]. *)
Definition text_failure (text : jsvalue) : option JSError :=
  match failure (read_length text) with
  | Some e => Some e
  | None => failure (validateText text (lit "text"))
  end.

(** The text's error, else the id's, else the table name's. *)
Definition first_failure (request : SaveRequest) : option JSError :=
  match text_failure (sr_text request) with
  | Some e => Some e
  | None =>
      match failure (validateId (sr_id request)) with
      | Some e => Some e
      | None => failure (validateTableName (sr_tablename request))
      end
  end.

End SaveOrder.

(** ** The error a search request surfaces first *)

Module SearchOrder.

(** What is wrong with the text field of a search request: the TypeError of
    [request.text.length] in the first log line of [search], or else what
    [validateText] throws under the field name 'Search text'. *)
Definition text_failure (text : jsvalue) : option JSError :=
  match SaveOrder.failure (read_length text) with
  | Some e => Some e
  | None => SaveOrder.failure (validateText text (lit "Search text"))
  end.

(** The text's error, else the table name's, else the quantity's. *)
Definition first_failure (request : SearchRequest) : option JSError :=
  match text_failure (qr_text request) with
  | Some e => Some e
  | None =>
      match SaveOrder.failure (validateTableName (qr_tablename request)) with
      | Some e => Some e
      | None => SaveOrder.failure (validateSearchQuantity (qr_qty request))
      end
  end.

End SearchOrder.

(** ** What a method leaves alone *)

(** [preserved R m]: from every state, running [m] ends in a state related
    to the start by [R], whether [m] returns or throws. *)
Definition preserved {S A} (R : S -> S -> Prop) (m : M S A) : Prop :=
  forall s, R s (snd (m s)).

Definition reflexive_on {S} (R : S -> S -> Prop) : Prop := forall s, R s s.

Definition transitive_on {S} (R : S -> S -> Prop) : Prop :=
  forall s1 s2 s3, R s1 s2 -> R s2 s3 -> R s1 s3.

(** The two errors with which the embedding service refuses a call. *)
Definition engine_not_initialized : JSError :=
  RAGError (lit "Embedding service not initialized") MODEL_LOAD_FAILED None.

Definition empty_text_input : JSError :=
  RAGError (lit "Text input cannot be empty") INVALID_INPUT None.

(** The lifecycle flag and the configuration of a plain module are the same
    in both states. *)
Definition same_lifecycle {E V} (s s' : RAGModule.t E V) : Prop :=
  RAGModule.initialized s' = RAGModule.initialized s
  /\ RAGModule.config s' = RAGModule.config s.

(** The same for a hybrid module. *)
Definition same_hybrid_lifecycle {E V D} (h h' : HybridRAGModule.t E V D) : Prop :=
  HybridRAGModule.initialized h' = HybridRAGModule.initialized h
  /\ HybridRAGModule.config h' = HybridRAGModule.config h.

(* ===================================================================== *)
(** * Properties of the validators *)
(* ===================================================================== *)

Section Strings.

Lemma str_eqb_eq (a b : jsstring) : str_eqb a b = true <-> a = b.
Proof.
  revert b; induction a as [|x a IH]; intros [|y b]; simpl; split;
    try congruence; try discriminate.
  - intros Hxy. apply andb_true_iff in Hxy as [Hx Ha].
    apply N.eqb_eq in Hx. apply IH in Ha. congruence.
  - intros Hxy. inversion Hxy; subst.
    apply andb_true_iff; split; [apply N.eqb_refl | now apply IH].
Qed.

Lemma includes_In (l : list jsstring) (s : jsstring) :
  includes l s = true <-> In s l.
Proof.
  unfold includes. rewrite existsb_exists. split.
  - intros [w [Hin Heq]]. apply str_eqb_eq in Heq. now subst.
  - intros Hin. exists s. split; [assumption | now apply str_eqb_eq].
Qed.

Lemma str_length_zero (s : jsstring) : (str_length s =? 0)%Z = true <-> s = [].
Proof.
  unfold str_length. rewrite Z.eqb_eq. destruct s; simpl; split;
    intros Hs; try reflexivity; try discriminate; lia.
Qed.

Lemma trimStart_head (c : N) (s : jsstring) :
  isWhiteSpace c = false -> trimStart (c :: s) = c :: s.
Proof. intros Hc; simpl; now rewrite Hc. Qed.

Lemma trimEnd_last (s : jsstring) (c : N) :
  isWhiteSpace c = false -> trimEnd (s ++ [c]) = s ++ [c].
Proof.
  intros Hc. unfold trimEnd. rewrite rev_app_distr. simpl.
  rewrite Hc. simpl. now rewrite rev_involutive.
Qed.

(** A string that neither starts nor ends with white space is its own trim. *)
Lemma trim_fixed (s : jsstring) :
  Forall (fun c => isWhiteSpace c = false) s -> trim s = s.
Proof.
  intros Hs. unfold trim.
  destruct s as [|c s]; [reflexivity|].
  inversion Hs as [|? ? Hc Hrest]; subst.
  rewrite trimStart_head by assumption.
  destruct (exists_last (l := c :: s)) as [body [z Hz]]; [discriminate|].
  rewrite Hz. apply trimEnd_last.
  rewrite Forall_forall in Hs. apply Hs. rewrite Hz.
  apply in_or_app; right; now left.
Qed.

End Strings.

Section TableNames.

Lemma isLetter_letter (c : N) : isLetter c = true <-> Grammar.letter c.
Proof.
  unfold isLetter, isLower, isUpper, Grammar.letter.
  rewrite orb_true_iff, !andb_true_iff, !N.leb_le. tauto.
Qed.

Lemma isNameChar_name_char (c : N) : isNameChar c = true <-> Grammar.name_char c.
Proof.
  unfold isNameChar, Grammar.name_char, Grammar.digit, isDigit.
  rewrite !orb_true_iff, isLetter_letter, andb_true_iff, !N.leb_le, !N.eqb_eq.
  tauto.
Qed.

(** The regular expression of the source decides the grammar. *)
Lemma TABLE_NAME_REGEX_matches (s : jsstring) :
  TABLE_NAME_REGEX_test s = true <-> Grammar.matches s.
Proof.
  unfold Grammar.matches. destruct s as [|c rest]; simpl.
  - split; [discriminate | intros [c [rest [Heq _]]]; discriminate].
  - rewrite andb_true_iff, isLetter_letter, forallb_forall. split.
    + intros [Hc Hrest]. exists c, rest. repeat split; try assumption.
      apply Forall_forall. intros x Hx. apply isNameChar_name_char. now apply Hrest.
    + intros [c' [rest' [Heq [Hc Hrest]]]]. inversion Heq; subst. split; [assumption|].
      intros x Hx. apply isNameChar_name_char.
      rewrite Forall_forall in Hrest. now apply Hrest.
Qed.

Lemma name_char_not_space (c : N) : Grammar.name_char c -> isWhiteSpace c = false.
Proof.
  unfold Grammar.name_char, Grammar.letter, Grammar.digit, isWhiteSpace.
  intros Hc.
  repeat (apply orb_false_iff; split);
    try (apply andb_false_iff);
    rewrite ?N.eqb_neq, ?N.leb_gt; lia.
Qed.

Lemma matches_trim (s : jsstring) : Grammar.matches s -> trim s = s.
Proof.
  intros [c [rest [Heq [Hc Hrest]]]]. subst. apply trim_fixed.
  constructor.
  - apply name_char_not_space. now left.
  - eapply Forall_impl; [|exact Hrest]. intros a. apply name_char_not_space.
Qed.

(** What [validateTableName] does with a string, case by case on its trim. *)
Lemma validateTableName_cases (s : jsstring) :
  (Grammar.acceptable (trim s) /\ validateTableName (JString s) = Return (trim s))
  \/ (~ Grammar.acceptable (trim s)
      /\ exists msg, validateTableName (JString s) = Throw (RAGError msg INVALID_INPUT None)).
Proof.
  unfold validateTableName, invalid.
  destruct (str_length s =? 0)%Z eqn:Hempty.
  { right. apply str_length_zero in Hempty. subst. split.
    - intros [[c [rest [Heq _]]] _]. discriminate.
    - eexists; reflexivity. }
  destruct (str_length (trim s) =? 0)%Z eqn:Hblank.
  { right. apply str_length_zero in Hblank. rewrite Hblank. split.
    - intros [[c [rest [Heq _]]] _]. discriminate.
    - eexists; reflexivity. }
  destruct (str_length (trim s) >? MAX_TABLE_NAME_LENGTH)%Z eqn:Hlong.
  { right. split; [|eexists; reflexivity].
    intros [_ [Hlen _]]. unfold str_length, MAX_TABLE_NAME_LENGTH in Hlong.
    apply Z.gtb_lt in Hlong. lia. }
  destruct (TABLE_NAME_REGEX_test (trim s)) eqn:Hre; cbn [negb].
  2:{ right. split; [|eexists; reflexivity].
      intros [Hm _]. apply TABLE_NAME_REGEX_matches in Hm. congruence. }
  destruct (includes reservedWords (toUpperCase (trim s))) eqn:Hres.
  { right. split; [|eexists; reflexivity].
    intros [_ [_ Hnot]]. apply Hnot. now apply includes_In. }
  left. split; [|reflexivity].
  repeat split.
  - now apply TABLE_NAME_REGEX_matches.
  - unfold str_length, MAX_TABLE_NAME_LENGTH in Hlong.
    rewrite Z.gtb_ltb, Z.ltb_ge in Hlong. lia.
  - intros Hin. apply includes_In in Hin. unfold Grammar.reserved in Hin. congruence.
Qed.

End TableNames.

Section ValidatorErrors.

(** Every validator throws INVALID_INPUT taxonomy errors only. *)
Lemma validateText_throws (v : jsvalue) (fieldName : jsstring) (e : JSError) :
  validateText v fieldName = Throw e -> exists msg, e = RAGError msg INVALID_INPUT None.
Proof.
  unfold validateText, invalid. intros Hthrow.
  destruct v; try (inversion Hthrow; eexists; reflexivity).
  destruct (str_length s =? 0)%Z; [inversion Hthrow; eexists; reflexivity|].
  destruct (str_length (trim s) =? 0)%Z; [inversion Hthrow; eexists; reflexivity|].
  destruct (str_length (trim s) >? MAX_TEXT_LENGTH)%Z;
    [inversion Hthrow; eexists; reflexivity | discriminate].
Qed.

Lemma validateTableName_throws (v : jsvalue) (e : JSError) :
  validateTableName v = Throw e -> exists msg, e = RAGError msg INVALID_INPUT None.
Proof.
  intros Hthrow. destruct v;
    try (unfold validateTableName, invalid in Hthrow; inversion Hthrow;
         eexists; reflexivity).
  destruct (validateTableName_cases s) as [[_ Hret] | [_ [msg Hmsg]]].
  - congruence.
  - exists msg. congruence.
Qed.

Lemma validateId_throws (v : jsvalue) (e : JSError) :
  validateId v = Throw e -> exists msg, e = RAGError msg INVALID_INPUT None.
Proof.
  unfold validateId, invalid. intros Hthrow.
  destruct v as [| | |[z|bits]| |]; try (inversion Hthrow; eexists; reflexivity).
  destruct (z <? 0)%Z; [inversion Hthrow; eexists; reflexivity|].
  destruct (z >? MAX_SAFE_INTEGER)%Z;
    [inversion Hthrow; eexists; reflexivity | discriminate].
Qed.

Lemma validateSearchQuantity_throws (v : jsvalue) (e : JSError) :
  validateSearchQuantity v = Throw e -> exists msg, e = RAGError msg INVALID_INPUT None.
Proof.
  unfold validateSearchQuantity, invalid. intros Hthrow.
  destruct v as [| | |[z|bits]| |]; try (inversion Hthrow; eexists; reflexivity).
  destruct (z <? MIN_SEARCH_QUANTITY)%Z; [inversion Hthrow; eexists; reflexivity|].
  destruct (z >? MAX_SEARCH_QUANTITY)%Z;
    [inversion Hthrow; eexists; reflexivity | discriminate].
Qed.

End ValidatorErrors.

Section ValidatorClaims.

(** C1, on the code.  The specification promises two distinguishable
    messages from [validateText]: "cannot be empty" for the empty string and
    "cannot be empty or whitespace only" for a non-empty string that trims to
    nothing.  The source throws the same error in both branches: a non-empty
    string that trims to nothing gets exactly the error of the empty string,
    "<fieldName> cannot be empty". *)
Theorem validateText_blank_gets_empty_message (text fieldName : jsstring) :
  text <> [] ->
  trim text = [] ->
  validateText (JString text) fieldName
    = Throw (RAGError (fieldName ++ lit " cannot be empty") INVALID_INPUT None)
  /\ validateText (JString text) fieldName = validateText (JString []) fieldName.
Proof.
  intros Hne Hblank. unfold validateText, invalid.
  destruct (str_length text =? 0)%Z eqn:Hempty.
  - apply str_length_zero in Hempty. contradiction.
  - rewrite Hblank. simpl. split; reflexivity.
Qed.

(** The sibling validator does tell the two cases apart. *)
Example validateTableName_blank_messages :
  validateTableName (JString (lit "   "))
    = Throw (invalid (lit "Table name cannot be empty or whitespace only"))
  /\ validateTableName (JString [])
    = Throw (invalid (lit "Table name cannot be empty")).
Proof. split; reflexivity. Qed.

(** C6, as amended.  [validateTableName] is characterised by the grammar
    applied to the trimmed input: when the trim of the string matches
    [^[A-Za-z][A-Za-z0-9_-]*$], is at most 64 long and its upper-cased form
    is not in the reserved set, the trim is returned; for every other string
    an INVALID_INPUT taxonomy error is raised.  In particular a string that
    itself satisfies the three conditions is returned unchanged. *)
Theorem validateTableName_characterised_on_trim (s : jsstring) :
  ((Grammar.acceptable (trim s)
    /\ validateTableName (JString s) = Return (trim s))
   \/ (~ Grammar.acceptable (trim s)
       /\ exists msg,
            validateTableName (JString s) = Throw (RAGError msg INVALID_INPUT None)))
  /\ (Grammar.acceptable s -> validateTableName (JString s) = Return s).
Proof.
  split; [apply validateTableName_cases|].
  intros Hacc. pose proof Hacc as [Hm _].
  apply matches_trim in Hm.
  destruct (validateTableName_cases s) as [[_ Hret] | [Hnot _]].
  - now rewrite Hm in Hret.
  - rewrite Hm in Hnot. contradiction.
Qed.

(** The reserved set of the source has 22 members. *)
Example reservedWords_count : List.length reservedWords = 22%nat.
Proof. reflexivity. Qed.

End ValidatorClaims.

(* ===================================================================== *)
(** * Properties of the orchestrators *)
(* ===================================================================== *)

Ltac unfold_js :=
  unfold bind, try_catch, lift, ret, throw, rethrow_or_wrap, always_wrap in *.

(** Case analysis on the next collaborator answer in the goal. *)
Ltac next_answer :=
  match goal with
  | |- context [let (_, _) := ?op ?st in _] =>
      let r := fresh "r" in
      let st' := fresh "st" in
      let Hop := fresh "Hop" in
      destruct (op st) as [r st'] eqn:Hop; destruct r; cbn beta iota
  end.

Section Gate.
Context {E V D : Type} `{EmbeddingService E} `{DatabaseService V}
  `{VectorSearchService V} `{DocumentStore D}.

(** C4, amended.  While an instance is not initialized, [embed], [save]
    and [search] of the plain module throw the INVALID_INPUT taxonomy error
    whose message is exactly "RAG module not initialized", and
    [saveDocument], [searchDocuments], [updateDocument], [deleteDocument],
    [getDocument] and [embed] of the hybrid module throw the INVALID_INPUT
    taxonomy error whose message is exactly "Hybrid RAG module not
    initialized".  The throw happens whatever the request is and leaves the
    instance, its collaborators and the call log as they were: no validation
    and no collaborator call comes first. *)
Theorem uninitialized_operations_fail_fast
  (s : RAGModule.t E V) (h : HybridRAGModule.t E V D) :
  RAGModule.initialized s = false ->
  HybridRAGModule.initialized h = false ->
  let plain := RAGError (lit "RAG module not initialized") INVALID_INPUT None in
  let hybrid := RAGError (lit "Hybrid RAG module not initialized") INVALID_INPUT None in
  (forall r, RAGModule.embed r s = (Throw plain, s))
  /\ (forall r, RAGModule.save r s = (Throw plain, s))
  /\ (forall r, RAGModule.search r s = (Throw plain, s))
  /\ (forall r, HybridRAGModule.saveDocument r h = (Throw hybrid, h))
  /\ (forall r, HybridRAGModule.searchDocuments r h = (Throw hybrid, h))
  /\ (forall tablename id updates,
        HybridRAGModule.updateDocument tablename id updates h = (Throw hybrid, h))
  /\ (forall tablename id,
        HybridRAGModule.deleteDocument tablename id h = (Throw hybrid, h))
  /\ (forall tablename id,
        HybridRAGModule.getDocument tablename id h = (Throw hybrid, h))
  /\ (forall r, HybridRAGModule.embed r h = (Throw hybrid, h)).
Proof.
  intros Hs Hh plain hybrid. subst plain hybrid.
  unfold RAGModule.embed, RAGModule.save, RAGModule.search,
    HybridRAGModule.saveDocument, HybridRAGModule.searchDocuments,
    HybridRAGModule.updateDocument, HybridRAGModule.deleteDocument,
    HybridRAGModule.getDocument, HybridRAGModule.embed.
  rewrite Hs, Hh. cbn [negb].
  unfold throw, RAGModule.not_initialized, HybridRAGModule.not_initialized.
  repeat (split; [intros; reflexivity|]).
  intros; reflexivity.
Qed.

End Gate.

Section PlainModule.
Context {E V : Type} `{EmbeddingService E} `{DatabaseService V}
  `{VectorSearchService V}.
Import RAGModule.

(** C9.  Lifecycle of the plain module: [initialize()] on an initialized
    instance returns at once, making no collaborator call and leaving the
    instance initialized; [close()] on an instance that is not initialized
    returns at once, making no collaborator call; and whenever
    [initialize()] throws, the instance it leaves behind is not
    initialized. *)
Theorem lifecycle_invariants (s : t E V) :
  (initialized s = true -> initialize s = (Return tt, s))
  /\ (initialized s = false -> close s = (Return tt, s))
  /\ (forall e s', initialize s = (Throw e, s') -> initialized s' = false).
Proof.
  unfold initialize, close. repeat split.
  - intros Hs; rewrite Hs; reflexivity.
  - intros Hs; rewrite Hs; reflexivity.
  - intros e s'. destruct (initialized s) eqn:Hs; [discriminate|].
    unfold_js. unfold on_embedding, on_database.
    repeat next_answer; cbn [initialized embeddingService databaseService];
      try discriminate;
      match goal with
      | |- context [instanceof_RAGError ?x] => destruct (instanceof_RAGError x)
      end;
      intros Heq; inversion Heq; subst; cbn [initialized]; assumption.
Qed.

End PlainModule.

Section PlainOperations.
Context {E V : Type} `{EmbeddingService E} `{DatabaseService V}
  `{VectorSearchService V}.
Import RAGModule SaveOrder.

Lemma validateEmbedRequest_throws (r : EmbedRequest) (e : JSError) :
  validateEmbedRequest r = Throw e -> instanceof_RAGError e = true.
Proof.
  unfold validateEmbedRequest.
  destruct (validateText (er_text r) (lit "text")) eqn:Ht; [discriminate|].
  intros Heq; inversion Heq; subst.
  apply validateText_throws in Ht as [msg ->]. reflexivity.
Qed.

Lemma validateSaveRequest_throws (r : SaveRequest) (e : JSError) :
  validateSaveRequest r = Throw e -> instanceof_RAGError e = true.
Proof.
  unfold validateSaveRequest.
  destruct (validateText (sr_text r) (lit "text")) eqn:Ht.
  2:{ intros Heq; inversion Heq; subst.
      apply validateText_throws in Ht as [msg ->]. reflexivity. }
  destruct (validateId (sr_id r)) eqn:Hi.
  2:{ intros Heq; inversion Heq; subst.
      apply validateId_throws in Hi as [msg ->]. reflexivity. }
  destruct (validateTableName (sr_tablename r)) eqn:Hn; [discriminate|].
  intros Heq; inversion Heq; subst.
  apply validateTableName_throws in Hn as [msg ->]. reflexivity.
Qed.

Lemma validateSearchRequest_throws (r : SearchRequest) (e : JSError) :
  validateSearchRequest r = Throw e -> instanceof_RAGError e = true.
Proof.
  unfold validateSearchRequest.
  destruct (validateText (qr_text r) (lit "Search text")) eqn:Ht.
  2:{ intros Heq; inversion Heq; subst.
      apply validateText_throws in Ht as [msg ->]. reflexivity. }
  destruct (validateTableName (qr_tablename r)) eqn:Hn.
  2:{ intros Heq; inversion Heq; subst.
      apply validateTableName_throws in Hn as [msg ->]. reflexivity. }
  destruct (validateSearchQuantity (qr_qty r)) eqn:Hq; [discriminate|].
  intros Heq; inversion Heq; subst.
  apply validateSearchQuantity_throws in Hq as [msg ->]. reflexivity.
Qed.

(** What the shared catch block throws is always of the taxonomy. *)
Lemma rethrow_or_wrap_taxonomy {S A} (prefix : string) (code : ErrorCodes)
  (e e' : JSError) (s s' : S) :
  @rethrow_or_wrap S A prefix code e s = (Throw e', s') ->
  instanceof_RAGError e' = true.
Proof.
  unfold rethrow_or_wrap, throw.
  destruct (instanceof_RAGError e) eqn:He; intros Heq; inversion Heq; subst;
    [assumption | reflexivity].
Qed.

(** C5.  On an initialized instance, the error a save request surfaces is
    the text's if the text is at fault, else the id's if the id is at fault,
    else the table name's; in each of these cases [save] throws that error
    and leaves the instance, both collaborators and the call log exactly as
    they were.  When none of the three fields is at fault, all three
    validators have returned and the first collaborator call [save] makes
    is the embedding of the validated text. *)
Theorem save_validates_before_any_call (s : t E V) (request : SaveRequest) :
  initialized s = true ->
  match first_failure request with
  | Some e => save request s = (Throw e, s)
  | None =>
      exists validated rest,
        validateSaveRequest request = Return validated
        /\ calls (snd (save request s))
           = calls s ++ EmbeddingEmbed (sr_text validated) :: rest
  end.
Proof.
  intros Hs. unfold first_failure, text_failure, save. rewrite Hs. cbn [negb].
  unfold_js.
  destruct (read_length (sr_text request)) as [[]|e0] eqn:Hlen; cbn [failure];
    [|reflexivity].
  unfold validateSaveRequest.
  destruct (validateText (sr_text request) (lit "text")) as [text|e1] eqn:Ht;
    cbn [failure].
  2:{ apply validateText_throws in Ht as [msg ->]. reflexivity. }
  destruct (validateId (sr_id request)) as [id|e2] eqn:Hi; cbn [failure].
  2:{ apply validateId_throws in Hi as [msg ->]. reflexivity. }
  destruct (validateTableName (sr_tablename request)) as [name|e3] eqn:Hn;
    cbn [failure].
  2:{ apply validateTableName_throws in Hn as [msg ->]. reflexivity. }
  eexists. cbn [sr_text sr_id sr_tablename].
  unfold on_embedding, on_database.
  repeat next_answer;
    cbn [initialized embeddingService databaseService calls config];
    try match goal with
      | |- context [instanceof_RAGError ?x] => destruct (instanceof_RAGError x)
      end;
    cbn [snd calls]; rewrite <- ?app_assoc; cbn [app];
    eexists; (split; [reflexivity|reflexivity]).
Qed.

(** C8 (plain module).  Whatever the request and whatever the outcome,
    [embed] leaves the vector store as it found it, and the only collaborator
    call it can add to the log is one call of the embedding engine. *)
Lemma embed_frame (s : t E V) (request : EmbedRequest) :
  databaseService (snd (embed request s)) = databaseService s
  /\ (calls (snd (embed request s)) = calls s
      \/ exists text, calls (snd (embed request s)) = calls s ++ [EmbeddingEmbed text]).
Proof.
  unfold embed. destruct (initialized s); cbn [negb]; [|split; [|left]; reflexivity].
  unfold_js.
  destruct (read_length (er_text request)) as [[]|e0]; [|split; [|left]; reflexivity].
  destruct (validateEmbedRequest request) as [validated|e1].
  2:{ destruct (instanceof_RAGError e1); split; try reflexivity; left; reflexivity. }
  unfold on_embedding. next_answer;
    try match goal with
      | |- context [instanceof_RAGError ?x] => destruct (instanceof_RAGError x)
      end;
    (split; [reflexivity | right; eexists; reflexivity]).
Qed.

(** C2, on the code.  The logging line in front of the try block reads
    [request.text.length]; when the text field is missing ([undefined]) or
    [null] that read throws a TypeError outside every catch block, so on an
    initialized instance [embed], [save] and [search] let an error reach the
    caller that is not of the taxonomy. *)
Theorem missing_text_escapes_the_taxonomy (s : t E V) (text : jsvalue) :
  initialized s = true ->
  text = JUndefined \/ text = JNull ->
  exists msg,
    embed {| er_text := text |} s = (Throw (NativeError msg), s)
    /\ (forall id tablename,
          save {| sr_id := id; sr_text := text; sr_tablename := tablename |} s
          = (Throw (NativeError msg), s))
    /\ (forall tablename qty,
          search {| qr_text := text; qr_tablename := tablename; qr_qty := qty |} s
          = (Throw (NativeError msg), s))
    /\ instanceof_RAGError (NativeError msg) = false.
Proof.
  intros Hs [-> | ->]; unfold embed, save, search; rewrite Hs; cbn [negb];
    eexists; repeat split.
Qed.

(** With a text field that is neither [undefined] nor [null], every failure
    of [embed], [save] and [search] is a taxonomy error. *)
Lemma failures_are_taxonomy_when_text_present (s : t E V) :
  (forall r e s', read_length (er_text r) = Return tt ->
     embed r s = (Throw e, s') -> instanceof_RAGError e = true)
  /\ (forall r e s', read_length (sr_text r) = Return tt ->
     save r s = (Throw e, s') -> instanceof_RAGError e = true)
  /\ (forall r e s', read_length (qr_text r) = Return tt ->
     search r s = (Throw e, s') -> instanceof_RAGError e = true).
Proof.
  repeat split; intros r e s' Hlen; unfold embed, save, search;
    (destruct (initialized s); cbn [negb];
     [|unfold throw; intros Heq; inversion Heq; reflexivity]);
    unfold bind at 1; unfold lift at 1; rewrite Hlen; unfold try_catch;
    match goal with
    | |- context [match ?body s with _ => _ end] =>
        destruct (body s) as [[a|e0] s0]
    end;
    try discriminate; apply rethrow_or_wrap_taxonomy.
Qed.

End PlainOperations.

Section HybridOperations.
Context {E V D : Type} `{EmbeddingService E} `{DatabaseService V}
  `{VectorSearchService V} `{DocumentStore D}.
Import HybridRAGModule.

Lemma hybrid_embed_frame (h : t E V D) (request : EmbedRequest) :
  vectorDatabase (snd (embed request h)) = vectorDatabase h
  /\ mysqlDatabase (snd (embed request h)) = mysqlDatabase h
  /\ (calls (snd (embed request h)) = calls h
      \/ exists text, calls (snd (embed request h)) = calls h ++ [EmbeddingEmbed text]).
Proof.
  unfold embed. destruct (initialized h); cbn [negb];
    [|repeat split; left; reflexivity].
  unfold_js.
  destruct (validateEmbedRequest request) as [validated|e1].
  2:{ destruct (instanceof_RAGError e1); repeat split; left; reflexivity. }
  unfold on_embedding. next_answer;
    try match goal with
      | |- context [instanceof_RAGError ?x] => destruct (instanceof_RAGError x)
      end;
    (repeat split; right; eexists; reflexivity).
Qed.

(** C8.  [embed] has no storage side effects, in the plain module and in
    the hybrid one: whatever the request and whether it succeeds or fails,
    the vector store (and the relational store of the hybrid module) is left
    as it was, and the call log grows by at most one call, a call of the
    embedding engine; no [createTableIfNotExists] and no [insertVector] is
    ever among the calls [embed] makes. *)
Theorem embed_has_no_storage_side_effects
  (s : RAGModule.t E V) (h : t E V D) (request : EmbedRequest) :
  let s' := snd (RAGModule.embed request s) in
  let h' := snd (embed request h) in
  RAGModule.databaseService s' = RAGModule.databaseService s
  /\ vectorDatabase h' = vectorDatabase h
  /\ mysqlDatabase h' = mysqlDatabase h
  /\ (exists added, RAGModule.calls s' = RAGModule.calls s ++ added
                    /\ forallb is_embedding_call added = true
                    /\ forall tablename id v,
                         ~ In (CreateTableIfNotExists tablename) added
                         /\ ~ In (InsertVector tablename id v) added)
  /\ (exists added, calls h' = calls h ++ added
                    /\ forallb is_embedding_call added = true
                    /\ forall tablename id v,
                         ~ In (CreateTableIfNotExists tablename) added
                         /\ ~ In (InsertVector tablename id v) added).
Proof.
  intros s' h'. subst s' h'.
  destruct (embed_frame s request) as [Hdb Hcalls].
  destruct (hybrid_embed_frame h request) as [Hvec [Hsql Hhcalls]].
  repeat split; try assumption.
  - destruct Hcalls as [-> | [text ->]].
    + exists []. rewrite app_nil_r. repeat split; intros [].
    + exists [EmbeddingEmbed text]. repeat split;
        intros [Hin | []]; discriminate.
  - destruct Hhcalls as [-> | [text ->]].
    + exists []. rewrite app_nil_r. repeat split; intros [].
    + exists [EmbeddingEmbed text]. repeat split;
        intros [Hin | []]; discriminate.
Qed.

(** C10.  [deleteDocument] removes the relational row only.  On an
    initialized instance it makes exactly one collaborator call,
    [deleteDocument] of the relational store with the same table name and
    id; the relational store is left as that call left it, and what the
    call returned is returned (what it threw is rethrown, wrapped as
    VECTOR_SAVE_FAILED unless it is a taxonomy error already).  Whatever the
    table name, the id and the outcome, the vector store and the embedding
    engine are left as they were; so the vector kept under that id is still
    there, and every later similarity search answers exactly as it would
    have before the deletion, the deleted id included. *)
Theorem deleteDocument_leaves_vectors (h : t E V D) (tablename id : jsvalue) :
  let h' := snd (deleteDocument tablename id h) in
  let answer := ds_deleteDocument tablename id (mysqlDatabase h) in
  (initialized h = true ->
     calls h' = calls h ++ [DeleteDocument tablename id]
     /\ mysqlDatabase h' = snd answer
     /\ (forall deleted, fst answer = Return deleted ->
           fst (deleteDocument tablename id h) = Return deleted)
     /\ (forall e, fst answer = Throw e ->
           fst (deleteDocument tablename id h)
           = Throw (if instanceof_RAGError e then e
                    else wrap (lit "Failed to delete document: ")
                           VECTOR_SAVE_FAILED e)))
  /\ vectorDatabase h' = vectorDatabase h
  /\ embeddingService h' = embeddingService h
  /\ (calls h' = calls h \/ calls h' = calls h ++ [DeleteDocument tablename id])
  /\ (forall name query limit,
        vs_search name query limit (vectorDatabase h')
        = vs_search name query limit (vectorDatabase h))
  /\ (forall name query limit,
        db_searchSimilar name query limit (vectorDatabase h')
        = db_searchSimilar name query limit (vectorDatabase h)).
Proof.
  intros h' answer. subst h' answer.
  assert (Hrel : initialized h = true ->
    calls (snd (deleteDocument tablename id h)) = calls h ++ [DeleteDocument tablename id]
    /\ mysqlDatabase (snd (deleteDocument tablename id h))
       = snd (ds_deleteDocument tablename id (mysqlDatabase h))
    /\ (forall deleted,
          fst (ds_deleteDocument tablename id (mysqlDatabase h)) = Return deleted ->
          fst (deleteDocument tablename id h) = Return deleted)
    /\ (forall e,
          fst (ds_deleteDocument tablename id (mysqlDatabase h)) = Throw e ->
          fst (deleteDocument tablename id h)
          = Throw (if instanceof_RAGError e then e
                   else wrap (lit "Failed to delete document: ")
                          VECTOR_SAVE_FAILED e))).
  { intros Hh. unfold deleteDocument. rewrite Hh. cbn [negb].
    unfold_js. unfold on_mysql.
    destruct (ds_deleteDocument tablename id (mysqlDatabase h)) as [[b|e0] d'];
      cbn [fst snd].
    - repeat split.
      + intros deleted Heq; inversion Heq; reflexivity.
      + intros e Heq; discriminate.
    - destruct (instanceof_RAGError e0) eqn:Hkind; cbn [fst snd calls mysqlDatabase];
        (repeat split; [discriminate|]);
        intros e Heq; inversion Heq; subst; rewrite Hkind; reflexivity. }
  assert (Hframe :
    vectorDatabase (snd (deleteDocument tablename id h)) = vectorDatabase h
    /\ embeddingService (snd (deleteDocument tablename id h)) = embeddingService h
    /\ (calls (snd (deleteDocument tablename id h)) = calls h
        \/ calls (snd (deleteDocument tablename id h))
           = calls h ++ [DeleteDocument tablename id])).
  { unfold deleteDocument. destruct (initialized h); cbn [negb];
      [|repeat split; left; reflexivity].
    unfold_js. unfold on_mysql. next_answer;
      try match goal with
        | |- context [instanceof_RAGError ?x] => destruct (instanceof_RAGError x)
        end;
      (repeat split; right; reflexivity). }
  destruct Hframe as [Hvec [Hemb Hcalls]].
  split; [exact Hrel|].
  repeat split; try assumption; intros; rewrite Hvec; reflexivity.
Qed.

(** C7, on the code.  [updateDocument] guards the re-embedding with the
    truthiness of [updates.content], not with its presence.  With the empty
    string as new content and the relational store reporting a change,
    [updateDocument] returns [true] after the single call on the relational
    store: the embedding engine is not called, nothing is upserted, and the
    vector store still holds the vector of the old content, although
    [content] is among the columns the relational update writes. *)
Theorem updateDocument_empty_content_keeps_old_vector
  (h : t E V D) (tablename id : jsvalue) (updates : DocumentFields) (d' : D) :
  initialized h = true ->
  f_content updates = JString [] ->
  ds_updateDocument tablename id updates (mysqlDatabase h) = (Return true, d') ->
  fst (updateDocument tablename id updates h) = Return true
  /\ calls (snd (updateDocument tablename id updates h))
     = calls h ++ [UpdateDocument tablename id updates]
  /\ vectorDatabase (snd (updateDocument tablename id updates h)) = vectorDatabase h
  /\ mysqlDatabase (snd (updateDocument tablename id updates h)) = d'
  /\ In "content = ?"%string (MySQLDatabase.updateFields updates).
Proof.
  intros Hh Hcontent Hupdate. unfold updateDocument. rewrite Hh. cbn [negb].
  unfold_js. unfold on_mysql. rewrite Hupdate, Hcontent. cbn.
  repeat split.
  unfold MySQLDatabase.updateFields. rewrite Hcontent. cbn.
  destruct (MySQLDatabase.defined (f_title updates)); cbn; auto.
Qed.

(** An update set without [content] never reaches the embedding engine or
    the vector store. *)
Lemma updateDocument_without_content (h : t E V D) (tablename id : jsvalue)
  (updates : DocumentFields) :
  f_content updates = JUndefined ->
  vectorDatabase (snd (updateDocument tablename id updates h)) = vectorDatabase h
  /\ (calls (snd (updateDocument tablename id updates h)) = calls h
      \/ calls (snd (updateDocument tablename id updates h))
         = calls h ++ [UpdateDocument tablename id updates]).
Proof.
  intros Hcontent. unfold updateDocument.
  destruct (initialized h); cbn [negb]; [|split; [|left]; reflexivity].
  unfold_js. unfold on_mysql. rewrite Hcontent. cbn [truthy].
  next_answer; rewrite ?andb_false_r;
    try match goal with
      | |- context [instanceof_RAGError ?x] => destruct (instanceof_RAGError x)
      end;
    (split; [reflexivity | right; reflexivity]).
Qed.

(** With a non-empty string as new content and a change reported, the
    content is embedded and the vector upserted under the same id. *)
Lemma updateDocument_with_content (h : t E V D) (tablename id : jsvalue)
  (updates : DocumentFields) (c : N) (content : jsstring) (d' : D) :
  initialized h = true ->
  f_content updates = JString (c :: content) ->
  ds_updateDocument tablename id updates (mysqlDatabase h) = (Return true, d') ->
  exists rest,
    calls (snd (updateDocument tablename id updates h))
    = calls h ++ UpdateDocument tablename id updates
                 :: EmbeddingEmbed (JString (c :: content)) :: rest
    /\ (forall v e', es_embed (JString (c :: content)) (embeddingService h)
                     = (Return v, e') ->
                     rest = [InsertVector tablename id v]).
Proof.
  intros Hh Hcontent Hupdate. unfold updateDocument. rewrite Hh. cbn [negb].
  unfold_js. unfold on_mysql. rewrite Hupdate, Hcontent.
  cbn [truthy str_length List.length andb negb Z.of_nat Z.eqb].
  unfold on_embedding, on_vectors.
  cbn [embeddingService vectorDatabase mysqlDatabase calls initialized config].
  destruct (es_embed (JString (c :: content)) (embeddingService h))
    as [[v|e] e1] eqn:Hembed; cbn beta iota.
  - cbn [embeddingService vectorDatabase mysqlDatabase calls initialized config].
    destruct (db_insertVector tablename id v (vectorDatabase h)) as [[b|e] v1];
      cbn beta iota;
      try match goal with
        | |- context [instanceof_RAGError ?x] => destruct (instanceof_RAGError x)
        end;
      cbn [snd calls]; rewrite <- !app_assoc; cbn [app];
      eexists; (split; [reflexivity|]);
      intros v0 e0 Heq; inversion Heq; subst; reflexivity.
  - match goal with
      | |- context [instanceof_RAGError ?x] => destruct (instanceof_RAGError x)
      end;
      cbn [snd calls]; rewrite <- !app_assoc; cbn [app];
      eexists; (split; [reflexivity|]); intros v0 e0 Heq; discriminate.
Qed.

End HybridOperations.

Section ErrorPropagation.
Context {E V D : Type} `{EmbeddingService E} `{DatabaseService V}
  `{VectorSearchService V} `{DocumentStore D}.

(** What [embed], [save] and [search] of the plain module do with an error
    of the embedding engine: a taxonomy error is thrown on as it is, any
    other error is wrapped once under the kind of the operation. *)
Lemma embedding_errors_in_plain_module (s : RAGModule.t E V) (e : JSError) (e' : E) :
  RAGModule.initialized s = true ->
  let surfaced prefix code :=
    if instanceof_RAGError e then e else wrap (lit prefix) code e in
  (forall r validated,
     read_length (er_text r) = Return tt ->
     RAGModule.validateEmbedRequest r = Return validated ->
     es_embed (er_text validated) (RAGModule.embeddingService s) = (Throw e, e') ->
     fst (RAGModule.embed r s)
     = Throw (surfaced "Failed to generate embedding: "%string EMBEDDING_FAILED))
  /\ (forall r validated,
     read_length (sr_text r) = Return tt ->
     RAGModule.validateSaveRequest r = Return validated ->
     es_embed (sr_text validated) (RAGModule.embeddingService s) = (Throw e, e') ->
     fst (RAGModule.save r s)
     = Throw (surfaced "Failed to save vector: "%string VECTOR_SAVE_FAILED))
  /\ (forall r validated,
     read_length (qr_text r) = Return tt ->
     RAGModule.validateSearchRequest r = Return validated ->
     es_embed (qr_text validated) (RAGModule.embeddingService s) = (Throw e, e') ->
     fst (RAGModule.search r s)
     = Throw (surfaced "Failed to search vectors: "%string SEARCH_FAILED)).
Proof.
  intros Hs surfaced. subst surfaced.
  repeat split; intros r validated Hlen Hvalid Hembed;
    unfold RAGModule.embed, RAGModule.save, RAGModule.search;
    rewrite Hs; cbn [negb]; unfold_js; rewrite Hlen, Hvalid;
    unfold RAGModule.on_embedding; rewrite Hembed; cbn beta iota;
    destruct (instanceof_RAGError e); reflexivity.
Qed.

(** The catch block of the hybrid [initialize] has no [instanceof RAGError]
    test: a taxonomy error of a collaborator comes out wrapped, under the
    kind MODEL_LOAD_FAILED whatever its own kind was. *)
Lemma hybrid_initialize_wraps_taxonomy_errors (h : HybridRAGModule.t E V D)
  (m : jsstring) (c : ErrorCodes) (cause : option JSError) (e' : E) :
  HybridRAGModule.initialized h = false ->
  es_initialize (modelPath (HybridRAGModule.config h))
    (HybridRAGModule.embeddingService h) = (Throw (RAGError m c cause), e') ->
  fst (HybridRAGModule.initialize h)
  = Throw (RAGError (lit "Failed to initialize Hybrid RAG module: " ++ m)
             MODEL_LOAD_FAILED (Some (RAGError m c cause))).
Proof.
  intros Hh Hinit. unfold HybridRAGModule.initialize. rewrite Hh.
  unfold_js. unfold HybridRAGModule.on_embedding. rewrite Hinit. reflexivity.
Qed.

End ErrorPropagation.

Section DatabaseInitialize.
Context {S : Type} `{SQLiteVectorDatabase.Sqlite3 S}.

Lemma database_initialize_wraps_twice (s : SQLiteVectorDatabase.t S)
  (path msg : jsstring) (d' : S) :
  SQLiteVectorDatabase.initialized s
    && str_eqb (SQLiteVectorDatabase.databasePath s) path = false ->
  SQLiteVectorDatabase.sqlite_open path (SQLiteVectorDatabase.driver s)
    = (Some msg, d') ->
  fst (SQLiteVectorDatabase.initialize path s)
  = Throw (SQLiteVectorDatabase.rewrapped_connection_error msg).
Proof.
  intros Hnew Hopen. unfold SQLiteVectorDatabase.initialize. rewrite Hnew.
  unfold_js. unfold SQLiteVectorDatabase.connect.
  cbn [SQLiteVectorDatabase.driver]. rewrite Hopen. reflexivity.
Qed.

Section ThroughTheModule.
Context {E : Type} `{EmbeddingService E}.
Variable createTableIfNotExists :
  jsvalue -> SQLiteVectorDatabase.t S -> completion unit * SQLiteVectorDatabase.t S.
Variable insertVector :
  jsvalue -> jsvalue -> vector -> SQLiteVectorDatabase.t S
  -> completion bool * SQLiteVectorDatabase.t S.
Variable searchSimilar :
  jsvalue -> vector -> jsvalue -> SQLiteVectorDatabase.t S
  -> completion (list jsvalue) * SQLiteVectorDatabase.t S.
Variable close : SQLiteVectorDatabase.t S -> completion unit * SQLiteVectorDatabase.t S.

Let sqlite : DatabaseService (SQLiteVectorDatabase.t S) :=
  SQLiteVectorDatabase.service createTableIfNotExists insertVector searchSimilar close.
#[local] Existing Instance sqlite.

(** C3, on the code.  When the sqlite3 driver reports an error on opening
    the database, the callback of [SQLiteVectorDatabase.initialize] turns it
    into a DATABASE_CONNECTION_FAILED taxonomy error, and the catch block of
    the same method, which has no [instanceof RAGError] test, wraps that
    taxonomy error again.  [RAGModule.initialize] passes the result on, so
    the caller receives an error whose message and cause are not those of the
    taxonomy error first raised: the foreign error has been wrapped twice and
    sits two causes deep. *)
Theorem initialize_rewraps_connection_error
  (s : RAGModule.t E (SQLiteVectorDatabase.t S)) (msg : jsstring) (e' : E) (d' : S) :
  RAGModule.initialized s = false ->
  es_initialize (modelPath (RAGModule.config s)) (RAGModule.embeddingService s)
    = (Return tt, e') ->
  SQLiteVectorDatabase.initialized (RAGModule.databaseService s)
    && str_eqb (SQLiteVectorDatabase.databasePath (RAGModule.databaseService s))
         (databasePath (RAGModule.config s)) = false ->
  SQLiteVectorDatabase.sqlite_open (databasePath (RAGModule.config s))
    (SQLiteVectorDatabase.driver (RAGModule.databaseService s)) = (Some msg, d') ->
  fst (db_initialize (databasePath (RAGModule.config s))
         (RAGModule.databaseService s))
    = Throw (SQLiteVectorDatabase.rewrapped_connection_error msg)
  /\ fst (RAGModule.initialize s)
     = Throw (SQLiteVectorDatabase.rewrapped_connection_error msg)
  /\ SQLiteVectorDatabase.rewrapped_connection_error msg
     <> SQLiteVectorDatabase.connection_error msg
  /\ SQLiteVectorDatabase.connection_error msg
     = wrap (lit "Failed to connect to database: ") DATABASE_CONNECTION_FAILED
         (NativeError msg).
Proof.
  intros Hs Hengine Hnew Hopen.
  pose proof (database_initialize_wraps_twice _ _ Hnew Hopen) as Hdb.
  repeat split.
  - exact Hdb.
  - unfold RAGModule.initialize. rewrite Hs. unfold_js.
    unfold RAGModule.on_embedding. rewrite Hengine. cbn beta iota.
    unfold RAGModule.on_database.
    cbn [RAGModule.databaseService RAGModule.config].
    change (@db_initialize (SQLiteVectorDatabase.t S) sqlite)
      with (@SQLiteVectorDatabase.initialize S _).
    destruct (SQLiteVectorDatabase.initialize (databasePath (RAGModule.config s))
                (RAGModule.databaseService s)) as [r v'] eqn:Hrun.
    cbn [fst] in Hdb. subst r. reflexivity.
  - unfold SQLiteVectorDatabase.rewrapped_connection_error,
      SQLiteVectorDatabase.connection_error.
    intros Heq. inversion Heq.
Qed.

End ThroughTheModule.
End DatabaseInitialize.

Section HybridLifecycle.
Context {E V D : Type} `{EmbeddingService E} `{DatabaseService V}
  `{DocumentStore D}.
Import HybridRAGModule.

(** The hybrid module has the same lifecycle: the two early returns, and an
    instance that is not initialized after a failed [initialize()]. *)
Lemma hybrid_lifecycle (h : t E V D) :
  (initialized h = true -> initialize h = (Return tt, h))
  /\ (initialized h = false -> close h = (Return tt, h))
  /\ (forall e h', initialize h = (Throw e, h') -> initialized h' = false).
Proof.
  unfold initialize, close. repeat split.
  - intros Hh; rewrite Hh; reflexivity.
  - intros Hh; rewrite Hh; reflexivity.
  - intros e h'. destruct (initialized h) eqn:Hh; [discriminate|].
    unfold_js. unfold on_embedding, on_vectors, on_mysql.
    repeat next_answer;
      cbn [initialized embeddingService vectorDatabase mysqlDatabase];
      try discriminate;
      intros Heq; inversion Heq; subst; cbn [initialized]; assumption.
Qed.

End HybridLifecycle.

Section HybridEmbed.
Context {E V D : Type} `{EmbeddingService E}.

(** The hybrid [embed] has no logging line in front of its try block: a
    missing or [null] text reaches [validateText] and comes out as an
    INVALID_INPUT taxonomy error. *)
Lemma hybrid_embed_missing_text_is_invalid_input
  (h : HybridRAGModule.t E V D) (text : jsvalue) :
  HybridRAGModule.initialized h = true ->
  text = JUndefined \/ text = JNull ->
  HybridRAGModule.embed {| er_text := text |} h
  = (Throw (RAGError (lit "text must be a string") INVALID_INPUT None), h).
Proof.
  intros Hh [-> | ->]; unfold HybridRAGModule.embed; rewrite Hh; reflexivity.
Qed.

End HybridEmbed.

(* ===================================================================== *)
(** * The statements on concrete inputs *)
(* ===================================================================== *)

Import InMemory.

(** Cases of the validator test suite. *)
Example validateText_trims :
  validateText (JString (lit "  Hello world  ")) (lit "text") = Return (lit "Hello world").
Proof. reflexivity. Qed.

Example validateTableName_trims :
  validateTableName (JString (lit "  valid_table_name  ")) = Return (lit "valid_table_name").
Proof. reflexivity. Qed.

Example validateTableName_reserved :
  validateTableName (JString (lit "select"))
  = Throw (invalid (lit "Table name 'select' is a reserved SQL keyword")).
Proof. reflexivity. Qed.

Example sanitizeText_strips_control_characters :
  sanitizeText (lit "Hello" ++ [0%N] ++ lit "World" ++ [1%N] ++ lit "Test" ++ [31%N]
                ++ [10%N; 9%N])
  = lit "HelloWorldTest" ++ [10%N; 9%N].
Proof. reflexivity. Qed.

(** Save, then search, on the in-memory collaborators. *)
Example save_then_search :
  let request := {| sr_id := JNumber (NumInt 1); sr_text := JString (lit "a");
                    sr_tablename := JString (lit "t") |} in
  let query := {| qr_text := JString (lit "a"); qr_tablename := JString (lit "t");
                  qr_qty := JNumber (NumInt 1) |} in
  fst (RAGModule.save request ready) = Return true
  /\ fst (RAGModule.search query (snd (RAGModule.save request ready)))
     = Return [JNumber (NumInt 1)].
Proof. split; reflexivity. Qed.

(** [validateText('   ')] throws "text cannot be empty". *)
Lemma validateText_blank_gets_empty_message_witness :
  lit "   " <> []
  /\ trim (lit "   ") = []
  /\ validateText (JString (lit "   ")) (lit "text")
     = Throw (RAGError (lit "text cannot be empty") INVALID_INPUT None).
Proof.
  assert (Hne : lit "   " <> []) by discriminate.
  assert (Hblank : trim (lit "   ") = []) by reflexivity.
  split; [exact Hne | split; [exact Hblank|]].
  exact (proj1 (validateText_blank_gets_empty_message (lit "text") Hne Hblank)).
Defined.

(** C6, the claim as stated fails: a padded name does not match the
    grammar, yet [validateTableName] does not raise on it; it returns the
    name without the padding. *)
Lemma validateTableName_accepts_padded_name :
  ~ (forall s : jsstring,
       ~ Grammar.acceptable s ->
       exists e, validateTableName (JString s) = Throw e).
Proof.
  intros Hclaim.
  destruct (Hclaim (lit " ab ")) as [e He].
  - intros [[c [rest [Heq [Hletter _]]]] _].
    inversion Heq; subst. unfold Grammar.letter in Hletter. lia.
  - vm_compute in He. discriminate.
Qed.

Example validateTableName_padded_name :
  validateTableName (JString (lit " ab ")) = Return (lit "ab").
Proof. reflexivity. Qed.

Lemma validateTableName_characterised_on_trim_witness :
  Grammar.acceptable (lit "valid_table")
  /\ validateTableName (JString (lit "valid_table")) = Return (lit "valid_table").
Proof.
  assert (Hacc : Grammar.acceptable (lit "valid_table")).
  { destruct (validateTableName_cases (lit "valid_table")) as [[Hacc _] | [_ [msg Hmsg]]].
    - exact Hacc.
    - vm_compute in Hmsg. discriminate. }
  split; [exact Hacc|].
  exact (proj2 (validateTableName_characterised_on_trim (lit "valid_table")) Hacc).
Defined.

(** [embed({})] on an initialized module. *)
Lemma missing_text_escapes_the_taxonomy_witness :
  exists msg,
    RAGModule.embed {| er_text := JUndefined |} ready = (Throw (NativeError msg), ready)
    /\ (forall id tablename,
          RAGModule.save {| sr_id := id; sr_text := JUndefined; sr_tablename := tablename |}
            ready = (Throw (NativeError msg), ready))
    /\ (forall tablename qty,
          RAGModule.search
            {| qr_text := JUndefined; qr_tablename := tablename; qr_qty := qty |} ready
          = (Throw (NativeError msg), ready))
    /\ instanceof_RAGError (NativeError msg) = false.
Proof.
  exact (missing_text_escapes_the_taxonomy ready (eq_refl true) (or_introl eq_refl)).
Defined.

Lemma initialize_rewraps_connection_error_witness :
  fst (@RAGModule.initialize unit (SQLiteVectorDatabase.t unit) engine
         (SQLiteVectorDatabase.service
            (fun _ v => (Return tt, v)) (fun _ _ _ v => (Return true, v))
            (fun _ _ _ v => (Return [], v)) (fun v => (Return tt, v)))
         over_refusing_driver)
  = Throw (RAGError
             (lit "Failed to initialize database: Failed to connect to database: Connection failed")
             DATABASE_CONNECTION_FAILED
             (Some (RAGError (lit "Failed to connect to database: Connection failed")
                      DATABASE_CONNECTION_FAILED
                      (Some (NativeError (lit "Connection failed")))))).
Proof.
  exact (proj1 (proj2
    (initialize_rewraps_connection_error
       (fun _ v => (Return tt, v)) (fun _ _ _ v => (Return true, v))
       (fun _ _ _ v => (Return [], v)) (fun v => (Return tt, v))
       over_refusing_driver (msg := lit "Connection failed") (e' := tt) (d' := tt)
       eq_refl eq_refl eq_refl eq_refl))).
Defined.

(** C4, the claim as stated fails: the message of the error is not
    "module not initialized"; it names the module. *)
Lemma uninitialized_message_names_the_module :
  ~ (forall request, exists code cause,
       RAGModule.embed request fresh
       = (Throw (RAGError (lit "module not initialized") code cause), fresh)).
Proof.
  intros Hclaim.
  destruct (Hclaim {| er_text := JString (lit "test") |}) as [code [cause Hrun]].
  vm_compute in Hrun. discriminate.
Qed.

(** Every operation on modules that were never initialized. *)
Lemma uninitialized_operations_fail_fast_witness :
  RAGModule.embed {| er_text := JString (lit "test") |} fresh
  = (Throw (RAGError (lit "RAG module not initialized") INVALID_INPUT None), fresh).
Proof.
  exact (proj1 (uninitialized_operations_fail_fast fresh hybrid_fresh eq_refl eq_refl)
           {| er_text := JString (lit "test") |}).
Defined.

(** A save request with all three fields at fault surfaces the text's
    error and touches nothing. *)
Lemma save_validates_before_any_call_witness :
  RAGModule.save
    {| sr_id := JNumber (NumInt (-1)); sr_text := JString (lit "   ");
       sr_tablename := JString (lit "select") |} ready
  = (Throw (RAGError (lit "text cannot be empty") INVALID_INPUT None), ready).
Proof.
  exact (save_validates_before_any_call ready
           {| sr_id := JNumber (NumInt (-1)); sr_text := JString (lit "   ");
              sr_tablename := JString (lit "select") |} eq_refl).
Defined.

(** With a sound text, the id's error comes before the table name's. *)
Example save_surfaces_id_before_tablename :
  RAGModule.save
    {| sr_id := JNumber (NumInt (-1)); sr_text := JString (lit "a");
       sr_tablename := JString (lit "select") |} ready
  = (Throw (RAGError (lit "ID must be a non-negative integer") INVALID_INPUT None), ready).
Proof. reflexivity. Qed.

Lemma updateDocument_empty_content_keeps_old_vector_witness :
  fst (HybridRAGModule.updateDocument docs (JNumber (NumInt 1)) blank_content one_document)
  = Return true
  /\ HybridRAGModule.vectorDatabase
       (snd (HybridRAGModule.updateDocument docs (JNumber (NumInt 1)) blank_content
               one_document))
     = HybridRAGModule.vectorDatabase one_document.
Proof.
  pose proof (updateDocument_empty_content_keeps_old_vector
                one_document docs (JNumber (NumInt 1)) blank_content
                eq_refl eq_refl eq_refl) as [Hret [_ [Hvec _]]].
  split; [exact Hret | exact Hvec].
Defined.

(** The relational row of that document now holds the empty content. *)
Example updateDocument_empty_content_rewrites_row :
  map (fun r => doc_content (snd r))
      (HybridRAGModule.mysqlDatabase
         (snd (HybridRAGModule.updateDocument docs (JNumber (NumInt 1)) blank_content
                 one_document)))
  = [JString []].
Proof. reflexivity. Qed.

Lemma lifecycle_invariants_witness :
  RAGModule.initialize ready = (Return tt, ready)
  /\ RAGModule.close fresh = (Return tt, fresh).
Proof.
  split.
  - exact (proj1 (lifecycle_invariants ready) eq_refl).
  - exact (proj1 (proj2 (lifecycle_invariants fresh)) eq_refl).
Defined.

(** Deleting document 1 empties the relational table and returns [true];
    a similarity search over the vector collection still lists id 1. *)
Lemma deleteDocument_leaves_vectors_witness :
  let after := HybridRAGModule.deleteDocument docs (JNumber (NumInt 1)) one_document in
  HybridRAGModule.mysqlDatabase (snd after) = []
  /\ fst after = Return true
  /\ vs_search docs [NumInt 1; NumInt 0] (JNumber (NumInt 5))
       (HybridRAGModule.vectorDatabase (snd after))
     = (Return [JNumber (NumInt 1)], HybridRAGModule.vectorDatabase one_document).
Proof.
  destruct (deleteDocument_leaves_vectors one_document docs (JNumber (NumInt 1)))
    as [Hrel [_ [_ [_ [Hsearch _]]]]].
  destruct (Hrel eq_refl) as [_ [Hsql [Hret _]]].
  cbv zeta. split; [|split].
  - rewrite Hsql. reflexivity.
  - apply Hret. reflexivity.
  - rewrite Hsearch. reflexivity.
Defined.

(** After [deleteDocument] has removed document 1, a similarity search
    over the vector collection still lists id 1, and the relational store no
    longer has the row. *)
Example deleted_id_still_found :
  let after := HybridRAGModule.deleteDocument docs (JNumber (NumInt 1)) one_document in
  fst after = Return true
  /\ HybridRAGModule.mysqlDatabase (snd after) = []
  /\ fst (vs_search docs [NumInt 1; NumInt 0] (JNumber (NumInt 5))
            (HybridRAGModule.vectorDatabase (snd after)))
     = Return [JNumber (NumInt 1)].
Proof. repeat split. Qed.

(* ===================================================================== *)
(** * Further properties of the validators *)
(* ===================================================================== *)

Section Trimming.

Lemma trimStart_suffix (s : jsstring) : exists p, s = p ++ trimStart s.
Proof.
  induction s as [|c s [p Hp]]; [exists []; reflexivity|].
  simpl. destruct (isWhiteSpace c).
  - exists (c :: p). simpl. now rewrite <- Hp.
  - exists []. reflexivity.
Qed.

Lemma trimStart_first (s : jsstring) (c : N) (r : jsstring) :
  trimStart s = c :: r -> isWhiteSpace c = false.
Proof.
  induction s as [|x s IH]; simpl; [discriminate|].
  destruct (isWhiteSpace x) eqn:Hx; [exact IH|].
  intros Heq; inversion Heq; subst; assumption.
Qed.

Lemma trimEnd_prefix (s : jsstring) : exists q, s = trimEnd s ++ q.
Proof.
  unfold trimEnd. destruct (trimStart_suffix (rev s)) as [p Hp].
  exists (rev p). rewrite <- rev_app_distr, <- Hp. now rewrite rev_involutive.
Qed.

Lemma trimEnd_final (s body : jsstring) (z : N) :
  trimEnd s = body ++ [z] -> isWhiteSpace z = false.
Proof.
  unfold trimEnd. intros Heq.
  apply (f_equal (@rev N)) in Heq. rewrite rev_involutive, rev_app_distr in Heq.
  simpl in Heq. eapply trimStart_first; eassumption.
Qed.

(** A string with no white space at either end is its own trim. *)
Lemma trim_clean_ends (c : N) (r : jsstring) :
  isWhiteSpace c = false ->
  (forall body z, c :: r = body ++ [z] -> isWhiteSpace z = false) ->
  trim (c :: r) = c :: r.
Proof.
  intros Hc Hlast. unfold trim. rewrite trimStart_head by assumption.
  destruct (exists_last (l := c :: r)) as [body [z Hz]]; [discriminate|].
  rewrite Hz. apply trimEnd_last. exact (Hlast _ _ Hz).
Qed.

Lemma trim_shape (s : jsstring) :
  trim s = []
  \/ exists c r, trim s = c :: r
       /\ isWhiteSpace c = false
       /\ forall body z, c :: r = body ++ [z] -> isWhiteSpace z = false.
Proof.
  destruct (trim s) as [|c r] eqn:Ht; [left; reflexivity|right].
  exists c, r. split; [reflexivity|]. split.
  - unfold trim in Ht. destruct (trimEnd_prefix (trimStart s)) as [q Hq].
    rewrite Ht in Hq. simpl in Hq. eapply trimStart_first; eassumption.
  - intros body z Heq. unfold trim in Ht. rewrite Heq in Ht.
    eapply trimEnd_final; eassumption.
Qed.

Lemma trim_idempotent (s : jsstring) : trim (trim s) = trim s.
Proof.
  destruct (trim_shape s) as [-> | [c [r [-> [Hc Hlast]]]]]; [reflexivity|].
  now apply trim_clean_ends.
Qed.

End Trimming.

Section ValidatorResults.

(** What [validateText] returns is the trim of its input, is not empty, is at
    most 1,000,000 code units long, has no white space at either end, and is
    a fixed point: validating it again, under any field name, returns it
    unchanged. *)
Theorem validateText_result_is_clean_and_stable
  (v : jsvalue) (fieldName fieldName' t : jsstring) :
  validateText v fieldName = Return t ->
  (exists s, v = JString s /\ t = trim s)
  /\ t <> []
  /\ (str_length t <= MAX_TEXT_LENGTH)%Z
  /\ (exists c r, t = c :: r /\ isWhiteSpace c = false
        /\ forall body z, t = body ++ [z] -> isWhiteSpace z = false)
  /\ validateText (JString t) fieldName' = Return t.
Proof.
  unfold validateText. destruct v as [| | | |s|]; try discriminate.
  destruct (str_length s =? 0)%Z eqn:Hempty; [discriminate|].
  destruct (str_length (trim s) =? 0)%Z eqn:Hblank; [discriminate|].
  destruct (str_length (trim s) >? MAX_TEXT_LENGTH)%Z eqn:Hlong; [discriminate|].
  intros Heq; inversion Heq; subst t.
  assert (Hne : trim s <> []).
  { intros Hnil. apply str_length_zero in Hnil. congruence. }
  destruct (trim_shape s) as [Hnil | [c [r [Ht [Hc Hlast]]]]]; [contradiction|].
  repeat split.
  - exists s. split; reflexivity.
  - exact Hne.
  - rewrite Z.gtb_ltb, Z.ltb_ge in Hlong. exact Hlong.
  - exists c, r. rewrite Ht. repeat split; assumption.
  - rewrite trim_idempotent, Hblank, Hlong.
    destruct (str_length (trim s) =? 0)%Z eqn:H0; [congruence|reflexivity].
Qed.

(** [sanitizeText] is idempotent, leaves no control character behind, never
    lengthens the text, and keeps every code unit that is not a control
    character, tabs and line breaks included. *)
Theorem sanitizeText_strips_exactly_control_characters (text : jsstring) :
  sanitizeText (sanitizeText text) = sanitizeText text
  /\ forallb (fun c => negb (isControl c)) (sanitizeText text) = true
  /\ (List.length (sanitizeText text) <= List.length text)%nat
  /\ (forall c, In c (sanitizeText text) <-> In c text /\ isControl c = false)
  /\ isControl 9 = false /\ isControl 10 = false /\ isControl 13 = false.
Proof.
  unfold sanitizeText. repeat split.
  - induction text as [|c text IH]; [reflexivity|].
    simpl. destruct (isControl c) eqn:Hc; simpl; [exact IH|].
    rewrite Hc. simpl. now rewrite IH.
  - apply forallb_forall. intros c Hc. apply filter_In in Hc. tauto.
  - induction text as [|c text IH]; simpl; [lia|].
    destruct (negb (isControl c)); simpl; lia.
  - apply filter_In in H. tauto.
  - apply filter_In in H as [_ H]. now apply negb_true_iff in H.
  - intros [Hin Hc]. apply filter_In. split; [assumption|]. now rewrite Hc.
Qed.

(** The numeric validators accept exactly the integer-valued numbers within
    their bounds, and return them unchanged: ids from 0 to
    [Number.MAX_SAFE_INTEGER], quantities from 1 to 1000. *)
Theorem numeric_validators_accept_exactly_their_ranges (v w : jsvalue) :
  (validateId v = Return w
   <-> exists z, v = JNumber (NumInt z) /\ w = v
                 /\ (0 <= z <= 9007199254740991)%Z)
  /\ (validateSearchQuantity v = Return w
      <-> exists z, v = JNumber (NumInt z) /\ w = v /\ (1 <= z <= 1000)%Z).
Proof.
  unfold validateId, validateSearchQuantity, MAX_SAFE_INTEGER,
    MIN_SEARCH_QUANTITY, MAX_SEARCH_QUANTITY.
  split; split.
  - destruct v as [| | |[z|bits]| |]; try discriminate.
    destruct (z <? 0)%Z eqn:Hlo; [discriminate|].
    destruct (z >? 9007199254740991)%Z eqn:Hhi; [discriminate|].
    intros Heq; inversion Heq; subst. exists z.
    rewrite Z.ltb_ge in Hlo. rewrite Z.gtb_ltb, Z.ltb_ge in Hhi. auto.
  - intros [z [-> [-> [Hlo Hhi]]]].
    destruct (z <? 0)%Z eqn:Hl; [rewrite Z.ltb_lt in Hl; lia|].
    destruct (z >? 9007199254740991)%Z eqn:Hh;
      [rewrite Z.gtb_ltb, Z.ltb_lt in Hh; lia | reflexivity].
  - destruct v as [| | |[z|bits]| |]; try discriminate.
    destruct (z <? 1)%Z eqn:Hlo; [discriminate|].
    destruct (z >? 1000)%Z eqn:Hhi; [discriminate|].
    intros Heq; inversion Heq; subst. exists z.
    rewrite Z.ltb_ge in Hlo. rewrite Z.gtb_ltb, Z.ltb_ge in Hhi. auto.
  - intros [z [-> [-> [Hlo Hhi]]]].
    destruct (z <? 1)%Z eqn:Hl; [rewrite Z.ltb_lt in Hl; lia|].
    destruct (z >? 1000)%Z eqn:Hh;
      [rewrite Z.gtb_ltb, Z.ltb_lt in Hh; lia | reflexivity].
Qed.

End ValidatorResults.

(* ===================================================================== *)
(** * Further properties of the orchestrators *)
(* ===================================================================== *)

Section Preservation.
Context {S : Type} (R : S -> S -> Prop).

Lemma preserved_ret {A} (a : A) : reflexive_on R -> preserved R (ret a).
Proof. intros Hrefl s. apply Hrefl. Qed.

Lemma preserved_throw {A} (e : JSError) : reflexive_on R -> preserved R (@throw S A e).
Proof. intros Hrefl s. apply Hrefl. Qed.

Lemma preserved_lift {A} (c : completion A) : reflexive_on R -> preserved R (lift c).
Proof. intros Hrefl s. apply Hrefl. Qed.

Lemma preserved_bind {A B} (m : M S A) (k : A -> M S B) :
  transitive_on R ->
  preserved R m -> (forall a, preserved R (k a)) -> preserved R (bind m k).
Proof.
  intros Htrans Hm Hk s. unfold bind. specialize (Hm s).
  destruct (m s) as [[a|e] s']; cbn [snd] in *; [|assumption].
  eapply Htrans; [exact Hm | apply Hk].
Qed.

Lemma preserved_try_catch {A} (body : M S A) (handler : JSError -> M S A) :
  transitive_on R ->
  preserved R body -> (forall e, preserved R (handler e)) ->
  preserved R (try_catch body handler).
Proof.
  intros Htrans Hb Hh s. unfold try_catch. specialize (Hb s).
  destruct (body s) as [[a|e] s']; cbn [snd] in *; [assumption|].
  eapply Htrans; [exact Hb | apply Hh].
Qed.

Lemma preserved_rethrow_or_wrap {A} (prefix : string) (code : ErrorCodes) (e : JSError) :
  reflexive_on R -> preserved R (@rethrow_or_wrap S A prefix code e).
Proof.
  intros Hrefl. unfold rethrow_or_wrap.
  destruct (instanceof_RAGError e); now apply preserved_throw.
Qed.

Lemma preserved_always_wrap {A} (prefix : string) (code : ErrorCodes) (e : JSError) :
  reflexive_on R -> preserved R (@always_wrap S A prefix code e).
Proof. intros Hrefl. unfold always_wrap. now apply preserved_throw. Qed.

Lemma preserved_at {A} (m : M S A) (s : S) : preserved R m -> R s (snd (m s)).
Proof. intros Hm. apply Hm. Qed.

End Preservation.

(** Breaks a method body down to its collaborator calls. *)
Ltac preserve Hrefl Htrans :=
  repeat first
    [ apply preserved_bind; [exact Htrans | | intros ?]
    | apply preserved_try_catch; [exact Htrans | | intros ?]
    | apply preserved_rethrow_or_wrap; exact Hrefl
    | apply preserved_always_wrap; exact Hrefl
    | apply preserved_ret; exact Hrefl
    | apply preserved_throw; exact Hrefl
    | apply preserved_lift; exact Hrefl
    | match goal with
      | |- preserved _ (match ?x with _ => _ end) => destruct x
      end ].

Section PlainFlag.
Context {E V : Type} `{EmbeddingService E} `{DatabaseService V}
  `{VectorSearchService V}.
Import RAGModule.

Local Abbreviation keeps := (@same_lifecycle E V).

Lemma same_lifecycle_refl (s : t E V) : keeps s s.
Proof. split; reflexivity. Qed.

Lemma same_lifecycle_trans (s1 s2 s3 : t E V) :
  keeps s1 s2 -> keeps s2 s3 -> keeps s1 s3.
Proof. intros [H12 C12] [H23 C23]. split; congruence. Qed.

Lemma on_embedding_same_lifecycle {A} (c : Call) (op : E -> completion A * E) :
  preserved keeps (on_embedding c op).
Proof.
  intros s. unfold on_embedding. destruct (op (embeddingService s)).
  split; reflexivity.
Qed.

Lemma on_database_same_lifecycle {A} (c : Call) (op : V -> completion A * V) :
  preserved keeps (on_database c op).
Proof.
  intros s. unfold on_database. destruct (op (databaseService s)).
  split; reflexivity.
Qed.

(** No request and no collaborator failure moves the lifecycle flag:
    whatever [embed], [save] and [search] return or throw, the instance is
    initialized afterwards exactly if it was before, with the configuration
    it had. *)
Theorem operations_keep_the_lifecycle_flag (s : t E V) :
  (forall r, same_lifecycle s (snd (embed r s)))
  /\ (forall r, same_lifecycle s (snd (save r s)))
  /\ (forall r, same_lifecycle s (snd (search r s))).
Proof.
  split; [|split]; intros r;
    unfold embed, save, search;
    (destruct (initialized s); cbn [negb]; [|apply same_lifecycle_refl]);
    apply preserved_at;
    repeat first
      [ progress preserve same_lifecycle_refl same_lifecycle_trans
      | apply on_embedding_same_lifecycle
      | apply on_database_same_lifecycle ].
Qed.

End PlainFlag.

Section PlainRuns.
Context {E V : Type} `{EmbeddingService E} `{DatabaseService V}
  `{VectorSearchService V}.
Import RAGModule.

Lemma validateText_accepts_strings_only (v : jsvalue) (fieldName t : jsstring) :
  validateText v fieldName = Return t -> read_length v = Return tt.
Proof. destruct v; try discriminate; reflexivity. Qed.

Lemma validateSaveRequest_reads (r validated : SaveRequest) :
  validateSaveRequest r = Return validated -> read_length (sr_text r) = Return tt.
Proof.
  unfold validateSaveRequest.
  destruct (validateText (sr_text r) (lit "text")) eqn:Ht; [|discriminate].
  intros _. eapply validateText_accepts_strings_only; eassumption.
Qed.

Lemma validateSearchRequest_reads (r validated : SearchRequest) :
  validateSearchRequest r = Return validated -> read_length (qr_text r) = Return tt.
Proof.
  unfold validateSearchRequest.
  destruct (validateText (qr_text r) (lit "Search text")) eqn:Ht; [|discriminate].
  intros _. eapply validateText_accepts_strings_only; eassumption.
Qed.

(** When validation, the embedding and the table creation succeed, [save]
    makes exactly three collaborator calls, in the order embed, create
    table, insert vector, all on the validated fields, and returns the
    boolean the store's [insertVector] returned, [false] included. *)
Theorem save_returns_the_storage_flag
  (s : t E V) (request validated : SaveRequest) (x : vector) (b : bool)
  (e1 : E) (v1 v2 : V) :
  initialized s = true ->
  validateSaveRequest request = Return validated ->
  es_embed (sr_text validated) (embeddingService s) = (Return x, e1) ->
  db_createTableIfNotExists (sr_tablename validated) (databaseService s)
    = (Return tt, v1) ->
  db_insertVector (sr_tablename validated) (sr_id validated) x v1 = (Return b, v2) ->
  save request s
  = (Return b,
     {| config := config s; initialized := true;
        embeddingService := e1; databaseService := v2;
        calls := calls s ++ [EmbeddingEmbed (sr_text validated);
                             CreateTableIfNotExists (sr_tablename validated);
                             InsertVector (sr_tablename validated)
                               (sr_id validated) x] |}).
Proof.
  intros Hs Hvalid Hembed Hcreate Hinsert.
  unfold save. rewrite Hs. cbn [negb]. unfold_js.
  rewrite (validateSaveRequest_reads _ Hvalid), Hvalid.
  unfold on_embedding. rewrite Hembed. cbn beta iota.
  unfold on_database. cbn [databaseService]. rewrite Hcreate. cbn beta iota.
  cbn [databaseService]. rewrite Hinsert. cbn beta iota.
  cbn [config initialized embeddingService databaseService calls].
  rewrite Hs, <- !app_assoc. reflexivity.
Qed.

(** [search] validates in the order text, table name, quantity.  On an
    initialized instance the first of the three that is at fault decides the
    error thrown, and nothing is called and nothing changes; when none is at
    fault the first collaborator call is the embedding of the validated
    text. *)
Theorem search_validates_before_any_call (s : t E V) (request : SearchRequest) :
  initialized s = true ->
  match SearchOrder.first_failure request with
  | Some e => search request s = (Throw e, s)
  | None =>
      exists validated rest,
        validateSearchRequest request = Return validated
        /\ calls (snd (search request s))
           = calls s ++ EmbeddingEmbed (qr_text validated) :: rest
  end.
Proof.
  intros Hs. unfold SearchOrder.first_failure, SearchOrder.text_failure, search.
  rewrite Hs. cbn [negb]. unfold_js.
  destruct (read_length (qr_text request)) as [[]|e0] eqn:Hlen;
    cbn [SaveOrder.failure]; [|reflexivity].
  unfold validateSearchRequest.
  destruct (validateText (qr_text request) (lit "Search text")) as [text|e1] eqn:Ht;
    cbn [SaveOrder.failure].
  2:{ apply validateText_throws in Ht as [msg ->]. reflexivity. }
  destruct (validateTableName (qr_tablename request)) as [name|e2] eqn:Hn;
    cbn [SaveOrder.failure].
  2:{ apply validateTableName_throws in Hn as [msg ->]. reflexivity. }
  destruct (validateSearchQuantity (qr_qty request)) as [qty|e3] eqn:Hq;
    cbn [SaveOrder.failure].
  2:{ apply validateSearchQuantity_throws in Hq as [msg ->]. reflexivity. }
  eexists. cbn [qr_text qr_qty qr_tablename].
  unfold on_embedding, on_database.
  repeat next_answer;
    cbn [initialized embeddingService databaseService calls config];
    try match goal with
      | |- context [instanceof_RAGError ?x] => destruct (instanceof_RAGError x)
      end;
    cbn [snd calls]; rewrite <- ?app_assoc; cbn [app];
    eexists; (split; [reflexivity|reflexivity]).
Qed.

(** When validation and the embedding succeed, [search] makes exactly two
    collaborator calls, embed and vector search with the validated name and
    quantity, and returns the list the search service returned, unchanged;
    an empty list is returned like any other. *)
Theorem search_returns_the_service_result
  (s : t E V) (request validated : SearchRequest) (x : vector)
  (ids : list jsvalue) (e1 : E) (v1 : V) :
  initialized s = true ->
  validateSearchRequest request = Return validated ->
  es_embed (qr_text validated) (embeddingService s) = (Return x, e1) ->
  vs_search (qr_tablename validated) x (qr_qty validated) (databaseService s)
    = (Return ids, v1) ->
  search request s
  = (Return ids,
     {| config := config s; initialized := true;
        embeddingService := e1; databaseService := v1;
        calls := calls s ++ [EmbeddingEmbed (qr_text validated);
                             VectorSearch (qr_tablename validated) x
                               (qr_qty validated)] |}).
Proof.
  intros Hs Hvalid Hembed Hsearch.
  unfold search. rewrite Hs. cbn [negb]. unfold_js.
  rewrite (validateSearchRequest_reads _ Hvalid), Hvalid.
  unfold on_embedding. rewrite Hembed. cbn beta iota.
  unfold on_database. cbn [databaseService]. rewrite Hsearch. cbn beta iota.
  cbn [config initialized embeddingService databaseService calls].
  rewrite Hs, <- !app_assoc. reflexivity.
Qed.

(** [initialize] loads the embedding engine first.  If that fails the
    vector store is never opened: the only call made is the engine's
    [initialize], the database service is untouched and the instance stays
    uninitialized.  If the engine loads, the database is opened next, and
    the flag is set exactly when that succeeds too. *)
Theorem initialize_opens_the_store_only_after_the_engine (s : t E V) :
  initialized s = false ->
  let model := modelPath (config s) in
  let path := databasePath (config s) in
  match es_initialize model (embeddingService s) with
  | (Throw e, e1) =>
      exists surfaced,
        initialize s
        = (Throw surfaced,
           {| config := config s; initialized := false;
              embeddingService := e1; databaseService := databaseService s;
              calls := calls s ++ [EmbeddingInitialize model] |})
  | (Return _, e1) =>
      match db_initialize path (databaseService s) with
      | (Throw e, v1) =>
          exists surfaced,
            initialize s
            = (Throw surfaced,
               {| config := config s; initialized := false;
                  embeddingService := e1; databaseService := v1;
                  calls := calls s ++ [EmbeddingInitialize model;
                                       DatabaseInitialize path] |})
      | (Return _, v1) =>
          initialize s
          = (Return tt,
             {| config := config s; initialized := true;
                embeddingService := e1; databaseService := v1;
                calls := calls s ++ [EmbeddingInitialize model;
                                     DatabaseInitialize path] |})
      end
  end.
Proof.
  intros Hs model path. subst model path.
  unfold initialize. rewrite Hs. unfold_js. unfold on_embedding, on_database.
  destruct (es_initialize (modelPath (config s)) (embeddingService s))
    as [[[]|e] e1]; cbn beta iota.
  - cbn [databaseService config].
    destruct (db_initialize (databasePath (config s)) (databaseService s))
      as [[[]|e] v1]; cbn beta iota.
    + unfold with_initialized.
      cbn [config initialized embeddingService databaseService calls].
      rewrite <- app_assoc. reflexivity.
    + cbn [config initialized embeddingService databaseService calls].
      rewrite Hs, <- app_assoc.
      destruct (instanceof_RAGError e); eexists; reflexivity.
  - rewrite Hs. destruct (instanceof_RAGError e); eexists; reflexivity.
Qed.

(** [close] releases the embedding engine first, then the database, and
    clears the flag only when both succeeded.  If the engine's [close]
    throws, the database is not closed; if the database's [close] throws,
    the engine has already been closed; in both cases the instance still
    counts as initialized. *)
Theorem close_clears_the_flag_only_on_full_success (s : t E V) :
  initialized s = true ->
  match es_close (embeddingService s) with
  | (Throw e, e1) =>
      exists surfaced,
        close s
        = (Throw surfaced,
           {| config := config s; initialized := true;
              embeddingService := e1; databaseService := databaseService s;
              calls := calls s ++ [EmbeddingClose] |})
  | (Return _, e1) =>
      match db_close (databaseService s) with
      | (Throw e, v1) =>
          exists surfaced,
            close s
            = (Throw surfaced,
               {| config := config s; initialized := true;
                  embeddingService := e1; databaseService := v1;
                  calls := calls s ++ [EmbeddingClose; DatabaseClose] |})
      | (Return _, v1) =>
          close s
          = (Return tt,
             {| config := config s; initialized := false;
                embeddingService := e1; databaseService := v1;
                calls := calls s ++ [EmbeddingClose; DatabaseClose] |})
      end
  end.
Proof.
  intros Hs. unfold close. rewrite Hs. cbn [negb]. unfold_js.
  unfold on_embedding, on_database.
  destruct (es_close (embeddingService s)) as [[[]|e] e1]; cbn beta iota.
  - cbn [databaseService].
    destruct (db_close (databaseService s)) as [[[]|e] v1]; cbn beta iota.
    + unfold with_initialized.
      cbn [config initialized embeddingService databaseService calls].
      rewrite <- app_assoc. reflexivity.
    + cbn [config initialized embeddingService databaseService calls].
      rewrite Hs, <- app_assoc.
      destruct (instanceof_RAGError e); eexists; reflexivity.
  - rewrite Hs. destruct (instanceof_RAGError e); eexists; reflexivity.
Qed.

(** The flag is a plain boolean: once [close] has succeeded the instance
    behaves like a new one.  Every operation is refused again, and a further
    [initialize] is not a no-op but goes back to the collaborators, starting
    with the embedding engine. *)
Theorem closed_instance_can_be_initialized_again (s s' : t E V) :
  initialized s = true ->
  close s = (Return tt, s') ->
  initialized s' = false
  /\ (forall r, embed r s' = (Throw not_initialized, s'))
  /\ exists rest,
       calls (snd (initialize s'))
       = calls s' ++ EmbeddingInitialize (modelPath (config s')) :: rest.
Proof.
  intros Hs Hclose.
  assert (Hflag : initialized s' = false).
  { unfold close in Hclose. rewrite Hs in Hclose. cbn [negb] in Hclose.
    unfold_js. unfold on_embedding, on_database in Hclose.
    destruct (es_close (embeddingService s)) as [[[]|e] e1]; cbn beta iota in Hclose.
    - cbn [databaseService] in Hclose.
      destruct (db_close (databaseService s)) as [[[]|e] v1]; cbn beta iota in Hclose.
      + inversion Hclose; subst. reflexivity.
      + destruct (instanceof_RAGError e); discriminate.
    - destruct (instanceof_RAGError e); discriminate. }
  split; [exact Hflag|]. split.
  - intros r. unfold embed. rewrite Hflag. reflexivity.
  - unfold initialize. rewrite Hflag. unfold_js. unfold on_embedding, on_database.
    repeat next_answer;
      cbn [initialized embeddingService databaseService calls config];
      try match goal with
        | |- context [instanceof_RAGError ?x] => destruct (instanceof_RAGError x)
        end;
      unfold with_initialized; cbn [snd calls]; rewrite <- ?app_assoc; cbn [app];
      eexists; reflexivity.
Qed.

End PlainRuns.

Section HybridRuns.
Context {E V D : Type} `{EmbeddingService E} `{DatabaseService V}
  `{VectorSearchService V} `{DocumentStore D}.
Import HybridRAGModule.

Local Abbreviation hkeeps := (@same_hybrid_lifecycle E V D).

Lemma same_hybrid_lifecycle_refl (h : t E V D) : hkeeps h h.
Proof. split; reflexivity. Qed.

Lemma same_hybrid_lifecycle_trans (h1 h2 h3 : t E V D) :
  hkeeps h1 h2 -> hkeeps h2 h3 -> hkeeps h1 h3.
Proof. intros [H12 C12] [H23 C23]. split; congruence. Qed.

Lemma hybrid_on_embedding_same_lifecycle {A} (c : Call) (op : E -> completion A * E) :
  preserved hkeeps (on_embedding c op).
Proof.
  intros h. unfold on_embedding. destruct (op (embeddingService h)).
  split; reflexivity.
Qed.

Lemma hybrid_on_vectors_same_lifecycle {A} (c : Call) (op : V -> completion A * V) :
  preserved hkeeps (on_vectors c op).
Proof.
  intros h. unfold on_vectors. destruct (op (vectorDatabase h)).
  split; reflexivity.
Qed.

Lemma hybrid_on_mysql_same_lifecycle {A} (c : Call) (op : D -> completion A * D) :
  preserved hkeeps (on_mysql c op).
Proof.
  intros h. unfold on_mysql. destruct (op (mysqlDatabase h)).
  split; reflexivity.
Qed.

(** The six data operations of the hybrid module never move its lifecycle
    flag either, whatever they are given and whatever fails. *)
Theorem hybrid_operations_keep_the_lifecycle_flag (h : t E V D) :
  (forall r, same_hybrid_lifecycle h (snd (saveDocument r h)))
  /\ (forall r, same_hybrid_lifecycle h (snd (searchDocuments r h)))
  /\ (forall tablename id updates,
        same_hybrid_lifecycle h (snd (updateDocument tablename id updates h)))
  /\ (forall tablename id,
        same_hybrid_lifecycle h (snd (deleteDocument tablename id h)))
  /\ (forall tablename id,
        same_hybrid_lifecycle h (snd (getDocument tablename id h)))
  /\ (forall r, same_hybrid_lifecycle h (snd (embed r h))).
Proof.
  split; [|split; [|split; [|split; [|split]]]]; intros;
    unfold saveDocument, searchDocuments, updateDocument, deleteDocument,
      getDocument, embed;
    (destruct (initialized h); cbn [negb]; [|apply same_hybrid_lifecycle_refl]);
    apply preserved_at;
    repeat first
      [ progress preserve same_hybrid_lifecycle_refl same_hybrid_lifecycle_trans
      | apply hybrid_on_embedding_same_lifecycle
      | apply hybrid_on_vectors_same_lifecycle
      | apply hybrid_on_mysql_same_lifecycle
      | match goal with
        | |- preserved _ (if ?b then _ else _) => destruct b
        end ].
Qed.

Lemma validateSaveDocumentRequest_reads (r validated : SaveDocumentRequest) :
  validateSaveDocumentRequest r = Return validated ->
  read_length (dr_content r) = Return tt.
Proof.
  unfold validateSaveDocumentRequest.
  destruct (validateText (dr_content r) (lit "document content")) eqn:Ht;
    [|discriminate].
  intros _. eapply validateText_accepts_strings_only; eassumption.
Qed.

Lemma hybrid_validateSearchRequest_reads (r validated : HybridSearchRequest) :
  validateSearchRequest r = Return validated -> read_length (hr_text r) = Return tt.
Proof.
  unfold validateSearchRequest.
  destruct (validateText (hr_text r) (lit "search text")) eqn:Ht; [|discriminate].
  intros _. eapply validateText_accepts_strings_only; eassumption.
Qed.

(** When every step succeeds, [saveDocument] returns the id the relational
    insert generated and stores the vector under that very id: the five
    collaborator calls are create documents table, insert document, embed,
    create vector table, insert vector, in this order, the last one keyed by
    the generated id.  What [insertVector] returns is ignored. *)
Theorem saveDocument_reuses_the_generated_id
  (h : t E V D) (request validated : SaveDocumentRequest)
  (id : jsvalue) (x : vector) (b : bool) (d1 d2 : D) (e1 : E) (v1 v2 : V) :
  initialized h = true ->
  validateSaveDocumentRequest request = Return validated ->
  let name := dr_tablename validated in
  let document := {| f_title := dr_title validated;
                     f_content := dr_content validated;
                     f_metadata := dr_metadata validated |} in
  ds_createDocumentsTable name (mysqlDatabase h) = (Return tt, d1) ->
  ds_insertDocument name document d1 = (Return id, d2) ->
  es_embed (dr_content validated) (embeddingService h) = (Return x, e1) ->
  db_createTableIfNotExists name (vectorDatabase h) = (Return tt, v1) ->
  db_insertVector name id x v1 = (Return b, v2) ->
  saveDocument request h
  = (Return id,
     {| config := config h; initialized := true; embeddingService := e1;
        vectorDatabase := v2; mysqlDatabase := d2;
        calls := calls h ++ [CreateDocumentsTable name;
                             InsertDocument name document;
                             EmbeddingEmbed (dr_content validated);
                             CreateTableIfNotExists name;
                             InsertVector name id x] |}).
Proof.
  intros Hh Hvalid name document Htable Hinsert Hembed Hcreate Hvector.
  subst name document.
  unfold saveDocument. rewrite Hh. cbn [negb]. unfold_js.
  rewrite (validateSaveDocumentRequest_reads _ Hvalid), Hvalid.
  unfold on_mysql. rewrite Htable. cbn beta iota zeta.
  cbn [mysqlDatabase]. rewrite Hinsert. cbn beta iota.
  unfold on_embedding. cbn [embeddingService]. rewrite Hembed. cbn beta iota.
  unfold on_vectors. cbn [vectorDatabase]. rewrite Hcreate. cbn beta iota.
  cbn [vectorDatabase]. rewrite Hvector. cbn beta iota.
  cbn [config initialized embeddingService vectorDatabase mysqlDatabase calls].
  rewrite Hh, <- !app_assoc. reflexivity.
Qed.

(** There is no compensation in [saveDocument]: once the relational insert
    has succeeded, whatever fails afterwards, the relational store is left
    as the insert made it.  The calls that follow the insert go to the
    embedding engine and the vector store only; the inserted row is never
    deleted again. *)
Theorem saveDocument_never_undoes_the_insert
  (h : t E V D) (request validated : SaveDocumentRequest)
  (id : jsvalue) (d1 d2 : D) :
  initialized h = true ->
  validateSaveDocumentRequest request = Return validated ->
  let name := dr_tablename validated in
  let document := {| f_title := dr_title validated;
                     f_content := dr_content validated;
                     f_metadata := dr_metadata validated |} in
  ds_createDocumentsTable name (mysqlDatabase h) = (Return tt, d1) ->
  ds_insertDocument name document d1 = (Return id, d2) ->
  mysqlDatabase (snd (saveDocument request h)) = d2
  /\ exists rest,
       calls (snd (saveDocument request h))
       = calls h ++ CreateDocumentsTable name :: InsertDocument name document :: rest
       /\ forallb (fun c => is_embedding_call c || is_vector_store_call c) rest = true.
Proof.
  intros Hh Hvalid name document Htable Hinsert. subst name document.
  unfold saveDocument. rewrite Hh. cbn [negb]. unfold_js.
  rewrite (validateSaveDocumentRequest_reads _ Hvalid), Hvalid.
  unfold on_mysql. rewrite Htable. cbn beta iota zeta.
  cbn [mysqlDatabase]. rewrite Hinsert. cbn beta iota.
  unfold on_embedding, on_vectors.
  repeat next_answer;
    cbn [config initialized embeddingService vectorDatabase mysqlDatabase calls];
    try match goal with
      | |- context [instanceof_RAGError ?x] => destruct (instanceof_RAGError x)
      end;
    cbn [snd calls mysqlDatabase]; rewrite <- ?app_assoc; cbn [app];
    (split; [reflexivity | eexists; split; [reflexivity | reflexivity]]).
Qed.

End HybridRuns.

Section HybridSearch.
Context {E V D : Type} `{EmbeddingService E} `{DatabaseService V}
  `{VectorSearchService V} `{DocumentStore D}.
Import HybridRAGModule.

Lemma map_indexed_length {A B} (f : nat -> A -> B) (k : nat) (l : list A) :
  List.length (map_indexed f k l) = List.length l.
Proof. revert k; induction l as [|x l IH]; intros k; simpl; [|rewrite IH]; reflexivity. Qed.

Lemma map_indexed_nth {A B} (f : nat -> A -> B) (k i : nat) (l : list A) (x : A) :
  nth_error l i = Some x -> nth_error (map_indexed f k l) i = Some (f (k + i)%nat x).
Proof.
  revert k i; induction l as [|y l IH]; intros k [|i]; simpl; try discriminate.
  - intros Heq; inversion Heq; subst. now rewrite Nat.add_0_r.
  - intros Hnth. rewrite (IH (S k) i Hnth). f_equal. f_equal. lia.
Qed.

Lemma validateSearchRequest_keeps_options (r validated : HybridSearchRequest) :
  validateSearchRequest r = Return validated ->
  hr_includeContent validated = hr_includeContent r
  /\ hr_includeMetadata validated = hr_includeMetadata r.
Proof.
  unfold validateSearchRequest.
  destruct (validateText (hr_text r) (lit "search text")); [|discriminate].
  destruct (validateTableName (hr_tablename r)); [|discriminate].
  destruct (validateSearchQuantity (hr_qty r)); [|discriminate].
  intros Heq; inversion Heq; subst. split; reflexivity.
Qed.

(** When the vector search finds nothing, [searchDocuments] returns the
    empty list without asking the relational store: the only calls are the
    embedding and the vector search, and the relational store is untouched. *)
Theorem searchDocuments_without_matches_skips_the_document_store
  (h : t E V D) (request validated : HybridSearchRequest) (x : vector)
  (e1 : E) (v1 : V) :
  initialized h = true ->
  validateSearchRequest request = Return validated ->
  es_embed (hr_text validated) (embeddingService h) = (Return x, e1) ->
  vs_search (hr_tablename validated) x (hr_qty validated) (vectorDatabase h)
    = (Return [], v1) ->
  searchDocuments request h
  = (Return [],
     {| config := config h; initialized := true; embeddingService := e1;
        vectorDatabase := v1; mysqlDatabase := mysqlDatabase h;
        calls := calls h ++ [EmbeddingEmbed (hr_text validated);
                             VectorSearch (hr_tablename validated) x
                               (hr_qty validated)] |}).
Proof.
  intros Hh Hvalid Hembed Hsearch.
  unfold searchDocuments. rewrite Hh. cbn [negb]. unfold_js.
  rewrite (hybrid_validateSearchRequest_reads _ Hvalid), Hvalid.
  unfold on_embedding. rewrite Hembed. cbn beta iota.
  unfold on_vectors. cbn [vectorDatabase]. rewrite Hsearch. cbn beta iota.
  cbn [config initialized embeddingService vectorDatabase mysqlDatabase calls].
  rewrite Hh, <- !app_assoc. reflexivity.
Qed.

(** When the vector search finds ids, [searchDocuments] fetches them from
    the relational store in the order found and turns the rows, one to one
    and in the order the store returned them, into results: the result at
    position [i] carries the id and title of the row at position [i], has
    [similarity_score] [i], and carries the row's content unless
    [includeContent] is [false] (then the empty string) and its metadata
    unless [includeMetadata] is [false] (then [undefined]). *)
Theorem searchDocuments_numbers_results_by_position
  (h : t E V D) (request validated : HybridSearchRequest) (x : vector)
  (id : jsvalue) (ids : list jsvalue) (docs : list DocumentRecord)
  (e1 : E) (v1 : V) (d1 : D) :
  initialized h = true ->
  validateSearchRequest request = Return validated ->
  es_embed (hr_text validated) (embeddingService h) = (Return x, e1) ->
  vs_search (hr_tablename validated) x (hr_qty validated) (vectorDatabase h)
    = (Return (id :: ids), v1) ->
  ds_getDocumentsByIds (hr_tablename validated) (id :: ids) (mysqlDatabase h)
    = (Return docs, d1) ->
  exists results,
    fst (searchDocuments request h) = Return results
    /\ calls (snd (searchDocuments request h))
       = calls h ++ [EmbeddingEmbed (hr_text validated);
                     VectorSearch (hr_tablename validated) x (hr_qty validated);
                     GetDocumentsByIds (hr_tablename validated) (id :: ids)]
    /\ List.length results = List.length docs
    /\ forall i doc,
         nth_error docs i = Some doc ->
         exists r,
           nth_error results i = Some r
           /\ res_id r = doc_id doc
           /\ res_title r = doc_title doc
           /\ res_similarity_score r = i
           /\ res_content r
              = (if not_false (hr_includeContent request)
                 then doc_content doc else JString [])
           /\ res_metadata r
              = (if not_false (hr_includeMetadata request)
                 then doc_metadata doc else JUndefined).
Proof.
  intros Hh Hvalid Hembed Hsearch Hfetch.
  destruct (validateSearchRequest_keeps_options _ Hvalid) as [Hc Hm].
  exists (map_indexed (toSearchResult validated) 0 docs).
  unfold searchDocuments. rewrite Hh. cbn [negb]. unfold_js.
  rewrite (hybrid_validateSearchRequest_reads _ Hvalid), Hvalid.
  unfold on_embedding. rewrite Hembed. cbn beta iota.
  unfold on_vectors. cbn [vectorDatabase]. rewrite Hsearch. cbn beta iota.
  unfold on_mysql. cbn [mysqlDatabase]. rewrite Hfetch. cbn beta iota.
  cbn [fst snd calls]. rewrite <- !app_assoc. cbn [app].
  split; [reflexivity|]. split; [reflexivity|]. split; [apply map_indexed_length|].
  intros i doc Hnth. eexists. split; [exact (map_indexed_nth _ 0 _ _ Hnth)|].
  unfold toSearchResult.
  cbn [res_id res_title res_similarity_score res_content res_metadata].
  rewrite Hc, Hm. repeat split.
Qed.

(** The data operations of the hybrid module surface taxonomy errors only:
    every failure of [updateDocument], [deleteDocument], [getDocument] and
    [embed], and every failure of [saveDocument] and [searchDocuments] on a
    request whose text is neither [undefined] nor [null], is a [RAGError];
    every failure of [initialize] and [close] is a MODEL_LOAD_FAILED
    [RAGError], whatever kind the collaborator's error had. *)
Theorem hybrid_failures_are_taxonomy_errors (h : t E V D) :
  (forall tablename id updates e h',
     updateDocument tablename id updates h = (Throw e, h') ->
     instanceof_RAGError e = true)
  /\ (forall tablename id e h',
     deleteDocument tablename id h = (Throw e, h') -> instanceof_RAGError e = true)
  /\ (forall tablename id e h',
     getDocument tablename id h = (Throw e, h') -> instanceof_RAGError e = true)
  /\ (forall r e h', embed r h = (Throw e, h') -> instanceof_RAGError e = true)
  /\ (forall r e h', read_length (dr_content r) = Return tt ->
     saveDocument r h = (Throw e, h') -> instanceof_RAGError e = true)
  /\ (forall r e h', read_length (hr_text r) = Return tt ->
     searchDocuments r h = (Throw e, h') -> instanceof_RAGError e = true)
  /\ (forall e h', initialize h = (Throw e, h') ->
     error_code e = Some MODEL_LOAD_FAILED)
  /\ (forall e h', close h = (Throw e, h') ->
     error_code e = Some MODEL_LOAD_FAILED).
Proof.
  split; [|split; [|split; [|split; [|split; [|split; [|split]]]]]].
  - intros tablename id updates e h'. unfold updateDocument.
    destruct (initialized h); cbn [negb];
      [|unfold throw; intros Heq; inversion Heq; reflexivity].
    unfold try_catch.
    match goal with
    | |- context [match ?body h with _ => _ end] => destruct (body h) as [[a|e0] h0]
    end; [discriminate | apply rethrow_or_wrap_taxonomy].
  - intros tablename id e h'. unfold deleteDocument.
    destruct (initialized h); cbn [negb];
      [|unfold throw; intros Heq; inversion Heq; reflexivity].
    unfold try_catch.
    match goal with
    | |- context [match ?body h with _ => _ end] => destruct (body h) as [[a|e0] h0]
    end; [discriminate | apply rethrow_or_wrap_taxonomy].
  - intros tablename id e h'. unfold getDocument.
    destruct (initialized h); cbn [negb];
      [|unfold throw; intros Heq; inversion Heq; reflexivity].
    unfold try_catch.
    match goal with
    | |- context [match ?body h with _ => _ end] => destruct (body h) as [[a|e0] h0]
    end; [discriminate | apply rethrow_or_wrap_taxonomy].
  - intros r e h'. unfold embed.
    destruct (initialized h); cbn [negb];
      [|unfold throw; intros Heq; inversion Heq; reflexivity].
    unfold try_catch.
    match goal with
    | |- context [match ?body h with _ => _ end] => destruct (body h) as [[a|e0] h0]
    end; [discriminate | apply rethrow_or_wrap_taxonomy].
  - intros r e h' Hlen. unfold saveDocument.
    destruct (initialized h); cbn [negb];
      [|unfold throw; intros Heq; inversion Heq; reflexivity].
    unfold bind at 1; unfold lift at 1; rewrite Hlen; unfold try_catch.
    match goal with
    | |- context [match ?body h with _ => _ end] => destruct (body h) as [[a|e0] h0]
    end; [discriminate | apply rethrow_or_wrap_taxonomy].
  - intros r e h' Hlen. unfold searchDocuments.
    destruct (initialized h); cbn [negb];
      [|unfold throw; intros Heq; inversion Heq; reflexivity].
    unfold bind at 1; unfold lift at 1; rewrite Hlen; unfold try_catch.
    match goal with
    | |- context [match ?body h with _ => _ end] => destruct (body h) as [[a|e0] h0]
    end; [discriminate | apply rethrow_or_wrap_taxonomy].
  - intros e h'. unfold initialize.
    destruct (initialized h); [discriminate|].
    unfold try_catch.
    match goal with
    | |- context [match ?body h with _ => _ end] => destruct (body h) as [[a|e0] h0]
    end; [discriminate|].
    unfold always_wrap, throw, wrap. intros Heq; inversion Heq; reflexivity.
  - intros e h'. unfold close.
    destruct (initialized h); cbn [negb]; [|discriminate].
    unfold try_catch.
    match goal with
    | |- context [match ?body h with _ => _ end] => destruct (body h) as [[a|e0] h0]
    end; [discriminate|].
    unfold always_wrap, throw, wrap. intros Heq; inversion Heq; reflexivity.
Qed.

End HybridSearch.

Section ControlCharacters.
Context {E V : Type} `{EmbeddingService E}.
Import RAGModule.

(** Sanitising comes after validating.  A text made of control characters
    that [trim] does not remove passes [validateText] and is then emptied by
    [sanitizeText]: on an initialized instance [embed] hands the embedding
    engine the empty string. *)
Theorem control_characters_reach_the_engine_as_empty_text
  (s : t E V) (text : jsstring) :
  initialized s = true ->
  text <> [] ->
  (str_length text <= MAX_TEXT_LENGTH)%Z ->
  Forall (fun c => isControl c = true /\ isWhiteSpace c = false) text ->
  validateEmbedRequest {| er_text := JString text |}
    = Return {| er_text := JString [] |}
  /\ calls (snd (embed {| er_text := JString text |} s))
     = calls s ++ [EmbeddingEmbed (JString [])].
Proof.
  intros Hs Hne Hlen Hall.
  assert (Htrim : trim text = text).
  { apply trim_fixed. eapply Forall_impl; [|exact Hall]. intros c [_ Hc]. exact Hc. }
  assert (Hclean : sanitizeText text = []).
  { unfold sanitizeText. clear Hne Hlen Htrim.
    induction Hall as [|c l [Hc _] _ IH]; [reflexivity|].
    simpl. rewrite Hc. exact IH. }
  assert (Hvalid : validateEmbedRequest {| er_text := JString text |}
                   = Return {| er_text := JString [] |}).
  { unfold validateEmbedRequest, validateText. cbn [er_text].
    destruct (str_length text =? 0)%Z eqn:H0;
      [apply str_length_zero in H0; contradiction|].
    rewrite Htrim, H0.
    destruct (str_length text >? MAX_TEXT_LENGTH)%Z eqn:H1;
      [rewrite Z.gtb_ltb, Z.ltb_lt in H1; lia|].
    now rewrite Hclean. }
  split; [exact Hvalid|].
  unfold embed. rewrite Hs. cbn [negb]. unfold_js. cbn [er_text read_length].
  rewrite Hvalid. unfold on_embedding. cbn [er_text].
  destruct (es_embed (JString []) (embeddingService s)) as [[x|e] e1];
    cbn beta iota; [reflexivity|].
  destruct (instanceof_RAGError e); reflexivity.
Qed.

End ControlCharacters.

(* ===================================================================== *)
(** * Properties of validateVector, validateConfig and the constructor *)
(* ===================================================================== *)

Section Vectors.
Import ConfigAndVectors.

Lemma checkElements_none (i : nat) (elements : list jsvalue) :
  checkElements i elements = None <-> Forall finite_number elements.
Proof.
  revert i; induction elements as [|v rest IH]; intros i; simpl.
  - split; [constructor | reflexivity].
  - destruct v as [| | |n| |];
      try (split; [discriminate | intros Hall; inversion Hall as [|? ? [n' [Heq _]] _];
                                  discriminate]).
    destruct (isFiniteNumber n) eqn:Hn.
    + rewrite IH. split.
      * intros Hrest. constructor; [exists n; auto | assumption].
      * intros Hall. now inversion Hall.
    + split; [discriminate|].
      intros Hall. inversion Hall as [|? ? [n' [Heq Hn']] _].
      inversion Heq; subst. congruence.
Qed.

Lemma checkElements_some (i : nat) (elements : list jsvalue) (e : JSError) :
  checkElements i elements = Some e ->
  exists k v,
    nth_error elements k = Some v
    /\ ~ finite_number v
    /\ (forall j w, (j < k)%nat -> nth_error elements j = Some w -> finite_number w)
    /\ (e = invalid (lit "Vector element at index " ++ index_text (i + k)
                     ++ lit " must be a number")
        \/ e = invalid (lit "Vector element at index " ++ index_text (i + k)
                        ++ lit " must be a finite number")).
Proof.
  revert i; induction elements as [|v rest IH]; intros i; simpl; [discriminate|].
  assert (Hhere : forall msg,
    ~ finite_number v ->
    (msg = lit " must be a number" \/ msg = lit " must be a finite number") ->
    Some (invalid (lit "Vector element at index " ++ index_text i ++ msg)) = Some e ->
    exists k w,
      nth_error (v :: rest) k = Some w /\ ~ finite_number w
      /\ (forall j x, (j < k)%nat -> nth_error (v :: rest) j = Some x -> finite_number x)
      /\ (e = invalid (lit "Vector element at index " ++ index_text (i + k)
                       ++ lit " must be a number")
          \/ e = invalid (lit "Vector element at index " ++ index_text (i + k)
                          ++ lit " must be a finite number"))).
  { intros msg Hbad Hmsg Heq. inversion Heq; subst e. exists 0%nat, v.
    rewrite Nat.add_0_r. split; [reflexivity|]. split; [assumption|]. split.
    - intros j x Hj. lia.
    - destruct Hmsg as [-> | ->]; [left | right]; reflexivity. }
  destruct v as [| | |n| |];
    try (apply Hhere; [intros [n' [Hv _]]; discriminate | left; reflexivity]).
  destruct (isFiniteNumber n) eqn:Hn.
  - intros Hrest. destruct (IH (S i) Hrest) as [k [w [Hnth [Hbad [Hbefore Hmsg]]]]].
    exists (S k), w. split; [exact Hnth|]. split; [exact Hbad|]. split.
    + intros [|j] x Hj Hx; simpl in Hx.
      * inversion Hx; subst. exists n. auto.
      * apply (Hbefore j); [lia | assumption].
    + replace (i + S k)%nat with (S i + k)%nat by lia. exact Hmsg.
  - apply Hhere; [|right; reflexivity].
    intros [n' [Hv Hn']]. inversion Hv; subst. congruence.
Qed.

(** [validateVector] returns an array exactly when it has between 1 and
    10,000 elements, all of them finite numbers, and then returns that same
    array; everything else, a value that is not an array included, is
    refused with an INVALID_INPUT error. *)
Theorem validateVector_accepts_exactly_finite_vectors
  (vector : maybe_array) (result : list jsvalue) :
  (validateVector vector = Return result
   <-> vector = IsArray result
       /\ (1 <= Z.of_nat (List.length result) <= 10000)%Z
       /\ Forall finite_number result)
  /\ (forall e, validateVector vector = Throw e ->
                exists msg, e = RAGError msg INVALID_INPUT None).
Proof.
  unfold validateVector. split; [split|].
  - destruct vector as [v|elements]; [discriminate|].
    destruct (Z.of_nat (List.length elements) =? 0)%Z eqn:H0; [discriminate|].
    destruct (Z.of_nat (List.length elements) >? 10000)%Z eqn:H1; [discriminate|].
    destruct (checkElements 0 elements) eqn:Hc; [discriminate|].
    intros Heq; inversion Heq; subst. split; [reflexivity|]. split.
    + rewrite Z.eqb_neq in H0. rewrite Z.gtb_ltb, Z.ltb_ge in H1. lia.
    + now apply (checkElements_none 0).
  - intros [-> [[Hlo Hhi] Hall]].
    destruct (Z.of_nat (List.length result) =? 0)%Z eqn:H0;
      [rewrite Z.eqb_eq in H0; lia|].
    destruct (Z.of_nat (List.length result) >? 10000)%Z eqn:H1;
      [rewrite Z.gtb_ltb, Z.ltb_lt in H1; lia|].
    apply (checkElements_none 0) in Hall. now rewrite Hall.
  - intros e. destruct vector as [v|elements].
    + intros Heq; inversion Heq. eexists; reflexivity.
    + destruct (Z.of_nat (List.length elements) =? 0)%Z;
        [intros Heq; inversion Heq; eexists; reflexivity|].
      destruct (Z.of_nat (List.length elements) >? 10000)%Z;
        [intros Heq; inversion Heq; eexists; reflexivity|].
      destruct (checkElements 0 elements) eqn:Hc; [|discriminate].
      intros Heq; inversion Heq; subst.
      destruct (checkElements_some _ _ Hc) as [k [v [_ [_ [_ [-> | ->]]]]]];
        eexists; reflexivity.
Qed.

(** When an array of admissible length is refused, the error names the
    first element that is not a finite number: every element before the
    reported index is a finite number, the one at the index is not, and the
    message carries that index in decimal. *)
Theorem validateVector_reports_the_first_offending_index
  (elements : list jsvalue) (e : JSError) :
  (1 <= Z.of_nat (List.length elements) <= 10000)%Z ->
  validateVector (IsArray elements) = Throw e ->
  exists i v,
    nth_error elements i = Some v
    /\ ~ finite_number v
    /\ (forall j w, (j < i)%nat -> nth_error elements j = Some w -> finite_number w)
    /\ (e = invalid (lit "Vector element at index " ++ index_text i
                     ++ lit " must be a number")
        \/ e = invalid (lit "Vector element at index " ++ index_text i
                        ++ lit " must be a finite number")).
Proof.
  intros [Hlo Hhi]. unfold validateVector.
  destruct (Z.of_nat (List.length elements) =? 0)%Z eqn:H0;
    [rewrite Z.eqb_eq in H0; lia|].
  destruct (Z.of_nat (List.length elements) >? 10000)%Z eqn:H1;
    [rewrite Z.gtb_ltb, Z.ltb_lt in H1; lia|].
  destruct (checkElements 0 elements) eqn:Hc; [|discriminate].
  intros Heq; inversion Heq; subst.
  exact (checkElements_some _ _ Hc).
Qed.

End Vectors.

Section Configuration.
Import ConfigAndVectors.

Lemma validatePath_shape (props : list (jsstring * jsvalue)) (key label : string)
  (r : list (jsstring * jsvalue)) :
  validatePath props key label = Return r ->
  r = [] \/ exists t, r = [(lit key, JString t)] /\ t <> [] /\ trim t = t.
Proof.
  unfold validatePath. destruct (get props (lit key)) as [| | | |path|];
    try discriminate.
  - intros Heq; inversion Heq. left; reflexivity.
  - destruct (str_length (trim path) =? 0)%Z eqn:H0; [discriminate|].
    intros Heq; inversion Heq; subst. right. exists (trim path).
    split; [reflexivity|]. split; [|apply trim_idempotent].
    intros Hnil. apply str_length_zero in Hnil. congruence.
Qed.

Lemma validateLogLevel_shape (props r : list (jsstring * jsvalue)) :
  validateLogLevel props = Return r ->
  r = [] \/ exists l, r = [(lit "logLevel", JString l)]
                      /\ includes validLogLevels l = true.
Proof.
  unfold validateLogLevel. destruct (get props (lit "logLevel")) as [| | | |level|];
    try discriminate.
  - intros Heq; inversion Heq. left; reflexivity.
  - destruct (includes validLogLevels level) eqn:Hl; [|discriminate].
    intros Heq; inversion Heq; subst. right. exists level. auto.
Qed.

Lemma validateConfig_shape (config : jsvalue) (props : list (jsstring * jsvalue)) :
  validateConfig config = Return props ->
  exists model database level,
    props = model ++ database ++ level
    /\ (model = [] \/ exists t, model = [(lit "modelPath", JString t)]
                               /\ t <> [] /\ trim t = t)
    /\ (database = [] \/ exists t, database = [(lit "databasePath", JString t)]
                                  /\ t <> [] /\ trim t = t)
    /\ (level = [] \/ exists l, level = [(lit "logLevel", JString l)]
                               /\ includes validLogLevels l = true).
Proof.
  unfold validateConfig. destruct config as [| | | | |obj]; try discriminate;
    try (intros Heq; inversion Heq; exists [], [], []; repeat split; left; reflexivity).
  destruct (validatePath obj "modelPath" "Model path") as [model|] eqn:Hm; [|discriminate].
  destruct (validatePath obj "databasePath" "Database path") as [database|] eqn:Hd;
    [|discriminate].
  destruct (validateLogLevel obj) as [level|] eqn:Hl; [|discriminate].
  intros Heq; inversion Heq; subst.
  exists model, database, level. split; [reflexivity|].
  split; [exact (validatePath_shape _ _ _ Hm)|].
  split; [exact (validatePath_shape _ _ _ Hd) | exact (validateLogLevel_shape _ Hl)].
Qed.

Ltac config_cases Hshape :=
  destruct Hshape as [model [database [level [-> [Hm [Hd Hl]]]]]];
  destruct Hm as [-> | [tm [-> [Hm1 Hm2]]]];
  destruct Hd as [-> | [td [-> [Hd1 Hd2]]]];
  destruct Hl as [-> | [l [-> Hl]]].

(** What [validateConfig] returns holds nothing but the recognised
    settings: a [modelPath] and a [databasePath] that are non-empty strings
    without surrounding white space, and a [logLevel] among debug, info,
    warn and error; unknown keys are gone.  Validating the returned object
    again returns it unchanged. *)
Theorem validateConfig_keeps_known_settings_and_is_stable
  (config : jsvalue) (props : list (jsstring * jsvalue)) :
  validateConfig config = Return props ->
  (forall k v, In (k, v) props ->
     ((k = lit "modelPath" \/ k = lit "databasePath")
      /\ exists s, v = JString s /\ s <> [] /\ trim s = s)
     \/ (k = lit "logLevel"
         /\ exists level, v = JString level /\ In level validLogLevels))
  /\ validateConfig (JObject props) = Return props.
Proof.
  intros Hvalid. pose proof (validateConfig_shape _ Hvalid) as Hshape.
  config_cases Hshape; (split;
    [ intros k v Hin; simpl in Hin;
      repeat match goal with
        | Hor : _ \/ _ |- _ => destruct Hor as [Hor | Hor]
        | Hf : False |- _ => destruct Hf
        | Heq : (_, _) = (_, _) |- _ => inversion Heq; subst; clear Heq
        end;
      first [ left; split; [left; reflexivity | eexists; repeat split; eassumption]
            | left; split; [right; reflexivity | eexists; repeat split; eassumption]
            | right; split; [reflexivity
                            | eexists; split; [reflexivity | now apply includes_In]] ]
    | unfold validateConfig, validatePath, validateLogLevel; cbn [app get];
      repeat match goal with
        | |- context [str_eqb (lit ?a) (lit ?b)] =>
            let r := eval vm_compute in (str_eqb (lit a) (lit b)) in
            change (str_eqb (lit a) (lit b)) with r; cbn beta iota
        end;
      rewrite ?Hm2, ?Hd2, ?Hl;
      repeat match goal with
        | Hne : ?t <> [] |- context [(str_length ?t =? 0)%Z] =>
            let H0 := fresh in
            destruct (str_length t =? 0)%Z eqn:H0;
              [apply str_length_zero in H0; contradiction|]
        end;
      reflexivity ]).
Qed.

(** The configuration a new [RAGModule] works with never has an empty
    path: each of [modelPath] and [databasePath] is either the trimmed,
    non-empty string the caller gave or the default, and the log level is
    one of the four levels; without a configuration all three are the
    defaults. *)
Theorem constructor_fills_in_defaults
  (config : jsvalue) (cfg : RAGModuleConfig) (level : jsstring) :
  constructor config = Return (cfg, level) ->
  modelPath cfg <> [] /\ trim (modelPath cfg) = modelPath cfg
  /\ databasePath cfg <> [] /\ trim (databasePath cfg) = databasePath cfg
  /\ In level validLogLevels
  /\ constructor JUndefined
     = Return ({| modelPath := lit "./nomic-embed-text-v1.5.Q5_K_M.gguf";
                  databasePath := lit "./rag.db" |}, lit "info").
Proof.
  unfold constructor.
  destruct (validateConfig config) as [props|] eqn:Hvalid; [|discriminate].
  pose proof (validateConfig_shape _ Hvalid) as Hshape.
  intros Heq; inversion Heq; subst cfg level; clear Heq.
  config_cases Hshape;
    cbn [app get modelPath databasePath];
    repeat match goal with
      | |- context [str_eqb (lit ?a) (lit ?b)] =>
          let r := eval vm_compute in (str_eqb (lit a) (lit b)) in
          change (str_eqb (lit a) (lit b)) with r; cbn beta iota
      end;
    unfold or_default, truthy;
    repeat match goal with
      | Hne : ?t <> [] |- context [(str_length ?t =? 0)%Z] =>
          let H0 := fresh in
          destruct (str_length t =? 0)%Z eqn:H0;
            [apply str_length_zero in H0; contradiction|]
      end;
    cbn [negb];
    repeat match goal with
      | |- _ /\ _ => split
      end;
    try assumption; try discriminate; try reflexivity;
    try (apply includes_In; first [assumption | reflexivity]).
  all: destruct (negb (str_length l =? 0)%Z); apply includes_In;
    first [assumption | reflexivity].
Qed.

End Configuration.

(* ===================================================================== *)
(** * Properties of the service classes *)
(* ===================================================================== *)

Section SearchService.
Context {V : Type} `{DatabaseService V}.
Import SQLiteVectorSearchService.

(** What [validateSearchInputs] lets through, for a string name and an
    integer limit. *)
Lemma validateSearchInputs_accepts (name : jsstring) (q : vector) (z : Z) :
  validateSearchInputs (JString name) q (JNumber (NumInt z)) = Return tt
  <-> Grammar.matches name /\ (str_length name <= 64)%Z /\ q <> []
      /\ forallb (fun val => negb (ConfigAndVectors.isNaNNumber val)) q = true
      /\ (1 <= z <= 1000)%Z.
Proof.
  unfold validateSearchInputs. cbn [truthy]. split.
  - destruct (str_length name =? 0)%Z eqn:H0; cbn [negb]; [discriminate|].
    destruct (str_length (trim name) =? 0)%Z eqn:H1; [discriminate|].
    destruct (TABLE_NAME_REGEX_test name) eqn:Hre; cbn [negb orb]; [|discriminate].
    destruct (str_length name >? 64)%Z eqn:H2; [discriminate|].
    destruct (Z.of_nat (List.length q) =? 0)%Z eqn:H3; [discriminate|].
    destruct (forallb _ q) eqn:H4; cbn [negb]; [|discriminate].
    destruct (z <=? 0)%Z eqn:H5; [discriminate|].
    destruct (z >? 1000)%Z eqn:H6; [discriminate|].
    intros _. repeat split.
    + now apply TABLE_NAME_REGEX_matches.
    + rewrite Z.gtb_ltb, Z.ltb_ge in H2. exact H2.
    + intros ->. discriminate.
    + rewrite Z.leb_gt in H5. lia.
    + rewrite Z.gtb_ltb, Z.ltb_ge in H6. exact H6.
  - intros [Hm [Hlen [Hq [Hnan [Hlo Hhi]]]]].
    pose proof (matches_trim Hm) as Htrim.
    pose proof (proj2 (TABLE_NAME_REGEX_matches name) Hm) as Hre.
    assert (H0 : (str_length name =? 0)%Z = false).
    { destruct Hm as [c [rest [-> _]]]. reflexivity. }
    rewrite H0, Htrim, H0, Hre, Hnan. cbn [negb orb].
    destruct (str_length name >? 64)%Z eqn:H2;
      [rewrite Z.gtb_ltb, Z.ltb_lt in H2; lia|].
    destruct (Z.of_nat (List.length q) =? 0)%Z eqn:H3.
    { rewrite Z.eqb_eq in H3. destruct q; [contradiction | simpl in H3; lia]. }
    destruct (z <=? 0)%Z eqn:H5; [rewrite Z.leb_le in H5; lia|].
    destruct (z >? 1000)%Z eqn:H6; [rewrite Z.gtb_ltb, Z.ltb_lt in H6; lia|].
    reflexivity.
Qed.

(** The layers agree on what the orchestrator lets through: a table name
    returned by [validateTableName] and a quantity returned by
    [validateSearchQuantity] pass the checks the search service repeats on
    them, for every non-empty query vector without NaN, and the name passes
    [isValidTableName] of the database. *)
Theorem validated_requests_pass_the_lower_layers
  (tablename qty : jsvalue) (name : jsstring) (limit : jsvalue) (q : vector) :
  validateTableName tablename = Return name ->
  validateSearchQuantity qty = Return limit ->
  q <> [] ->
  forallb (fun val => negb (ConfigAndVectors.isNaNNumber val)) q = true ->
  validateSearchInputs (JString name) q limit = Return tt
  /\ SQLiteVectorDatabaseMethods.isValidTableName name = true.
Proof.
  intros Hname Hqty Hq Hnan.
  assert (Hacc : Grammar.matches name /\ (str_length name <= 64)%Z).
  { destruct tablename as [| | | |s|]; try discriminate.
    destruct (validateTableName_cases s) as [[[Hm [Hlen _]] Hret] | [_ [msg Hmsg]]];
      [|congruence].
    rewrite Hret in Hname. inversion Hname; subst.
    split; [assumption | unfold str_length; lia]. }
  destruct Hacc as [Hm Hlen].
  assert (Hlimit : exists z, limit = JNumber (NumInt z) /\ (1 <= z <= 1000)%Z).
  { unfold validateSearchQuantity, MIN_SEARCH_QUANTITY, MAX_SEARCH_QUANTITY in Hqty.
    destruct qty as [| | |[z|bits]| |]; try discriminate.
    destruct (z <? 1)%Z eqn:Hlo; [discriminate|].
    destruct (z >? 1000)%Z eqn:Hhi; [discriminate|].
    inversion Hqty; subst. exists z. split; [reflexivity|].
    rewrite Z.ltb_ge in Hlo. rewrite Z.gtb_ltb, Z.ltb_ge in Hhi. lia. }
  destruct Hlimit as [z [-> Hz]]. split.
  - apply validateSearchInputs_accepts. auto.
  - unfold SQLiteVectorDatabaseMethods.isValidTableName.
    rewrite (proj2 (TABLE_NAME_REGEX_matches name) Hm). cbn [andb].
    now apply Z.leb_le.
Qed.

(** The search service validates before it queries: when
    [validateSearchInputs] refuses, the database service is not called and
    is left as it was.  Every failure of [search] is a taxonomy error, and a
    successful query's ids are returned as the database gave them. *)
Theorem search_service_validates_before_it_queries
  (tablename : jsvalue) (q : vector) (limit : jsvalue) (v : V) :
  (forall e, validateSearchInputs tablename q limit = Throw e ->
     exists e', search tablename q limit v = (Throw e', v)
                /\ instanceof_RAGError e' = true)
  /\ (forall e v', search tablename q limit v = (Throw e, v') ->
        instanceof_RAGError e = true)
  /\ (forall ids v', validateSearchInputs tablename q limit = Return tt ->
        db_searchSimilar tablename q limit v = (Return ids, v') ->
        search tablename q limit v = (Return ids, v')).
Proof.
  unfold search. split; [|split].
  - intros e He. unfold_js. rewrite He.
    destruct (instanceof_RAGError e) eqn:Hrag; eexists; split;
      try reflexivity; assumption.
  - intros e v'. unfold try_catch.
    match goal with
    | |- context [match ?body v with _ => _ end] => destruct (body v) as [[a|e0] v0]
    end; [discriminate | apply rethrow_or_wrap_taxonomy].
  - intros ids v' Hvalid Hquery. unfold_js. rewrite Hvalid, Hquery. reflexivity.
Qed.

End SearchService.

Section DatabaseMethods.
Context {S : Type} `{SQLiteVectorDatabase.Sqlite3 S}
  `{SQLiteVectorDatabaseMethods.Sqlite3Statements S}.
Variable numberToString : jsnumber -> jsstring.
Import SQLiteVectorDatabaseMethods.

(** The statement methods of the vector database refuse, without a word to
    the driver, both an instance that is not open (DATABASE_CONNECTION_FAILED)
    and a table name outside the grammar or longer than 64 (INVALID_INPUT);
    and [insertVector] never returns [false]: it returns [true] or throws. *)
Theorem database_methods_refuse_without_touching_the_driver
  (s : SQLiteVectorDatabase.t S) (tablename : jsstring) (id : jsnumber)
  (x : vector) (limit : jsvalue) :
  (unusable s = true ->
     createTableIfNotExists tablename s = (Throw not_initialized, s)
     /\ insertVector numberToString tablename id x s = (Throw not_initialized, s)
     /\ searchSimilar tablename x limit s = (Throw not_initialized, s))
  /\ (unusable s = false -> isValidTableName tablename = false ->
     createTableIfNotExists tablename s = (Throw invalid_table_name, s)
     /\ insertVector numberToString tablename id x s = (Throw invalid_table_name, s)
     /\ searchSimilar tablename x limit s = (Throw invalid_table_name, s))
  /\ (forall b s', insertVector numberToString tablename id x s = (Return b, s') ->
                   b = true).
Proof.
  unfold createTableIfNotExists, insertVector, searchSimilar, throw.
  split; [|split].
  - intros Hu. rewrite Hu. repeat split.
  - intros Hu Hname. rewrite Hu, Hname. repeat split.
  - intros b s'. destruct (unusable s); [discriminate|].
    destruct (negb (isValidTableName tablename)); [discriminate|].
    destruct (sqlite_run (InsertOrReplace tablename id x) (SQLiteVectorDatabase.driver s))
      as [[msg|] d]; [discriminate|].
    intros Heq; inversion Heq; reflexivity.
Qed.

(** Opening and closing the vector database.  A successful [initialize]
    leaves the instance open on the given path; a second [initialize] with
    the same path is a no-op that does not reach the driver; a successful
    [close] drops the handle and the flag, after which the statement methods
    refuse again; and [close] on an instance without a handle is a no-op. *)
Theorem database_opens_once_and_closes
  (s : SQLiteVectorDatabase.t S) (path : jsstring) (d1 d2 d3 : S) :
  SQLiteVectorDatabase.initialized s = false ->
  SQLiteVectorDatabase.sqlite_open path (SQLiteVectorDatabase.driver s) = (None, d1) ->
  SQLiteVectorDatabase.sqlite_loadExtension d1 = (None, d2) ->
  sqlite_close d2 = (None, d3) ->
  let opened := {| SQLiteVectorDatabase.db := Some path;
                   SQLiteVectorDatabase.databasePath := path;
                   SQLiteVectorDatabase.initialized := true;
                   SQLiteVectorDatabase.driver := d2 |} in
  let closed := {| SQLiteVectorDatabase.db := None;
                   SQLiteVectorDatabase.databasePath := path;
                   SQLiteVectorDatabase.initialized := false;
                   SQLiteVectorDatabase.driver := d3 |} in
  SQLiteVectorDatabase.initialize path s = (Return tt, opened)
  /\ SQLiteVectorDatabase.initialize path opened = (Return tt, opened)
  /\ close opened = (Return tt, closed)
  /\ close closed = (Return tt, closed)
  /\ (forall tablename, createTableIfNotExists tablename closed
                        = (Throw not_initialized, closed)).
Proof.
  intros Hs Hopen Hload Hclose opened closed. subst opened closed.
  split; [|split; [|split; [|split]]].
  - unfold SQLiteVectorDatabase.initialize. rewrite Hs. cbn [andb].
    unfold_js. unfold SQLiteVectorDatabase.connect.
    cbn [SQLiteVectorDatabase.driver]. rewrite Hopen. cbn beta iota.
    unfold SQLiteVectorDatabase.loadVectorExtension.
    cbn [SQLiteVectorDatabase.db SQLiteVectorDatabase.driver]. rewrite Hload.
    reflexivity.
  - unfold SQLiteVectorDatabase.initialize.
    cbn [SQLiteVectorDatabase.initialized SQLiteVectorDatabase.databasePath andb].
    rewrite (proj2 (str_eqb_eq path path) eq_refl). reflexivity.
  - unfold close. cbn [SQLiteVectorDatabase.db SQLiteVectorDatabase.driver].
    rewrite Hclose. reflexivity.
  - reflexivity.
  - intros tablename. reflexivity.
Qed.

End DatabaseMethods.

Section EmbeddingEngine.
Context {L : Type} `{NoMicEmbeddingService.Llama L}.
Variable fround : jsnumber -> jsnumber.
Import NoMicEmbeddingService.

(** [embed] of the embedding service refuses without calling the library:
    an engine that is not initialized or has no context gives
    MODEL_LOAD_FAILED, and on a loaded engine a falsy text or a string that
    trims to nothing gives INVALID_INPUT; the service and the library are
    left as they were. *)
Theorem engine_refuses_without_computing (s : t L) (text : jsvalue) :
  (initialized s = false \/ embeddingContext s = None ->
     embed fround text s = (Throw engine_not_initialized, s))
  /\ (initialized s = true -> embeddingContext s <> None ->
      truthy text = false \/ (exists str, text = JString str /\ trim str = []) ->
      embed fround text s = (Throw empty_text_input, s)).
Proof.
  unfold embed, throw, engine_not_initialized, empty_text_input. split.
  - intros [Hi | Hc].
    + rewrite Hi. reflexivity.
    + rewrite Hc. rewrite orb_true_r. reflexivity.
  - intros Hi Hc Htext. rewrite Hi.
    destruct (embeddingContext s) as [ctx|]; [|contradiction]. cbn [negb orb].
    destruct Htext as [Hfalsy | [str [-> Hblank]]].
    + rewrite Hfalsy. reflexivity.
    + destruct (negb (truthy (JString str))); [reflexivity|].
      rewrite Hblank. reflexivity.
Qed.

(** A failed [initialize] unloads the engine, even one that had been
    working with another model: afterwards the flag is down and model and
    context are gone, the error is a MODEL_LOAD_FAILED taxonomy error, and
    [embed] refuses every text. *)
Theorem failed_initialize_unloads_the_engine
  (s s' : t L) (path : jsstring) (e : JSError) :
  initialize path s = (Throw e, s') ->
  initialized s' = false /\ model s' = None /\ embeddingContext s' = None
  /\ error_code e = Some MODEL_LOAD_FAILED
  /\ forall text, embed fround text s' = (Throw engine_not_initialized, s').
Proof.
  unfold initialize.
  destruct (initialized s && str_eqb (modelPath s) path); [discriminate|].
  unfold try_catch at 1.
  match goal with
  | |- context [match ?body s with _ => _ end] => destruct (body s) as [[a|e0] s0]
  end; [discriminate|].
  intros Heq; inversion Heq; subst; clear Heq.
  cbn [initialized model embeddingContext]. repeat split.
Qed.

End EmbeddingEngine.

Section EngineBehindTheModule.
Context {L V : Type} `{NoMicEmbeddingService.Llama L}.
Variable fround : jsnumber -> jsnumber.

Let engine : EmbeddingService (NoMicEmbeddingService.t L) :=
  NoMicEmbeddingService.service fround.
#[local] Existing Instance engine.

Lemma control_text_validates_to_nothing (text fieldName : jsstring) :
  text <> [] ->
  (str_length text <= MAX_TEXT_LENGTH)%Z ->
  Forall (fun c => isControl c = true /\ isWhiteSpace c = false) text ->
  validateText (JString text) fieldName = Return text /\ sanitizeText text = [].
Proof.
  intros Hne Hlen Hall. split.
  - assert (Htrim : trim text = text).
    { apply trim_fixed. eapply Forall_impl; [|exact Hall]. intros c [_ Hc]. exact Hc. }
    unfold validateText.
    destruct (str_length text =? 0)%Z eqn:H0;
      [apply str_length_zero in H0; contradiction|].
    rewrite Htrim, H0.
    destruct (str_length text >? MAX_TEXT_LENGTH)%Z eqn:H1;
      [rewrite Z.gtb_ltb, Z.ltb_lt in H1; lia | reflexivity].
  - unfold sanitizeText. clear Hne Hlen.
    induction Hall as [|c l [Hc _] _ IH]; [reflexivity|].
    simpl. rewrite Hc. exact IH.
Qed.

(** With the real embedding service behind the plain module, a text of
    control characters that [trim] keeps is accepted by the module's own
    validation, emptied by the sanitising, and then refused by the service:
    [embed] throws the service's INVALID_INPUT error "Text input cannot be
    empty", unchanged, and the library is not called. *)
Theorem control_characters_are_refused_by_the_engine
  (s : RAGModule.t (NoMicEmbeddingService.t L) V) (text : jsstring) :
  RAGModule.initialized s = true ->
  NoMicEmbeddingService.initialized (RAGModule.embeddingService s) = true ->
  NoMicEmbeddingService.embeddingContext (RAGModule.embeddingService s) <> None ->
  text <> [] ->
  (str_length text <= MAX_TEXT_LENGTH)%Z ->
  Forall (fun c => isControl c = true /\ isWhiteSpace c = false) text ->
  RAGModule.embed {| er_text := JString text |} s
  = (Throw (RAGError (lit "Text input cannot be empty") INVALID_INPUT None),
     {| RAGModule.config := RAGModule.config s; RAGModule.initialized := true;
        RAGModule.embeddingService := RAGModule.embeddingService s;
        RAGModule.databaseService := RAGModule.databaseService s;
        RAGModule.calls := RAGModule.calls s ++ [EmbeddingEmbed (JString [])] |}).
Proof.
  intros Hs Hi Hc Hne Hlen Hall.
  destruct (control_text_validates_to_nothing (lit "text") Hne Hlen Hall)
    as [Hvalid Hclean].
  unfold RAGModule.embed. rewrite Hs. cbn [negb]. unfold_js.
  cbn [er_text read_length].
  unfold RAGModule.validateEmbedRequest. cbn [er_text]. rewrite Hvalid, Hclean.
  unfold RAGModule.on_embedding. cbn [er_text].
  change (@es_embed _ engine) with (@NoMicEmbeddingService.embed L _ fround).
  unfold NoMicEmbeddingService.embed. rewrite Hi.
  destruct (NoMicEmbeddingService.embeddingContext (RAGModule.embeddingService s));
    [|contradiction].
  cbn. rewrite Hs. reflexivity.
Qed.

End EngineBehindTheModule.

Section RelationalStore.
Context {P : Type} `{MySQLDatabaseMethods.MySQL P}.
Variable JSON_stringify : jsvalue -> completion jsvalue.
Variable JSON_parse : jsvalue -> completion jsvalue.
Variable toText : jsvalue -> jsstring.
Import MySQLDatabaseMethods.

(** Requests that never reach the pool.  Before [initialize] every data
    method of the relational store throws DATABASE_CONNECTION_FAILED "MySQL
    database not initialized", whatever it is given; on a connected store an
    update set with no field present returns [false] and a fetch of no ids
    returns the empty list.  In all these cases the store and the driver are
    left as they were. *)
Theorem relational_requests_that_never_reach_the_pool
  (s : t P) (tableName id : jsvalue) (argument : FieldsArgument)
  (document : DocumentFields) (ids : list jsvalue) :
  (unusable s = true ->
     createDocumentsTable toText tableName s = (Throw not_initialized, s)
     /\ insertDocument JSON_stringify toText tableName argument s
        = (Throw not_initialized, s)
     /\ getDocumentsByIds JSON_parse toText tableName ids s
        = (Throw not_initialized, s)
     /\ updateDocument JSON_stringify toText tableName id argument s
        = (Throw not_initialized, s)
     /\ deleteDocument toText tableName id s = (Throw not_initialized, s))
  /\ (unusable s = false ->
      (f_title document = JUndefined -> f_content document = JUndefined ->
       f_metadata document = JUndefined ->
       updateDocument JSON_stringify toText tableName id (ObjectWith document) s
       = (Return false, s))
      /\ getDocumentsByIds JSON_parse toText tableName [] s = (Return [], s)).
Proof.
  unfold createDocumentsTable, insertDocument, getDocumentsByIds, updateDocument,
    deleteDocument, throw, ret.
  split.
  - intros Hu. rewrite Hu. repeat split.
  - intros Hu. rewrite Hu. split; [|reflexivity].
    intros Ht Hc Hm. unfold bind, lift, read_fields, updateValues.
    unfold MySQLDatabase.updateFields. rewrite Ht, Hc, Hm.
    reflexivity.
Qed.

(** The failures of the relational store's methods.  A failure of
    [initialize] is DATABASE_CONNECTION_FAILED, as is that of any method
    called too early; past that guard a failure of [createDocumentsTable] is
    TABLE_CREATION_FAILED, of [getDocumentsByIds] SEARCH_FAILED, of
    [insertDocument] and [deleteDocument] VECTOR_SAVE_FAILED.
    [updateDocument] reads its [updates] and stringifies the metadata in
    front of its try block: what these throw comes out as it is, with the
    store untouched, and only a failure of the statement itself is wrapped
    as VECTOR_SAVE_FAILED; [insertDocument] wraps the same failure of
    [JSON.stringify].  [close] has no try block: when ending the pool
    fails, the driver's error comes out as it is and the store keeps its
    pool and its flag. *)
Theorem relational_failures_have_fixed_kinds
  (s s' : t P) (tableName id : jsvalue) (document updates : FieldsArgument)
  (ids : list jsvalue) (e : JSError) :
  let kind_or_early code :=
    error_code e = Some code \/ e = not_initialized in
  (initialize s = (Throw e, s') -> error_code e = Some DATABASE_CONNECTION_FAILED)
  /\ (createDocumentsTable toText tableName s = (Throw e, s') ->
      kind_or_early TABLE_CREATION_FAILED)
  /\ (insertDocument JSON_stringify toText tableName document s = (Throw e, s') ->
      kind_or_early VECTOR_SAVE_FAILED)
  /\ (getDocumentsByIds JSON_parse toText tableName ids s = (Throw e, s') ->
      kind_or_early SEARCH_FAILED)
  /\ (updateDocument JSON_stringify toText tableName id updates s = (Throw e, s') ->
      kind_or_early VECTOR_SAVE_FAILED
      \/ (s' = s
          /\ (read_fields updates = Throw e
              \/ exists fields,
                   read_fields updates = Return fields
                   /\ truthy (f_metadata fields) = true
                   /\ JSON_stringify (f_metadata fields) = Throw e)))
  /\ (forall fields,
        unusable s = false ->
        truthy (f_metadata fields) = true ->
        JSON_stringify (f_metadata fields) = Throw e ->
        updateDocument JSON_stringify toText tableName id (ObjectWith fields) s
        = (Throw e, s)
        /\ insertDocument JSON_stringify toText tableName (ObjectWith fields) s
           = (Throw (wrap (lit "Failed to insert document: ") VECTOR_SAVE_FAILED e), s))
  /\ (unusable s = false -> read_fields updates = Throw e ->
      updateDocument JSON_stringify toText tableName id updates s = (Throw e, s))
  /\ (deleteDocument toText tableName id s = (Throw e, s') ->
      kind_or_early VECTOR_SAVE_FAILED)
  /\ (close s = (Throw e, s') ->
      pool s' = pool s /\ initialized s' = initialized s
      /\ exists p, endPool (driver s) = (Throw e, p)).
Proof.
  intros kind_or_early. subst kind_or_early. cbv beta.
  assert (Hwrap : forall A prefix code (body : M (t P) A) s0,
    try_catch body (always_wrap prefix code) s0 = (Throw e, s') ->
    error_code e = Some code).
  { intros A prefix code body s0. unfold try_catch.
    destruct (body s0) as [[a|e0] s1]; [discriminate|].
    unfold always_wrap, throw, wrap. intros Heq; inversion Heq; reflexivity. }
  split; [|split; [|split; [|split; [|split; [|split; [|split; [|split]]]]]]].
  - unfold initialize. destruct (initialized s); [discriminate|]. apply Hwrap.
  - unfold createDocumentsTable.
    destruct (unusable s);
      [unfold throw; intros Heq; inversion Heq; right; reflexivity|].
    unfold try_catch.
    match goal with
    | |- context [match ?body s with _ => _ end] => destruct (body s) as [[a|e0] s0]
    end; [discriminate|].
    unfold throw, wrap. intros Heq; inversion Heq; left; reflexivity.
  - unfold insertDocument.
    destruct (unusable s);
      [unfold throw; intros Heq; inversion Heq; right; reflexivity|].
    intros Hrun. left. exact (Hwrap _ _ _ _ _ Hrun).
  - unfold getDocumentsByIds.
    destruct (unusable s);
      [unfold throw; intros Heq; inversion Heq; right; reflexivity|].
    destruct ids as [|i0 ids']; [discriminate|].
    intros Hrun. left. exact (Hwrap _ _ _ _ _ Hrun).
  - unfold updateDocument.
    destruct (unusable s);
      [unfold throw; intros Heq; inversion Heq; left; right; reflexivity|].
    unfold bind at 1. unfold lift at 1.
    destruct (read_fields updates) as [fields|e0] eqn:Hread.
    2:{ intros Heq; inversion Heq; subst. right. split; [reflexivity|].
        left. reflexivity. }
    unfold bind at 1. unfold lift at 1.
    destruct (updateValues JSON_stringify fields) as [values|e0] eqn:Hvalues.
    2:{ intros Heq; inversion Heq; subst. right. split; [reflexivity|].
        right. exists fields. split; [reflexivity|].
        unfold updateValues, stringified in Hvalues.
        destruct (MySQLDatabase.defined (f_metadata fields)); [|discriminate].
        destruct (truthy (f_metadata fields)); [|discriminate].
        split; [reflexivity|].
        destruct (JSON_stringify (f_metadata fields)); [discriminate|].
        inversion Hvalues; reflexivity. }
    destruct (MySQLDatabase.updateFields fields); [discriminate|].
    intros Hrun. left. left. exact (Hwrap _ _ _ _ _ Hrun).
  - intros fields Hu Htruthy Hthrow. split.
    + unfold updateDocument. rewrite Hu.
      unfold bind, lift, read_fields, updateValues, stringified.
      rewrite Htruthy, Hthrow.
      destruct (f_metadata fields); try discriminate; reflexivity.
    + unfold insertDocument. rewrite Hu.
      unfold try_catch, bind, lift, read_fields, insertValues, stringified.
      rewrite Htruthy, Hthrow. reflexivity.
  - intros Hu Hread. unfold updateDocument. rewrite Hu.
    unfold bind, lift. rewrite Hread. reflexivity.
  - unfold deleteDocument.
    destruct (unusable s);
      [unfold throw; intros Heq; inversion Heq; right; reflexivity|].
    intros Hrun. left. exact (Hwrap _ _ _ _ _ Hrun).
  - unfold close. destruct (pool s) as [[]|] eqn:Hpool; [|discriminate].
    unfold bind, on_driver.
    destruct (endPool (driver s)) as [[[]|e0] p]; [discriminate|].
    intros Heq; inversion Heq; subst. cbn [pool initialized].
    repeat split; try assumption. exists p. reflexivity.
Qed.

End RelationalStore.

(* ===================================================================== *)
(** * The further statements on concrete inputs *)
(* ===================================================================== *)

Import InMemoryDrivers.

Lemma validateText_result_is_clean_and_stable_witness :
  validateText (JString (lit "Hello world")) (lit "query") = Return (lit "Hello world").
Proof.
  exact (proj2 (proj2 (proj2 (proj2
    (validateText_result_is_clean_and_stable
       (JString (lit "  Hello world  ")) (lit "text") (lit "query") eq_refl))))).
Defined.

(** A store that declines the insert: [save] returns [false], it does not
    throw. *)
Lemma save_returns_the_storage_flag_witness :
  fst (@RAGModule.save unit rows engine declining_store
         {| sr_id := JNumber (NumInt 1); sr_text := JString (lit "a");
            sr_tablename := JString (lit "t") |} ready)
  = Return false.
Proof.
  exact (f_equal fst
    (@save_returns_the_storage_flag unit rows engine declining_store ready
       {| sr_id := JNumber (NumInt 1); sr_text := JString (lit "a");
          sr_tablename := JString (lit "t") |}
       _ _ false _ _ _ eq_refl eq_refl eq_refl eq_refl eq_refl)).
Defined.

(** A search request with all three fields at fault surfaces the text's
    error, under the field name 'Search text'. *)
Lemma search_validates_before_any_call_witness :
  RAGModule.search
    {| qr_text := JString []; qr_tablename := JString (lit "1invalid");
       qr_qty := JNumber (NumInt 0) |} ready
  = (Throw (RAGError (lit "Search text cannot be empty") INVALID_INPUT None), ready).
Proof.
  exact (search_validates_before_any_call ready
           {| qr_text := JString []; qr_tablename := JString (lit "1invalid");
              qr_qty := JNumber (NumInt 0) |} eq_refl).
Defined.

(** A search over a collection that holds nothing returns the empty list. *)
Lemma search_returns_the_service_result_witness :
  fst (RAGModule.search
         {| qr_text := JString (lit "a"); qr_tablename := JString (lit "t");
            qr_qty := JNumber (NumInt 5) |} ready)
  = Return [].
Proof.
  exact (f_equal fst
    (search_returns_the_service_result ready
       {| qr_text := JString (lit "a"); qr_tablename := JString (lit "t");
          qr_qty := JNumber (NumInt 5) |}
       (validated := {| qr_text := JString (lit "a"); qr_tablename := JString (lit "t");
                        qr_qty := JNumber (NumInt 5) |})
       eq_refl eq_refl eq_refl eq_refl)).
Defined.

Lemma initialize_opens_the_store_only_after_the_engine_witness :
  RAGModule.initialize fresh
  = (Return tt,
     {| RAGModule.config := cfg; RAGModule.initialized := true;
        RAGModule.embeddingService := tt; RAGModule.databaseService := [];
        RAGModule.calls := [EmbeddingInitialize (modelPath cfg);
                            DatabaseInitialize (databasePath cfg)] |}).
Proof.
  exact (initialize_opens_the_store_only_after_the_engine fresh eq_refl).
Defined.

Lemma close_clears_the_flag_only_on_full_success_witness :
  RAGModule.close ready
  = (Return tt,
     {| RAGModule.config := cfg; RAGModule.initialized := false;
        RAGModule.embeddingService := tt; RAGModule.databaseService := [];
        RAGModule.calls := [EmbeddingClose; DatabaseClose] |}).
Proof.
  exact (close_clears_the_flag_only_on_full_success ready eq_refl).
Defined.

Lemma closed_instance_can_be_initialized_again_witness :
  RAGModule.initialized (snd (RAGModule.close ready)) = false.
Proof.
  exact (proj1 (closed_instance_can_be_initialized_again ready
                  (s' := snd (RAGModule.close ready)) eq_refl eq_refl)).
Defined.

Lemma saveDocument_reuses_the_generated_id_witness :
  fst (HybridRAGModule.saveDocument a_document hybrid_ready) = Return (JNumber (NumInt 1))
  /\ In (InsertVector docs (JNumber (NumInt 1)) [NumInt 1; NumInt 0])
        (HybridRAGModule.calls (snd (HybridRAGModule.saveDocument a_document hybrid_ready))).
Proof.
  pose proof (saveDocument_reuses_the_generated_id hybrid_ready a_document
                (validated := a_document) (b := true)
                eq_refl eq_refl eq_refl eq_refl eq_refl eq_refl eq_refl) as Hrun.
  rewrite Hrun. split; [reflexivity|].
  cbn [snd HybridRAGModule.calls]. right. right. right. right. left. reflexivity.
Defined.

(** With an engine that fails, the document row stays although
    [saveDocument] throws. *)
Lemma saveDocument_never_undoes_the_insert_witness :
  List.length
    (HybridRAGModule.mysqlDatabase
       (snd (@HybridRAGModule.saveDocument unit rows documents broken_engine store library
               a_document hybrid_ready)))
  = 1%nat.
Proof.
  exact (f_equal (@List.length _)
    (proj1 (@saveDocument_never_undoes_the_insert unit rows documents
              broken_engine store library hybrid_ready a_document a_document
              _ _ _ eq_refl eq_refl eq_refl eq_refl))).
Defined.

Lemma searchDocuments_without_matches_skips_the_document_store_witness :
  fst (HybridRAGModule.searchDocuments a_query hybrid_ready) = Return [].
Proof.
  exact (f_equal fst
    (searchDocuments_without_matches_skips_the_document_store hybrid_ready a_query
       (validated := a_query) eq_refl eq_refl eq_refl eq_refl)).
Defined.

Lemma searchDocuments_numbers_results_by_position_witness :
  exists results,
    fst (HybridRAGModule.searchDocuments a_query one_document) = Return results
    /\ List.length results = 1%nat.
Proof.
  edestruct (searchDocuments_numbers_results_by_position one_document a_query
               (validated := a_query)) as [results [Hrun [_ [Hlen _]]]];
    [reflexivity | reflexivity | cbv; reflexivity | cbv; reflexivity
     | cbv; reflexivity |].
  exists results. split; [exact Hrun | exact Hlen].
Defined.

Lemma control_characters_reach_the_engine_as_empty_text_witness :
  RAGModule.calls (snd (RAGModule.embed {| er_text := JString [0%N; 31%N] |} ready))
  = [EmbeddingEmbed (JString [])].
Proof.
  refine (proj2 (control_characters_reach_the_engine_as_empty_text ready
                   (text := [0%N; 31%N]) eq_refl _ _ _)).
  - discriminate.
  - vm_compute. discriminate.
  - repeat constructor.
Defined.

Lemma validateVector_reports_the_first_offending_index_witness :
  exists i v,
    nth_error [JNumber (NumInt 1); JString (lit "string"); JNumber (NumInt 3)] i = Some v
    /\ ~ ConfigAndVectors.finite_number v
    /\ (forall j w, (j < i)%nat ->
          nth_error [JNumber (NumInt 1); JString (lit "string"); JNumber (NumInt 3)] j
          = Some w -> ConfigAndVectors.finite_number w)
    /\ (invalid (lit "Vector element at index 1 must be a number")
        = invalid (lit "Vector element at index " ++ ConfigAndVectors.index_text i
                   ++ lit " must be a number")
        \/ invalid (lit "Vector element at index 1 must be a number")
           = invalid (lit "Vector element at index " ++ ConfigAndVectors.index_text i
                      ++ lit " must be a finite number")).
Proof.
  apply validateVector_reports_the_first_offending_index.
  - simpl. lia.
  - reflexivity.
Defined.

Lemma validateConfig_keeps_known_settings_and_is_stable_witness :
  ConfigAndVectors.validateConfig
    (JObject [(lit "modelPath", JString (lit "./model.gguf"))])
  = Return [(lit "modelPath", JString (lit "./model.gguf"))].
Proof.
  exact (proj2 (validateConfig_keeps_known_settings_and_is_stable
    (JObject [(lit "unknownProperty", JString (lit "should be ignored"));
              (lit "modelPath", JString (lit "  ./model.gguf  "))])
    eq_refl)).
Defined.

Lemma constructor_fills_in_defaults_witness :
  trim (lit "./model.gguf") = lit "./model.gguf".
Proof.
  exact (proj1 (proj2 (constructor_fills_in_defaults
    (JObject [(lit "modelPath", JString (lit "  ./model.gguf  "));
              (lit "logLevel", JString (lit "debug"))])
    (cfg := {| modelPath := lit "./model.gguf"; databasePath := lit "./rag.db" |})
    (level := lit "debug") eq_refl))).
Defined.

Lemma validated_requests_pass_the_lower_layers_witness :
  SQLiteVectorSearchService.validateSearchInputs (JString (lit "docs")) [NumInt 1]
    (JNumber (NumInt 5)) = Return tt
  /\ SQLiteVectorDatabaseMethods.isValidTableName (lit "docs") = true.
Proof.
  refine (validated_requests_pass_the_lower_layers
            (JString (lit " docs ")) (JNumber (NumInt 5)) (q := [NumInt 1])
            eq_refl eq_refl _ eq_refl).
  discriminate.
Defined.

Lemma database_opens_once_and_closes_witness :
  SQLiteVectorDatabase.initialize (lit "./rag.db") opened_database
  = (Return tt, opened_database).
Proof.
  exact (proj1 (proj2 (database_opens_once_and_closes unopened_database
                         (lit "./rag.db") (d1 := []) (d2 := []) (d3 := [])
                         eq_refl eq_refl eq_refl eq_refl))).
Defined.

(** Re-initialising a working engine on a model that cannot be loaded
    leaves no engine at all. *)
Lemma failed_initialize_unloads_the_engine_witness :
  NoMicEmbeddingService.initialized
    (snd (@NoMicEmbeddingService.initialize unit llama_without_model
            (lit "./missing.gguf") engine_on_old_model)) = false.
Proof.
  refine (proj1 (@failed_initialize_unloads_the_engine unit llama_without_model
                   (fun n => n) engine_on_old_model _ (lit "./missing.gguf") _ _)).
  cbv. reflexivity.
Defined.

Lemma control_characters_are_refused_by_the_engine_witness :
  fst (@RAGModule.embed _ rows (NoMicEmbeddingService.service (fun n => n))
         {| er_text := JString [0%N] |} over_loaded_engine)
  = Throw (RAGError (lit "Text input cannot be empty") INVALID_INPUT None).
Proof.
  refine (f_equal fst
    (@control_characters_are_refused_by_the_engine nat rows llama_works (fun n => n)
       over_loaded_engine [0%N] eq_refl eq_refl _ _ _ _)).
  - discriminate.
  - discriminate.
  - vm_compute. discriminate.
  - repeat constructor.
Defined.

(** With an engine that fails on every text, [saveDocument] throws a
    RAGError. *)
Lemma hybrid_failures_are_taxonomy_errors_witness :
  instanceof_RAGError
    (match fst (@HybridRAGModule.saveDocument unit rows documents broken_engine store
                  library a_document hybrid_ready) with
     | Throw e => e
     | Return _ => NativeError []
     end) = true.
Proof.
  refine (proj1 (proj2 (proj2 (proj2 (proj2
            (@hybrid_failures_are_taxonomy_errors unit rows documents
               broken_engine store searcher library hybrid_ready)))))
            a_document _
            (snd (@HybridRAGModule.saveDocument unit rows documents broken_engine store
                    library a_document hybrid_ready)) eq_refl _).
  vm_compute. reflexivity.
Defined.

(** A limit of 0 is refused before the database service is asked. *)
Lemma search_service_validates_before_it_queries_witness :
  exists e',
    SQLiteVectorSearchService.search (JString (lit "docs")) [NumInt 1]
      (JNumber (NumInt 0)) ([] : rows)
    = (Throw e', [])
    /\ instanceof_RAGError e' = true.
Proof.
  eapply (proj1 (search_service_validates_before_it_queries
                   (JString (lit "docs")) [NumInt 1] (JNumber (NumInt 0)) ([] : rows))).
  reflexivity.
Defined.

(** On an open database a table name with a space is refused, and no
    statement is run. *)
Lemma database_methods_refuse_without_touching_the_driver_witness :
  SQLiteVectorDatabaseMethods.createTableIfNotExists (lit "my docs") opened_database
  = (Throw SQLiteVectorDatabaseMethods.invalid_table_name, opened_database).
Proof.
  eapply (proj1 (proj1 (proj2
            (database_methods_refuse_without_touching_the_driver (fun _ => [])
               opened_database (lit "my docs") (NumInt 1) [] (JNumber (NumInt 1))))
            eq_refl eq_refl)).
Defined.

(** A loaded engine refuses a text of spaces, and computes nothing. *)
Lemma engine_refuses_without_computing_witness :
  NoMicEmbeddingService.embed (fun n => n) (JString (lit "   ")) loaded_engine
  = (Throw empty_text_input, loaded_engine).
Proof.
  refine (proj2 (engine_refuses_without_computing (fun n => n) loaded_engine
                   (JString (lit "   "))) eq_refl _ _).
  - discriminate.
  - right. exists (lit "   "). split; reflexivity.
Defined.

(** A store that was never connected refuses a delete. *)
Lemma relational_requests_that_never_reach_the_pool_witness :
  MySQLDatabaseMethods.deleteDocument (fun _ => []) docs (JNumber (NumInt 1))
    unconnected_mysql
  = (Throw MySQLDatabaseMethods.not_initialized, unconnected_mysql).
Proof.
  refine (proj2 (proj2 (proj2 (proj2 (proj1
            (relational_requests_that_never_reach_the_pool
               (fun v => Return v) (fun v => Return v) (fun _ => [])
               unconnected_mysql docs (JNumber (NumInt 1))
               MySQLDatabaseMethods.UndefinedArgument
               {| f_title := JUndefined; f_content := JUndefined;
                  f_metadata := JUndefined |} []) eq_refl))))).
Defined.

(** On a connected store, metadata that [JSON.stringify] refuses makes
    [updateDocument] throw the TypeError as it is; and with the server
    gone, [close] lets the driver's own error through, keeping the pool. *)
Lemma relational_failures_have_fixed_kinds_witness :
  MySQLDatabaseMethods.updateDocument unserialisable (fun _ => []) docs
    (JNumber (NumInt 1)) (MySQLDatabaseMethods.ObjectWith cyclic_metadata)
    connected_mysql
  = (Throw (NativeError (lit "Converting circular structure to JSON")), connected_mysql)
  /\ MySQLDatabaseMethods.pool
       (snd (@MySQLDatabaseMethods.close unit mysql_down mysql_with_pool))
     = Some tt.
Proof.
  split.
  - refine (proj1 (proj1 (proj2 (proj2 (proj2 (proj2 (proj2
              (relational_failures_have_fixed_kinds
                 unserialisable (fun v => Return v) (fun _ => [])
                 connected_mysql connected_mysql docs (JNumber (NumInt 1))
                 MySQLDatabaseMethods.UndefinedArgument
                 MySQLDatabaseMethods.UndefinedArgument []
                 (NativeError (lit "Converting circular structure to JSON"))))))))
              cyclic_metadata eq_refl eq_refl eq_refl)).
  - refine (proj1 (proj2 (proj2 (proj2 (proj2 (proj2 (proj2 (proj2 (proj2
              (@relational_failures_have_fixed_kinds unit mysql_down
                 (fun v => Return v) (fun v => Return v) (fun _ => [])
                 mysql_with_pool _ docs (JNumber (NumInt 1))
                 MySQLDatabaseMethods.UndefinedArgument
                 MySQLDatabaseMethods.UndefinedArgument []
                 (NativeError (lit "Connection lost")))))))))) _)).
    cbv. reflexivity.
Defined.
